(** * egov-law-mcp: the XML-to-document parser, the article locator, the
    renderer, the TTL disk cache and the retrying client, embedded in Rocq.

    Sources embedded here:
    - [src/api/parser.ts]   ([Parser]: ensureArray, extractText, the renderer,
      the table of contents, findArticle, normalizeArticleNum, parseLawText,
      parseArticle);
    - [src/cache/law-cache.ts] ([LawCache]: getCacheKey, getCachePath, getTtl,
      ensureInitialized, get, set, delete);
    - [src/api/client.ts]   ([Client]: fetchWithRetry, getLawById, getArticle).

    JavaScript strings are sequences of UTF-16 code units, decoded XML is the
    tree of objects, arrays and primitives that fast-xml-parser returns, and
    the file system, the clock and the network are explicit state. *)

From Stdlib Require Import ZArith NArith List String Ascii Bool Lia.
From stdpp Require Import base option list gmap.
Import ListNotations.

Local Open Scope N_scope.
Set Warnings "-register-all".

(** ** JavaScript strings *)

Module Js.

(** A JavaScript string: its UTF-16 code units. *)
Abbreviation jsstring := (list N).

(** Code points of a UTF-8 byte sequence (the bytes of a literal of this
    file). *)
Fixpoint utf8_points (bs : list N) : list N :=
  match bs with
  | [] => []
  | b0 :: r0 =>
    if b0 <? 128 then b0 :: utf8_points r0
    else match r0 with
    | [] => []
    | b1 :: r1 =>
      if b0 <? 224 then ((b0 - 192) * 64 + (b1 - 128)) :: utf8_points r1
      else match r1 with
      | [] => []
      | b2 :: r2 =>
        if b0 <? 240
        then ((b0 - 224) * 4096 + (b1 - 128) * 64 + (b2 - 128)) :: utf8_points r2
        else match r2 with
        | [] => []
        | b3 :: r3 =>
          ((b0 - 240) * 262144 + (b1 - 128) * 4096 + (b2 - 128) * 64 + (b3 - 128))
            :: utf8_points r3
        end
      end
    end
  end.

(** The UTF-16 code units of one code point. *)
Definition units_of_point (cp : N) : jsstring :=
  if cp <? 65536 then [cp]
  else [55296 + (cp - 65536) / 1024; 56320 + (cp - 65536) mod 1024].

(** The JavaScript string a literal of this file denotes. *)
Definition js (s : string) : jsstring :=
  flat_map units_of_point (utf8_points (List.map N_of_ascii (list_ascii_of_string s))).

(** ["\n"] *)
Definition nl : jsstring := [10].

Definition str_eqb (a b : jsstring) : bool := bool_decide (a = b).

(** [Array.prototype.join(sep)] on an array of strings. *)
Fixpoint join (sep : jsstring) (parts : list jsstring) : jsstring :=
  match parts with
  | [] => []
  | [p] => p
  | p :: rest => p ++ sep ++ join sep rest
  end.

(** [parts.join('')] *)
Definition concat_all (parts : list jsstring) : jsstring := join [] parts.

(** [String(n)] for a non-negative integer below 10^21: its decimal digits. *)
Fixpoint uint_units (d : Decimal.uint) : jsstring :=
  match d with
  | Decimal.Nil => []
  | Decimal.D0 d => 48 :: uint_units d
  | Decimal.D1 d => 49 :: uint_units d
  | Decimal.D2 d => 50 :: uint_units d
  | Decimal.D3 d => 51 :: uint_units d
  | Decimal.D4 d => 52 :: uint_units d
  | Decimal.D5 d => 53 :: uint_units d
  | Decimal.D6 d => 54 :: uint_units d
  | Decimal.D7 d => 55 :: uint_units d
  | Decimal.D8 d => 56 :: uint_units d
  | Decimal.D9 d => 57 :: uint_units d
  end.

Definition String_of_N (n : N) : jsstring := uint_units (N.to_uint n).

(** [s.repeat(n)] *)
Fixpoint repeat_str (s : jsstring) (n : nat) : jsstring :=
  match n with
  | O => []
  | S n' => s ++ repeat_str s n'
  end.

(** The longest prefix of [s] whose units satisfy [p]. *)
Fixpoint span_while (p : N -> bool) (s : jsstring) : jsstring :=
  match s with
  | [] => []
  | c :: r => if p c then c :: span_while p r else []
  end.

(** The string iterator ([for (const char of s)]): one string per code point, a
    surrogate pair read as one character. *)
Definition is_high_surrogate (c : N) : bool := (55296 <=? c) && (c <=? 56319).
Definition is_low_surrogate (c : N) : bool := (56320 <=? c) && (c <=? 57343).

Fixpoint string_iterator (s : jsstring) : list jsstring :=
  match s with
  | [] => []
  | c :: r =>
    match r with
    | d :: r' =>
      if is_high_surrogate c && is_low_surrogate d
      then [c; d] :: string_iterator r'
      else [c] :: string_iterator r
    | [] => [[c]]
    end
  end.

End Js.
Import Js.

(** ** Exceptions *)

(** A thrown [Error]: its [name], its [message] and, for a rejected file-system
    call, its [code]. *)
Record error := mkError {
  err_name : string;
  err_message : jsstring;
  err_code : option string
}.

(** The outcome of a call that may throw (or of a promise that may reject). *)
Inductive result (A : Type) : Type :=
| Ok (a : A)
| Throw (e : error).

Arguments Ok {A} a.
Arguments Throw {A} e.

(** ** Decoded XML and the article parser ([src/api/parser.ts]) *)

Module Parser.

(** JavaScript numbers are IEEE doubles; the parser only converts them from and
    to strings, tests them for truth and compares them, so these four
    primitives of the language are taken as an interface. *)
Class JsNumber := {
  number : Type;
  (** [Number(s)] on a string *)
  num_of_string : jsstring -> number;
  (** [String(n)] *)
  num_to_string : number -> jsstring;
  (** [ToBoolean(n)]: false on 0, -0 and NaN *)
  num_truthy : number -> bool;
  (** [n === m] *)
  num_strict_eq : number -> number -> bool
}.

Section Tree.

Context {num : JsNumber}.

(** What [XMLParser.parse] returns (options: attributes kept under the prefix
    [@_], text nodes under [#text], the listed tags always arrays): element
    content is a string, a number or a boolean (tag values are parsed), an
    array, or an object whose fields keep the order of first occurrence.  The
    decoder never produces [null] or [undefined]; a field that is absent reads
    as [None]. *)
Inductive value : Type :=
| VStr (s : jsstring)
| VNum (n : number)
| VBool (b : bool)
| VArr (items : list value)
| VObj (fields : list (string * value)).

(** [ToBoolean] *)
Definition truthy (v : value) : bool :=
  match v with
  | VStr s => negb (str_eqb s [])
  | VNum n => num_truthy n
  | VBool b => b
  | VArr _ | VObj _ => true
  end.

Definition truthy_opt (o : option value) : bool :=
  match o with
  | Some v => truthy v
  | None => false
  end.

(** [a || b] where both may be [undefined] *)
Definition or_else (a b : option value) : option value :=
  if truthy_opt a then a else b.

(** [a || b] where [b] is a value *)
Definition or_value (a : option value) (b : value) : value :=
  match a with
  | Some v => if truthy v then v else b
  | None => b
  end.

Fixpoint lookup_field (fields : list (string * value)) (key : string) : option value :=
  match fields with
  | [] => None
  | (k, v) :: rest => if String.eqb k key then Some v else lookup_field rest key
  end.

(** [node[key]] for the keys the parser reads (tag names, [@_] attributes and
    [#text]): none of them is a property of a primitive, of an array or of
    [Object.prototype], so only an object's own fields answer. *)
Definition getProp (node : value) (key : string) : option value :=
  match node with
  | VObj fields => lookup_field fields key
  | _ => None
  end.

(** [Object.values(obj)] for a truthy non-string, non-number [obj] *)
Definition Object_values (obj : value) : list value :=
  match obj with
  | VObj fields => List.map snd fields
  | VArr items => items
  | _ => []
  end.

(** [String(x)] *)
Fixpoint String_of_value (v : value) : jsstring :=
  match v with
  | VStr s => s
  | VNum n => num_to_string n
  | VBool true => js "true"
  | VBool false => js "false"
  | VArr items => join (js ",") (List.map String_of_value items)
  | VObj _ => js "[object Object]"
  end.

Definition String_of (x : option value) : jsstring :=
  match x with
  | None => js "undefined"
  | Some v => String_of_value v
  end.

(** [Number(x)]: a number is itself, a boolean is 1 or 0, anything else goes
    through its string ([undefined] and objects give NaN, as their strings do). *)
Definition Number_of (x : option value) : number :=
  match x with
  | Some (VNum n) => n
  | Some (VBool true) => num_of_string (js "1")
  | Some (VBool false) => num_of_string (js "0")
  | _ => num_of_string (String_of x)
  end.

(** Nesting depth, the measure of every recursive descent below. *)
Fixpoint vdepth (v : value) : nat :=
  match v with
  | VArr items => S (list_max (List.map vdepth items))
  | VObj fields => S (list_max (List.map (fun '(_, x) => vdepth x) fields))
  | _ => O
  end.

(** ensureArray *)
Definition ensureArray (x : option value) : list value :=
  match x with
  | None => []
  | Some (VArr items) => items
  | Some v => [v]
  end.

(** *** Recursion over the decoded tree

    The source's recursive functions descend through property lookups; each is
    written as its body over a [self] for the recursive calls and closed by
    iterating the body more often than the tree is deep. *)
Section Descent.

Context {A R : Type} (bottom : R) (body : (value -> A -> R) -> value -> A -> R).

Fixpoint iterate (n : nat) (v : value) (a : A) : R :=
  match n with
  | O => bottom
  | S n' => body (iterate n') v a
  end.

Definition descend (v : value) (a : A) : R := iterate (S (vdepth v)) v a.

End Descent.


(** [x] when it is truthy: the guard [if (!x) return ...] passed. *)
Definition if_truthy (x : option value) : option value :=
  if truthy_opt x then x else None.

(** *** extractText *)

(** What the loop of extractText pushes for one field value. *)
Definition textPieces (self : value -> jsstring) (x : value) : list jsstring :=
  match x with
  | VStr s => [s]
  | VArr vs => List.map self vs
  | VObj _ => [self x]
  | _ => []
  end.

Definition extractText_body (self : value -> unit -> jsstring)
    (node : value) (_ : unit) : jsstring :=
  if negb (truthy node) then []
  else match node with
  | VStr s => s
  | VNum n => num_to_string n
  | obj =>
    if truthy_opt (getProp obj "#text") then String_of (getProp obj "#text")
    else
      (* 子要素からテキストを結合 *)
      concat_all (flat_map (textPieces (fun v => self v tt)) (Object_values obj))
  end.

Definition extractText_value (node : value) : jsstring :=
  descend [] extractText_body node tt.

(** extractText: [undefined] is falsy and gives the empty string. *)
Definition extractText (node : option value) : jsstring :=
  match node with
  | None => []
  | Some v => extractText_value v
  end.

(** extractSentenceText *)
Definition extractSentenceText (sentence : option value) : jsstring :=
  match if_truthy sentence with
  | None => []
  | Some (VStr s) => s
  | Some s =>
    let sentences := ensureArray (Some (or_value (getProp s "Sentence") s)) in
    concat_all (List.map extractText_value sentences)
  end.

(** *** The renderer *)

(** extractItemContent *)
Definition extractItemContent_body (self : value -> nat -> jsstring)
    (item : value) (level : nat) : jsstring :=
  let num := getProp item "@_Num" in
  let indent := repeat_str (js "  ") level in
  let sentence := getProp item "ItemSentence" in
  let parts :=
    if truthy_opt sentence
    then [indent ++ String_of num ++ js "　" ++ extractSentenceText sentence]
    else [] in
  (* 下位の号 *)
  let subitems :=
    ensureArray (or_else (getProp item "Subitem1") (getProp item "Subitem2")) in
  join nl (parts ++ List.map (fun subitem => self subitem (S level)) subitems).

Definition extractItemContent (item : value) (level : nat) : jsstring :=
  descend [] extractItemContent_body item level.

(** [num && num !== '1'] *)
Definition numbered (num : option value) : bool :=
  truthy_opt num &&
  match num with
  | Some (VStr s) => negb (str_eqb s (js "1"))
  | _ => true
  end.

(** extractParagraphContent *)
Definition extractParagraphContent (paragraph : value) : jsstring :=
  let num := getProp paragraph "@_Num" in
  let sentence := getProp paragraph "ParagraphSentence" in
  let parts :=
    if truthy_opt sentence
    then
      let prefix := if numbered num then String_of num ++ js "　" else [] in
      [prefix ++ extractSentenceText sentence]
    else [] in
  let items := ensureArray (getProp paragraph "Item") in
  join nl (parts ++ List.map (fun item => extractItemContent item 1) items).

(** [targetParagraph !== undefined && Number(paraNum) !== targetParagraph] *)
Definition other_paragraph (targetParagraph : option number)
    (paraNum : option value) : bool :=
  match targetParagraph with
  | None => false
  | Some target => negb (num_strict_eq (Number_of paraNum) target)
  end.

(** The caption and title lines of extractArticleContent. *)
Definition articleHeading (article : value) : list jsstring :=
  let caption := getProp article "ArticleCaption" in
  let title := getProp article "ArticleTitle" in
  let num := getProp article "@_Num" in
  let parts :=
    if truthy_opt caption
    then [js "**" ++ extractText caption ++ js "**"]
    else [] in
  if truthy_opt title || truthy_opt num
  then
    let titleText :=
      if truthy_opt title then extractText title
      else js "第" ++ String_of num ++ js "条" in
    parts ++ [js "**" ++ titleText ++ js "**" ++ nl]
  else parts.

(** extractArticleContent: the loop over the paragraphs pushes onto [parts]
    and skips ([continue]) the paragraphs the filter excludes. *)
Definition extractArticleContent (article : value)
    (targetParagraph : option number) : jsstring :=
  let parts := articleHeading article in
  let paragraphs := ensureArray (getProp article "Paragraph") in
  let parts :=
    fold_left (fun parts para =>
      let paraNum := getProp para "@_Num" in
      if other_paragraph targetParagraph paraNum then parts
      else parts ++ [extractParagraphContent para]) paragraphs parts in
  join nl parts.

(** The optional [### title] line of a container. *)
Definition titleLine (hashes : string) (title : option value) : list jsstring :=
  if truthy_opt title
  then [js hashes ++ js " " ++ extractText title ++ nl]
  else [].

(** extractSectionContent *)
Definition extractSectionContent (section : value) : jsstring :=
  let parts := titleLine "#####" (getProp section "SectionTitle") in
  let articles := ensureArray (getProp section "Article") in
  join nl (parts ++ List.map (fun article => extractArticleContent article None) articles).

(** extractChapterContent *)
Definition extractChapterContent (chapter : value) : jsstring :=
  let parts := titleLine "####" (getProp chapter "ChapterTitle") in
  let sections := ensureArray (getProp chapter "Section") in
  let parts := parts ++ List.map extractSectionContent sections in
  let parts :=
    match sections with
    | [] =>
      let articles := ensureArray (getProp chapter "Article") in
      parts ++ List.map (fun article => extractArticleContent article None) articles
    | _ => parts
    end in
  join nl parts.

(** extractPartContent *)
Definition extractPartContent (part : value) : jsstring :=
  let parts := titleLine "###" (getProp part "PartTitle") in
  let chapters := ensureArray (getProp part "Chapter") in
  join nl (parts ++ List.map extractChapterContent chapters).

(** extractMainProvisionContent: both the chapters and the articles are
    rendered when there is no Part. *)
Definition extractMainProvisionContent (mainProvision : value) : jsstring :=
  let partsList := ensureArray (getProp mainProvision "Part") in
  let parts := List.map extractPartContent partsList in
  let parts :=
    match partsList with
    | [] => parts ++ List.map extractChapterContent
                       (ensureArray (getProp mainProvision "Chapter"))
    | _ => parts
    end in
  let parts :=
    match partsList with
    | [] => parts ++ List.map (fun article => extractArticleContent article None)
                       (ensureArray (getProp mainProvision "Article"))
    | _ => parts
    end in
  join nl parts.

(** extractParagraphsText *)
Definition extractParagraphsText (node : value) : jsstring :=
  join nl (List.map extractParagraphContent (ensureArray (getProp node "Paragraph"))).

(** extractSupplementaryContent *)
Definition extractSupplementaryContent (supp : value) : jsstring :=
  let parts := titleLine "###" (getProp supp "SupplementaryProvisionLabel") in
  let articles := ensureArray (getProp supp "Article") in
  join nl (parts ++ List.map (fun article => extractArticleContent article None) articles).

(** extractLawContent *)
Definition extractLawContent (lawBody : value) : jsstring :=
  let parts :=
    match if_truthy (getProp lawBody "Preamble") with
    | Some preamble => [js "## 前文" ++ nl; extractParagraphsText preamble]
    | None => []
    end in
  let parts :=
    match if_truthy (getProp lawBody "MainProvision") with
    | Some mainProvision =>
      parts ++ [js "## 本則" ++ nl; extractMainProvisionContent mainProvision]
    | None => parts
    end in
  let parts :=
    match if_truthy (getProp lawBody "SupplementaryProvisions") with
    | Some supplementaryProvisions =>
      parts ++ [js "## 附則" ++ nl]
            ++ List.map extractSupplementaryContent
                 (ensureArray (Some supplementaryProvisions))
    | None => parts
    end in
  join nl parts.

(** *** The table of contents *)

Inductive TocItem : Type :=
| mkTocItem (title : jsstring) (ref : jsstring) (children : option (list TocItem)).

(** getTypePrefix *)
Definition getTypePrefix (type : string) : jsstring :=
  if List.existsb (String.eqb type)
       ["Part"; "Chapter"; "Section"; "Subsection"; "Article"]%string
  then js "第"
  else [].

(** The loop over [childTypes] of extractTocItem: the first child type with
    children sets [item.children] and ends the loop. *)
Fixpoint tocChildren (self : value -> string -> option TocItem) (node : value)
    (childTypes : list string) : option (list TocItem) :=
  match childTypes with
  | [] => None
  | childType :: rest =>
    match ensureArray (getProp node childType) with
    | [] => tocChildren self node rest
    | children => Some (omap (fun child => self child childType) children)
    end
  end.

(** extractTocItem *)
Definition extractTocItem_body (self : value -> string -> option TocItem)
    (node : value) (type : string) : option TocItem :=
  if negb (truthy node) then None
  else
    let titleKey := String.append type "Title" in
    let numKey := "@_Num"%string in
    let title := or_else (getProp node titleKey) (getProp node numKey) in
    if negb (truthy_opt title) then None
    else
      Some (mkTocItem
        (extractText title)
        (getTypePrefix type ++ String_of_value (or_value (getProp node numKey) (VStr [])))
        (tocChildren self node ["Chapter"; "Section"; "Subsection"; "Article"]%string)).

Definition extractTocItem (node : value) (type : string) : option TocItem :=
  descend None extractTocItem_body node type.

(** extractToc *)
Definition extractToc (lawBody : value) : list TocItem :=
  match if_truthy (getProp lawBody "MainProvision") with
  | None => []
  | Some mainProvision =>
    let toc :=
      omap (fun part => extractTocItem part "Part")
           (ensureArray (getProp mainProvision "Part")) in
    let toc :=
      toc ++ omap (fun chapter => extractTocItem chapter "Chapter")
                  (ensureArray (getProp mainProvision "Chapter")) in
    (* 章がない場合は条を直接追加 *)
    match toc with
    | [] =>
      List.map (fun article =>
        let articleTitle :=
          or_else (getProp article "ArticleTitle") (getProp article "@_Num") in
        mkTocItem (extractText articleTitle)
                  (js "第" ++ String_of (getProp article "@_Num") ++ js "条")
                  None)
        (ensureArray (getProp mainProvision "Article"))
    | _ => toc
    end
  end.

(** *** The numeral normalizer *)

Definition is_digit (c : N) : bool := (48 <=? c) && (c <=? 57).

(** [articleStr.match(/\d+/)]: the leftmost maximal run of ASCII digits. *)
Fixpoint match_digits (s : jsstring) : option jsstring :=
  match s with
  | [] => None
  | c :: r => if is_digit c then Some (c :: span_while is_digit r) else match_digits r
  end.

(** The line terminators, which [.] does not match. *)
Definition is_line_terminator (c : N) : bool :=
  (c =? 10) || (c =? 13) || (c =? 8232) || (c =? 8233).

(** 第 and 条 *)
Definition DAI : N := 31532.
Definition JO : N := 26465.

(** The longest [p] with [run = p ++ stop :: _]. *)
Fixpoint longest_before (stop : N) (run : jsstring) : option jsstring :=
  match run with
  | [] => None
  | c :: r =>
    match longest_before stop r with
    | Some p => Some (c :: p)
    | None => if c =? stop then Some [] else None
    end
  end.

(** What [(.+)条] captures right after a 第: greedy, at least one unit, no
    line terminator. *)
Definition capture_after_dai (rest : jsstring) : option jsstring :=
  match span_while (fun c => negb (is_line_terminator c)) rest with
  | [] => None
  | c :: run =>
    match longest_before JO run with
    | Some p => Some (c :: p)
    | None => None
    end
  end.

(** [articleStr.match(/第(.+)条/)], its group 1: the leftmost 第 from which the
    pattern matches. *)
Fixpoint match_dai_jo (s : jsstring) : option jsstring :=
  match s with
  | [] => None
  | c :: rest =>
    if c =? DAI
    then match capture_after_dai rest with
         | Some kanjiPart => Some kanjiPart
         | None => match_dai_jo rest
         end
    else match_dai_jo rest
  end.

Definition kanjiNums_table : list (jsstring * N) :=
  [ (js "一", 1); (js "二", 2); (js "三", 3); (js "四", 4); (js "五", 5);
    (js "六", 6); (js "七", 7); (js "八", 8); (js "九", 9);
    (js "十", 10); (js "百", 100) ].

(** [kanjiNums[char]] *)
Definition kanjiNums (char : jsstring) : option N :=
  snd <$> List.find (fun entry => str_eqb (fst entry) char) kanjiNums_table.

(** One turn of the loop over the characters: the state is [(result, temp)]. *)
Definition kanjiStep (state : N * N) (char : jsstring) : N * N :=
  let '(result, temp) := state in
  match kanjiNums char with
  | None => (result, temp)
  | Some num =>
    if num =? 10 then (result + (if temp =? 0 then 10 else temp * 10), 0)
    else if num =? 100 then (result + (if temp =? 0 then 100 else temp * 100), 0)
    else (result, num)
  end.

(** normalizeArticleNum *)
Definition normalizeArticleNum (articleStr : jsstring) : jsstring :=
  (* 既に数字の場合 *)
  match match_digits articleStr with
  | Some numMatch => numMatch
  | None =>
    (* 漢数字を変換 *)
    match match_dai_jo articleStr with
    | None => articleStr
    | Some kanjiPart =>
      let '(result, temp) := fold_left kanjiStep (string_iterator kanjiPart) (0, 0) in
      String_of_N (result + temp)
    end
  end.

(** *** The article locator *)

(** The first answer of [f] along [l]. *)
Fixpoint first_found {X Y : Type} (f : X -> option Y) (l : list X) : option Y :=
  match l with
  | [] => None
  | x :: rest =>
    match f x with
    | Some y => Some y
    | None => first_found f rest
    end
  end.

Definition containerKeys : list string :=
  ["Part"; "Chapter"; "Section"; "Subsection"; "Division"]%string.

(** [String(num) === targetNum] for the article's [@_Num] *)
Definition hasNum (targetNum : jsstring) (article : value) : bool :=
  str_eqb (String_of (getProp article "@_Num")) targetNum.

(** findArticleRecursive *)
Definition findArticleRecursive_body (self : value -> jsstring -> option value)
    (node : value) (targetNum : jsstring) : option value :=
  (* 直接の条 *)
  let articles := ensureArray (getProp node "Article") in
  match List.find (hasNum targetNum) articles with
  | Some article => Some article
  | None =>
    (* 編・章・節を検索 *)
    first_found (fun key =>
      first_found (fun child => if_truthy (self child targetNum))
                  (ensureArray (getProp node key)))
      containerKeys
  end.

Definition findArticleRecursive (node : value) (targetNum : jsstring) : option value :=
  descend None findArticleRecursive_body node targetNum.

(** findArticle *)
Definition findArticle (lawBody : value) (targetArticle : jsstring) : option value :=
  (* 条番号を正規化 *)
  let normalizedTarget := normalizeArticleNum targetArticle in
  match if_truthy (getProp lawBody "MainProvision") with
  | None => None
  | Some mainProvision => findArticleRecursive mainProvision normalizedTarget
  end.

(** *** The parse entry points *)

Record LawText := mkLawText {
  lawId : jsstring;
  lawNumber : jsstring;
  lawName : jsstring;
  content : jsstring;
  toc : list TocItem;
  fetchedAt : jsstring
}.

Record Item := mkItem {
  itemNum : jsstring;
  itemContent : jsstring
}.

Record Paragraph := mkParagraph {
  paragraphNum : number;
  paragraphContent : jsstring;
  items : list Item
}.

Record Article := mkArticle {
  articleLawId : jsstring;
  articleNum : jsstring;
  articleTitle : option jsstring;
  articleContent : jsstring;
  paragraphs : list Paragraph
}.

(** extractParagraphs *)
Definition extractParagraphs (article : value)
    (targetParagraph : option number) : list Paragraph :=
  let paragraphs := ensureArray (getProp article "Paragraph") in
  fold_left (fun result para =>
    let num :=
      let n := Number_of (getProp para "@_Num") in
      if num_truthy n then n else num_of_string (js "1") in
    if match targetParagraph with
       | None => false
       | Some target => negb (num_strict_eq num target)
       end
    then result
    else
      let sentence := getProp para "ParagraphSentence" in
      let items := ensureArray (getProp para "Item") in
      result ++ [ mkParagraph num (extractSentenceText sentence)
                    (List.map (fun item =>
                       mkItem (String_of (getProp item "@_Num"))
                              (extractSentenceText (getProp item "ItemSentence")))
                       items) ])
    paragraphs [].

(** The module's [parser]: [XMLParser.parse] of fast-xml-parser, which returns
    the decoded tree or throws. *)
Definition XMLParser := jsstring -> result value.

(** parseLawText; [now] is [new Date().toISOString()]. *)
Definition parseLawText (parser : XMLParser) (now : jsstring)
    (xml : jsstring) : result LawText :=
  match parser xml with
  | Throw e => Throw e
  | Ok decoded =>
    let dataRoot := or_value (getProp decoded "DataRoot") decoded in
    (* e-Gov APIの構造: DataRoot > ApplData > LawFullText > Law *)
    let applData := or_value (getProp dataRoot "ApplData") dataRoot in
    let lawFullText := or_value (getProp applData "LawFullText") applData in
    let lawData := or_value (getProp lawFullText "Law") lawFullText in
    let lawId :=
      or_value (or_else (getProp applData "LawId") (getProp lawData "@_LawId"))
               (VStr []) in
    let lawNum :=
      or_value (or_else (getProp lawData "LawNum") (getProp lawData "@_LawNum"))
               (VStr []) in
    let lawBody := or_value (getProp lawData "LawBody") (VObj []) in
    let lawTitle :=
      or_value (or_else (getProp lawBody "LawTitle") (getProp lawData "LawTitle"))
               (VStr []) in
    let toc := extractToc lawBody in
    let content := extractLawContent lawBody in
    Ok (mkLawText (String_of_value lawId) (String_of_value lawNum)
                  (extractText_value lawTitle) content toc now)
  end.

(** parseArticle; [None] is [null]. *)
Definition parseArticle (parser : XMLParser) (xml : jsstring)
    (targetArticle : jsstring) (targetParagraph : option number)
    : result (option Article) :=
  match parser xml with
  | Throw e => Throw e
  | Ok decoded =>
    let dataRoot := or_value (getProp decoded "DataRoot") decoded in
    let applData := or_value (getProp dataRoot "ApplData") dataRoot in
    let lawFullText := or_value (getProp applData "LawFullText") applData in
    let lawData := or_value (getProp lawFullText "Law") lawFullText in
    let lawBody := or_value (getProp lawData "LawBody") (VObj []) in
    let lawId :=
      or_value (or_else (getProp applData "LawId") (getProp lawData "@_LawId"))
               (VStr []) in
    match if_truthy (findArticle lawBody targetArticle) with
    | None => Ok None
    | Some article =>
      let paragraphs := extractParagraphs article targetParagraph in
      Ok (Some (mkArticle
        (String_of_value lawId)
        targetArticle
        (if truthy_opt (getProp article "ArticleTitle")
         then Some (extractText (getProp article "ArticleTitle"))
         else None)
        (extractArticleContent article targetParagraph)
        paragraphs))
    end
  end.

(** The law element and the law body that parseLawText and parseArticle reach
    from the decoded root (their first lines, named). *)
Definition lawDataOf (decoded : value) : value :=
  let dataRoot := or_value (getProp decoded "DataRoot") decoded in
  let applData := or_value (getProp dataRoot "ApplData") dataRoot in
  let lawFullText := or_value (getProp applData "LawFullText") applData in
  or_value (getProp lawFullText "Law") lawFullText.

Definition lawBodyOf (decoded : value) : value :=
  or_value (getProp (lawDataOf decoded) "LawBody") (VObj []).

(** *** The specification's words, for comparison with the code *)

(** Spec 4.4: the Articles of a tree in search order: a container's direct
    Article children first, then, depth-first, those of its nested containers
    (container kinds in the locator's order, document order within a kind). *)
Definition spec_searchOrder_body (self : value -> unit -> list value)
    (node : value) (_ : unit) : list value :=
  ensureArray (getProp node "Article")
  ++ flat_map (fun key =>
       flat_map (fun child => self child tt) (ensureArray (getProp node key)))
       containerKeys.

Definition spec_searchOrder (node : value) : list value :=
  descend [] spec_searchOrder_body node tt.

(** Spec 4.5 and 9: the text of a leaf content field as one recursive fold, the
    concatenation of every descendant textual value in field order. *)
Fixpoint spec_allText (v : value) : jsstring :=
  match v with
  | VStr s => s
  | VNum n => num_to_string n
  | VBool b => String_of_value (VBool b)
  | VArr items => List.concat (List.map spec_allText items)
  | VObj fields => List.concat (List.map (fun '(_, x) => spec_allText x) fields)
  end.

(** Spec 4.5: sentence-text extraction, the field itself when it is a literal
    string and the fold otherwise. *)
Definition spec_sentenceText (sentence : value) : jsstring :=
  match sentence with
  | VStr s => s
  | _ => spec_allText sentence
  end.

(** Content made of strings, arrays and objects only, in which no object has
    a non-empty text node ([#text]) of its own. *)
Fixpoint markupOnly (v : value) : bool :=
  match v with
  | VStr _ => true
  | VNum _ | VBool _ => false
  | VArr items => forallb markupOnly items
  | VObj fields =>
    negb (truthy_opt (lookup_field fields "#text"))
    && forallb (fun '(_, x) => markupOnly x) fields
  end.

(** The Paragraphs of an Article whose number equals the filter value. *)
Definition paragraphsNumbered (article : value) (p : number) : list value :=
  List.filter (fun para => num_strict_eq (Number_of (getProp para "@_Num")) p)
              (ensureArray (getProp article "Paragraph")).

(** Spec 4.2: a law body "with no article data": it has no MainProvision and
    no Article anywhere under its Preamble, MainProvision or
    SupplementaryProvisions. *)
Definition spec_noArticleData (lawBody : value) : Prop :=
  if_truthy (getProp lawBody "MainProvision") = None
  /\ forall key block,
       In key ["Preamble"; "MainProvision"; "SupplementaryProvisions"]%string ->
       In block (ensureArray (getProp lawBody key)) ->
       spec_searchOrder block = [].

(** *** The behaviour in words, for the comparison with the code *)

(** The container kinds of the data model. *)
Definition spec_containerKinds : list string :=
  ["Part"; "Chapter"; "Section"; "Subsection"; "Division"]%string.

Definition isContainerKind (key : string) : bool :=
  List.existsb (String.eqb key) spec_containerKinds.

(** Spec 4.4 in its words: the Articles of a tree depth-first across every
    container kind in document order, which is the order of the fields: a
    container's direct Article children, then its nested containers as they
    stand. *)
Fixpoint spec_documentOrder (node : value) : list value :=
  match node with
  | VObj fields =>
    ensureArray (lookup_field fields "Article")
    ++ flat_map (fun '(key, x) =>
         if isContainerKind key
         then match x with
              | VArr entries => flat_map spec_documentOrder entries
              | _ => spec_documentOrder x
              end
         else []) fields
  | _ => []
  end.

(** The same search kind by kind: a container's direct Article children, then
    its nested Parts, then its Chapters, Sections, Subsections and Divisions,
    document order within a kind. *)
Definition spec_kindOrder_body (self : value -> unit -> list value)
    (node : value) (_ : unit) : list value :=
  ensureArray (getProp node "Article")
  ++ flat_map (fun kind =>
       flat_map (fun child => self child tt) (ensureArray (getProp node kind)))
       spec_containerKinds.

Definition spec_kindOrder (node : value) : list value :=
  descend [] spec_kindOrder_body node tt.

(** Spec 3: the children of a container are of one kind at every level. *)
Fixpoint homogeneous (node : value) : bool :=
  match node with
  | VObj fields =>
    (length (List.filter (fun '(key, _) => isContainerKind key) fields) <=? 1)%nat
    && forallb (fun '(key, x) =>
         negb (isContainerKind key)
         || match x with
            | VArr entries => forallb homogeneous entries
            | _ => homogeneous x
            end) fields
  | _ => true
  end.

(** The text of a node: a string is its own text and a number its decimal
    string; an element that has a non-empty text node yields that text node
    alone; any other element, or an array, yields the concatenation, in field
    order, of its string children, of the texts of the elements of its array
    children and of the texts of its element children; numbers and booleans
    among the children are skipped. *)
Fixpoint spec_nodeText (v : value) : jsstring :=
  match v with
  | VStr s => s
  | VNum n => if num_truthy n then num_to_string n else []
  | VBool _ => []
  | VArr entries =>
    List.concat
      (List.map (fun x =>
         match x with
         | VStr s => s
         | VArr vs => List.concat (List.map spec_nodeText vs)
         | VObj _ => spec_nodeText x
         | _ => []
         end) entries)
  | VObj fields =>
    if truthy_opt (lookup_field fields "#text")
    then String_of (lookup_field fields "#text")
    else
      List.concat
        (List.map (fun '(_, x) =>
           match x with
           | VStr s => s
           | VArr vs => List.concat (List.map spec_nodeText vs)
           | VObj _ => spec_nodeText x
           | _ => []
           end) fields)
  end.

(** Sentence-text extraction: a literal string is returned as it is; of any
    other field the Sentence entries are read when it has some, the field
    itself when it has none, and their texts are concatenated. *)
Definition spec_fieldText (sentence : value) : jsstring :=
  match sentence with
  | VStr s => s
  | _ =>
    if truthy sentence
    then List.concat
           (List.map spec_nodeText
              (ensureArray (Some (or_value (getProp sentence "Sentence") sentence))))
    else []
  end.

(** The same for a field that may be absent. *)
Definition spec_fieldTextOf (sentence : option value) : jsstring :=
  match sentence with
  | Some v => spec_fieldText v
  | None => []
  end.

(** The text of a Sentence entry as the service sends it: a plain string, or
    an element with a non-empty text node beside its attributes. *)
Definition sentenceEntryText (entry : value) : option jsstring :=
  match entry with
  | VStr s => Some s
  | VObj fields =>
    match lookup_field fields "#text" with
    | Some (VStr t) => if str_eqb t [] then None else Some t
    | _ => None
    end
  | _ => None
  end.

(** What [f] makes of the first field named [key], nothing when there is
    none. *)
Definition underFirst {R : Type} (key : string) (f : value -> list R)
    : list (string * value) -> list R :=
  fix go (fields : list (string * value)) : list R :=
    match fields with
    | [] => []
    | (k, x) :: rest => if String.eqb k key then f x else go rest
    end.

(** Spec 4.5: the ordinal before a paragraph's sentence, left out when there
    is none and for the implicit first. *)
Definition spec_ordinalPrefix (num : option value) : jsstring :=
  match if_truthy num with
  | None => []
  | Some (VStr s) => if str_eqb s (js "1") then [] else s ++ js "　"
  | Some v => String_of_value v ++ js "　"
  end.

(** Spec 4.5: an Item is its sentence, indented by two spaces a level and
    numbered with its own designator, followed by its Subitems one level
    deeper (those of the first level, or else those of the second). *)
Fixpoint spec_itemText (level : nat) (item : value) {struct item} : jsstring :=
  match item with
  | VObj fields =>
    let sentence := lookup_field fields "ItemSentence" in
    join nl
      ((if truthy_opt sentence
        then [ repeat_str (js "  ") level
               ++ String_of (lookup_field fields "@_Num") ++ js "　"
               ++ spec_fieldTextOf sentence ]
        else [])
       ++ underFirst
            (if truthy_opt (lookup_field fields "Subitem1")
             then "Subitem1" else "Subitem2")%string
            (fun x =>
               match x with
               | VArr subitems => List.map (spec_itemText (S level)) subitems
               | _ => [spec_itemText (S level) x]
               end)
            fields)
  | _ => []
  end.

(** Spec 4.5: a Paragraph is its sentence text, prefixed with its ordinal
    unless that is the implicit first, followed by its Items. *)
Definition spec_paragraphText (paragraph : value) : jsstring :=
  let sentence := getProp paragraph "ParagraphSentence" in
  join nl
    ((if truthy_opt sentence
      then [ spec_ordinalPrefix (getProp paragraph "@_Num")
             ++ spec_fieldTextOf sentence ]
      else [])
     ++ List.map (spec_itemText 1) (ensureArray (getProp paragraph "Item"))).

End Tree.

(** Spec 8: [render_kanji(v)], the conventional kanji rendering of a decimal
    value below 10000: a digit before its place, the digit one left out before
    ten, hundred and thousand. *)
Definition kanjiDigit (d : N) : jsstring :=
  match d with
  | 1 => js "一" | 2 => js "二" | 3 => js "三" | 4 => js "四" | 5 => js "五"
  | 6 => js "六" | 7 => js "七" | 8 => js "八" | 9 => js "九"
  | _ => []
  end.

Definition kanjiPlace (d : N) (place : jsstring) : jsstring :=
  if d =? 0 then [] else if d =? 1 then place else kanjiDigit d ++ place.

Definition spec_render_kanji (v : N) : jsstring :=
  if v =? 0 then js "零"
  else kanjiPlace (v / 1000 mod 10) (js "千")
       ++ kanjiPlace (v / 100 mod 10) (js "百")
       ++ kanjiPlace (v / 10 mod 10) (js "十")
       ++ kanjiDigit (v mod 10).

(** The article designator of the value [v]: 第 ... 条. *)
Definition spec_designator (v : N) : jsstring :=
  js "第" ++ spec_render_kanji v ++ js "条".

(** Spec 8: the round trip of one value. *)
Definition roundTrip (v : N) : bool :=
  str_eqb (normalizeArticleNum (spec_designator v)) (String_of_N v).

(** *** An instance of the number interface, for the examples

    The integers and NaN ([None]): [Number] reads the empty string as 0 and a
    plain decimal integer, with an optional minus sign, as its value; the
    examples below use no other numeric string. *)
Fixpoint digits_value (acc : N) (s : jsstring) : option N :=
  match s with
  | [] => Some acc
  | c :: r => if is_digit c then digits_value (acc * 10 + (c - 48)) r else None
  end.

Definition int_of_string (s : jsstring) : option Z :=
  match s with
  | [] => Some 0%Z
  | 45 :: (_ :: _) as r => (fun n => (- Z.of_N n)%Z) <$> digits_value 0 (tail r)
  | _ => Z.of_N <$> digits_value 0 s
  end.

Definition int_to_string (n : option Z) : jsstring :=
  match n with
  | None => js "NaN"
  | Some z => if (z <? 0)%Z then js "-" ++ String_of_N (Z.abs_N z) else String_of_N (Z.to_N z)
  end.

Definition IntNumber : JsNumber := {|
  number := option Z;
  num_of_string := int_of_string;
  num_to_string := int_to_string;
  num_truthy := fun n => match n with Some z => negb (z =? 0)%Z | None => false end;
  num_strict_eq := fun n m =>
    match n, m with
    | Some a, Some b => (a =? b)%Z
    | _, _ => false
    end
|}.

(** *** Sample documents *)

Section Samples.

#[local] Existing Instance IntNumber.

Definition sampleParagraph (n text : string) : value :=
  VObj [ ("ParagraphSentence", VObj [("Sentence", VArr [VStr (js text)])]);
         ("@_Num", VStr (js n)) ]%string.

Definition sampleArticle (n title : string) (paragraphs : list value) : value :=
  VObj [ ("ArticleTitle", VStr (js title));
         ("Paragraph", VArr paragraphs);
         ("@_Num", VStr (js n)) ]%string.

Definition article1 := sampleArticle "1" "第一条" [sampleParagraph "1" "目的"].
Definition article2 := sampleArticle "2" "第二条" [sampleParagraph "1" "定義"].
Definition article20 := sampleArticle "20" "第二十条" [sampleParagraph "1" "安全管理措置"].
Definition article100 := sampleArticle "100" "第百条" [sampleParagraph "1" "罰則"].

(** Articles 1, 2, 20 and 100 under two Chapters. *)
Definition twoChaptersMain : value :=
  VObj [ ("Chapter", VArr [
           VObj [ ("ChapterTitle", VStr (js "第一章　総則"));
                  ("Article", VArr [article1; article2]);
                  ("@_Num", VStr (js "1")) ];
           VObj [ ("ChapterTitle", VStr (js "第二章　義務"));
                  ("Article", VArr [article20; article100]);
                  ("@_Num", VStr (js "2")) ] ]) ]%string.

Definition twoChapters : value := VObj [("MainProvision", twoChaptersMain)]%string.

(** A MainProvision in which a Chapter stands before a Part, each with an
    Article 5. *)
Definition chapterArticle := sampleArticle "5" "第五条" [sampleParagraph "1" "章の条"].
Definition partArticle := sampleArticle "5" "第五条" [sampleParagraph "1" "編の条"].

Definition mixedMain : value :=
  VObj [ ("Chapter", VArr [
           VObj [ ("ChapterTitle", VStr (js "第一章"));
                  ("Article", VArr [chapterArticle]);
                  ("@_Num", VStr (js "1")) ] ]);
         ("Part", VArr [
           VObj [ ("PartTitle", VStr (js "第一編"));
                  ("Article", VArr [partArticle]);
                  ("@_Num", VStr (js "1")) ] ]) ]%string.

Definition mixedBody : value := VObj [("MainProvision", mixedMain)]%string.

(** The sample Article 2 of the tests: two Paragraphs. *)
Definition twoParagraphs : value :=
  sampleArticle "2" "第二条"
    [ sampleParagraph "1" "この法律において「個人情報」とは";
      sampleParagraph "2" "この法律において「個人識別符号」とは" ].

(** [<Sentence>この<Ruby>法<Rt>ほう</Rt></Ruby>律</Sentence>] inside a
    ParagraphSentence: a wrapper with a text node and another child field. *)
Definition rubySentence : value :=
  VObj [ ("Sentence", VArr [
           VObj [ ("Ruby", VObj [("Rt", VStr (js "ほう")); ("#text", VStr (js "法"))]);
                  ("#text", VStr (js "この律")) ] ]) ]%string.

(** A ParagraphSentence whose Sentence wraps plain strings in markup-only
    containers. *)
Definition wrappedSentence : value :=
  VObj [ ("Sentence", VArr [
           VObj [ ("Column", VObj [("Line", VStr (js "甲"))]);
                  ("Sub", VStr (js "乙")) ] ]) ]%string.

(** A ParagraphSentence as the service sends it: each Sentence is an element
    with a text node beside its attributes. *)
Definition numberedSentences : value :=
  VObj [ ("Sentence", VArr [
           VObj [ ("#text", VStr (js "この法律は、個人情報の適正な取扱いに関し定める。"));
                  ("@_Num", VStr (js "1")) ];
           VObj [ ("#text", VStr (js "ただし、別段の定めがある場合は、この限りでない。"));
                  ("@_Num", VStr (js "2")) ] ]) ]%string.

(** A short law whose MainProvision holds Paragraphs directly, without any
    Article. *)
Definition paragraphsOnly : value :=
  VObj [ ("Law",
          VObj [ ("LawBody",
                  VObj [ ("LawTitle", VStr (js "元号法"));
                         ("MainProvision",
                          VObj [("Paragraph",
                                 VArr [sampleParagraph "1" "元号は、政令で定める。"])]) ]) ]) ]%string.

(** A law that has supplementary provisions only, and no Article at all. *)
Definition supplementaryOnly : value :=
  VObj [ ("Law",
          VObj [ ("LawNum", VStr (js "平成十五年法律第五十七号"));
                 ("LawBody",
                  VObj [ ("LawTitle", VStr (js "個人情報の保護に関する法律"));
                         ("SupplementaryProvisions",
                          VObj [("SupplementaryProvisionLabel", VStr (js "附　則"))]) ]);
                 ("@_LawId", VStr (js "415AC0000000057")) ]) ]%string.

End Samples.

End Parser.

(** ** Effects: calls that read and change a state and may throw *)

Module Eff.

(** An asynchronous method of the source, run to completion on a state: its
    outcome and the state it leaves (also when it throws). *)
Definition M (S A : Type) : Type := S -> result A * S.

Definition ret {S A : Type} (a : A) : M S A := fun s => (Ok a, s).

Definition throw {S A : Type} (e : error) : M S A := fun s => (Throw e, s).

Definition bind {S A B : Type} (m : M S A) (k : A -> M S B) : M S B :=
  fun s =>
    match m s with
    | (Ok a, s') => k a s'
    | (Throw e, s') => (Throw e, s')
    end.

(** [try { m } catch (error) { handler }] *)
Definition try_catch {S A : Type} (m : M S A) (handler : error -> M S A) : M S A :=
  fun s =>
    match m s with
    | (Ok a, s') => (Ok a, s')
    | (Throw e, s') => handler e s'
    end.

Definition gets {S A : Type} (f : S -> A) : M S A := fun s => (Ok (f s), s).

Definition modify {S : Type} (f : S -> S) : M S unit := fun s => (Ok tt, f s).

(** A synchronous computation that may throw, inside a method. *)
Definition lift {S A : Type} (r : result A) : M S A := fun s => (r, s).

End Eff.

Notation "'let*' x ':=' m 'in' k" := (Eff.bind m (fun x => k))
  (at level 10, x pattern, m at level 100, k at level 200).
Notation "m ';;;' k" := (Eff.bind m (fun _ => k))
  (at level 100, k at level 200, right associativity).

(** ** The TTL disk cache ([src/cache/law-cache.ts]) *)

Module LawCache.

Import Eff.

(** [type: 'lawList' | 'lawText' | 'updateList'] *)
Inductive category : Type := lawList | lawText | updateList.

(** The category as the string the key is built from. *)
Definition tag (type : category) : jsstring :=
  match type with
  | lawList => js "lawList"
  | lawText => js "lawText"
  | updateList => js "updateList"
  end.

(** CacheConfig: durations in milliseconds. *)
Record CacheConfig := mkCacheConfig {
  lawListTtl : Z;
  lawTextTtl : Z;
  updateListTtl : Z
}.

(** [Partial<CacheConfig>] *)
Record PartialConfig := mkPartialConfig {
  lawListTtl_opt : option Z;
  lawTextTtl_opt : option Z;
  updateListTtl_opt : option Z
}.

(** The cache object: [cacheDir], [config] and the [initialized] flag. *)
Record Cache := mkCache {
  cacheDir : jsstring;
  config : CacheConfig;
  initialized : bool
}.

(** [a ?? b] *)
Definition nullish {A : Type} (a : option A) (b : A) : A :=
  match a with
  | Some x => x
  | None => b
  end.

(** The constructor; [CACHE_DIR] is [join(homedir(), '.cache', 'egov-law-mcp')]. *)
Definition constructor (CACHE_DIR : jsstring) (config : option PartialConfig) : Cache :=
  mkCache CACHE_DIR
    (mkCacheConfig
       (nullish (config ≫= lawListTtl_opt) (24 * 60 * 60 * 1000)%Z)
       (nullish (config ≫= lawTextTtl_opt) (7 * 24 * 60 * 60 * 1000)%Z)
       (nullish (config ≫= updateListTtl_opt) (60 * 60 * 1000)%Z))
    false.

(** *** Paths: Node's posix [path.join] *)

(** [s.split(sep)] for a one-unit separator *)
Fixpoint split_on (sep : N) (s : jsstring) : list jsstring :=
  match s with
  | [] => [[]]
  | c :: r =>
    if c =? sep then [] :: split_on sep r
    else match split_on sep r with
         | [] => [[c]]
         | seg :: segs => (c :: seg) :: segs
         end
  end.

Definition SLASH : N := 47.
Definition BACKSLASH : N := 92.

(** One segment of normalizeString: empty and [.] segments are dropped, [..]
    removes the segment before it (or is kept above a relative root). *)
Definition normalizeStep (allowAboveRoot : bool) (res : list jsstring)
    (segment : jsstring) : list jsstring :=
  if str_eqb segment [] || str_eqb segment (js ".") then res
  else if str_eqb segment (js "..") then
    match last res with
    | Some prev =>
      if str_eqb prev (js "..")
      then (if allowAboveRoot then res ++ [segment] else res)
      else removelast res
    | None => if allowAboveRoot then res ++ [segment] else res
    end
  else res ++ [segment].

(** [path.normalize] *)
Definition normalize (path : jsstring) : jsstring :=
  match path with
  | [] => js "."
  | first :: _ =>
    let isAbsolute := first =? SLASH in
    let trailingSeparator :=
      match last path with
      | Some c => c =? SLASH
      | None => false
      end in
    let segments :=
      fold_left (normalizeStep (negb isAbsolute)) (split_on SLASH path) [] in
    match segments with
    | [] =>
      if isAbsolute then js "/" else if trailingSeparator then js "./" else js "."
    | _ =>
      (if isAbsolute then js "/" else [])
      ++ join (js "/") segments
      ++ (if trailingSeparator then js "/" else [])
    end
  end.

(** [path.join(a, b)] *)
Definition path_join (a b : jsstring) : jsstring :=
  match a, b with
  | [], [] => js "."
  | [], _ => normalize b
  | _, [] => normalize a
  | _, _ => normalize (a ++ js "/" ++ b)
  end.

(** *** Keys *)

(** [[a-zA-Z0-9\-_]] *)
Definition safeUnit (c : N) : bool :=
  ((97 <=? c) && (c <=? 122)) || ((65 <=? c) && (c <=? 90))
  || ((48 <=? c) && (c <=? 57)) || (c =? 45) || (c =? 95).

(** [id.replace(/[^a-zA-Z0-9\-_]/g, '_')] *)
Definition sanitize (id : jsstring) : jsstring :=
  List.map (fun c => if safeUnit c then c else 95) id.

(** getCacheKey *)
Definition getCacheKey (type : jsstring) (id : jsstring) : jsstring :=
  (* 特殊文字をエスケープ *)
  let safeId := sanitize id in
  type ++ js "_" ++ safeId ++ js ".json".

(** A path segment that names an entry: not empty, not [.] or [..], and free
    of the separator. *)
Definition plainSegment (segment : jsstring) : bool :=
  negb (str_eqb segment []) && negb (str_eqb segment (js "."))
  && negb (str_eqb segment (js ".."))
  && forallb (fun c => negb (c =? SLASH)) segment.

(** A directory as [path.join] leaves it: normalized, absolute ([/a/b]) or
    relative ([a/b]). *)
Definition directory (absolute : bool) (segments : list jsstring) : jsstring :=
  (if absolute then js "/" else []) ++ join (js "/") segments.

(** Neither the posix nor the Windows separator occurs in [s]. *)
Definition separatorFree (s : jsstring) : bool :=
  forallb (fun c => negb (c =? SLASH) && negb (c =? BACKSLASH)) s.

(** getCachePath *)
Definition getCachePath (this : Cache) (key : jsstring) : jsstring :=
  path_join (cacheDir this) key.

(** getTtl *)
Definition getTtl (this : Cache) (type : category) : Z :=
  match type with
  | lawList => lawListTtl (config this)
  | lawText => lawTextTtl (config this)
  | updateList => updateListTtl (config this)
  end.

(** *** The disk and the clock *)

Section Store.

(** The payload type: JSON data (LawText, SearchResult), which
    [JSON.parse(JSON.stringify(x))] gives back. *)
Context {T : Type}.

(** A file's text, as [JSON.parse] reads it: not JSON at all, the literal
    [null], or any other JSON value, seen through the fields [get] reads
    ([None]: the field is absent, or is no date). *)
Inductive json : Type :=
| NotJson
| JsonNull
| JsonValue (data : option T) (cachedAt expiresAt : option Z).

(** A directory entry: a file [readFile] rejects with [code], or a text. *)
Inductive file : Type :=
| Unreadable (code : string)
| Text (text : json).

(** The environment of the cache: the clock ([new Date()], milliseconds), the
    files by path, and what the next [mkdir], [writeFile] and [unlink] calls
    run into, if anything. *)
Record World := mkWorld {
  now : Z;
  files : gmap jsstring file;
  mkdirError : option string;
  writeError : jsstring -> option string;
  unlinkError : jsstring -> option string
}.

Record State := mkState {
  this : Cache;
  world : World
}.

(** What [get] resolves to: the data, [undefined] when the entry has no
    [data] field, or [null]. *)
Inductive cached : Type :=
| Hit (data : T)
| NoData
| Miss.

(** A rejected file-system call. *)
Definition errno (code : string) : error := mkError "Error" [] (Some code).

Definition TypeError : error := mkError "TypeError" [] None.
Definition SyntaxError : error := mkError "SyntaxError" [] None.
Definition RangeError : error := mkError "RangeError" (js "Invalid time value") None.

(** [mkdir(cacheDir, { recursive: true })] *)
Definition mkdir : M State unit := fun st =>
  match mkdirError (world st) with
  | Some code => (Throw (errno code), st)
  | None => (Ok tt, st)
  end.

(** [readFile(path, 'utf-8')] *)
Definition readFile (path : jsstring) : M State json := fun st =>
  match files (world st) !! path with
  | None => (Throw (errno "ENOENT"), st)
  | Some (Unreadable code) => (Throw (errno code), st)
  | Some (Text text) => (Ok text, st)
  end.

(** [writeFile(path, text, 'utf-8')] *)
Definition writeFile (path : jsstring) (text : json) : M State unit := fun st =>
  match writeError (world st) path with
  | Some code => (Throw (errno code), st)
  | None =>
    let w := world st in
    (Ok tt, mkState (this st)
              (mkWorld (now w) (<[path := Text text]> (files w))
                       (mkdirError w) (writeError w) (unlinkError w)))
  end.

(** [unlink(path)] *)
Definition unlink (path : jsstring) : M State unit := fun st =>
  let w := world st in
  match unlinkError w path, files w !! path with
  | Some code, _ => (Throw (errno code), st)
  | None, None => (Throw (errno "ENOENT"), st)
  | None, Some _ =>
    (Ok tt, mkState (this st)
              (mkWorld (now w) (base.delete path (files w))
                       (mkdirError w) (writeError w) (unlinkError w)))
  end.

Definition setInitialized : M State unit :=
  modify (fun st =>
    mkState (mkCache (cacheDir (this st)) (config (this st)) true) (world st)).

(** ensureInitialized *)
Definition ensureInitialized : M State unit := fun st =>
  if initialized (this st) then ret tt st
  else
    try_catch
      (mkdir ;;; setInitialized)
      (fun error =>
        (* ディレクトリが既に存在する場合は無視 *)
        if negb (bool_decide (err_code error = Some "EEXIST"%string))
        then throw error
        else setInitialized)
      st.

(** The largest time value of a [Date]; [toISOString] throws beyond it. *)
Definition maxTime : Z := 8640000000000000.

(** [new Date(t).toISOString()] *)
Definition toISOString (t : Z) : result Z :=
  if (Z.abs t <=? maxTime)%Z then Ok t else Throw RangeError.

(** [expiresAt < new Date()] for [expiresAt = new Date(entry.expiresAt)] *)
Definition expired (expiresAt : option Z) (now : Z) : bool :=
  match expiresAt with
  | Some t => (t <? now)%Z
  | None => false
  end.

(** get *)
Definition get (type : category) (id : jsstring) : M State cached :=
  ensureInitialized ;;;
  let* this := gets this in
  let key := getCacheKey (tag type) id in
  let path := getCachePath this key in
  try_catch
    (let* data := readFile path in
     let* entry :=
       match data with
       | NotJson => throw SyntaxError
       | JsonNull => throw TypeError
       | JsonValue data _ expiresAt => ret (data, expiresAt)
       end in
     (* 有効期限をチェック *)
     let* now := gets (fun st => now (world st)) in
     if expired (snd entry) now then ret Miss
     else ret (match fst entry with
               | Some data => Hit data
               | None => NoData
               end))
    (fun _ => ret Miss).

(** set *)
Definition set (type : category) (id : jsstring) (data : T) : M State unit :=
  ensureInitialized ;;;
  let* this := gets this in
  let key := getCacheKey (tag type) id in
  let path := getCachePath this key in
  let ttl := getTtl this type in
  let* now := gets (fun st => now (world st)) in
  let* cachedAt := lift (toISOString now) in
  let* expiresAt := lift (toISOString (now + ttl)) in
  writeFile path (JsonValue (Some data) (Some cachedAt) (Some expiresAt)).

(** delete *)
Definition delete (type : category) (id : jsstring) : M State unit :=
  ensureInitialized ;;;
  let* this := gets this in
  let key := getCacheKey (tag type) id in
  let path := getCachePath this key in
  try_catch (unlink path) (fun _ => ret tt).

(** [mkdir] will not stand in the way: the cache is initialized, or the call
    succeeds, or it fails with EEXIST. *)
Definition dirReady (st : State) : Prop :=
  initialized (this st) = true
  \/ mkdirError (world st) = None
  \/ mkdirError (world st) = Some "EEXIST"%string.

(** What the [try] block of [get] makes of the file at [path]. *)
Definition entryAt (w : World) (path : jsstring) : cached :=
  match files w !! path with
  | Some (Text (JsonValue data _ expiresAt)) =>
    if expired expiresAt (now w) then Miss
    else match data with
         | Some data => Hit data
         | None => NoData
         end
  | _ => Miss
  end.

(** The state at a later reading of the clock. *)
Definition atTime (t : Z) (st : State) : State :=
  let w := world st in
  mkState (this st)
    (mkWorld t (files w) (mkdirError w) (writeError w) (unlinkError w)).

End Store.

Arguments json T : clear implicits.
Arguments file T : clear implicits.
Arguments World T : clear implicits.
Arguments State T : clear implicits.
Arguments cached T : clear implicits.

(** *** Sample states *)

Definition sampleCache : Cache :=
  constructor (js "/home/user/.cache/egov-law-mcp") None.

Definition samplePath : jsstring :=
  js "/home/user/.cache/egov-law-mcp/lawText_415AC0000000057.json".

(** A fresh cache on an empty, healthy disk, at time 1000. *)
Definition fresh : State nat :=
  mkState sampleCache (mkWorld 1000 ∅ None (fun _ => None) (fun _ => None)).

(** An entry that expires at 1000, read at 1000. *)
Definition boundary : State nat :=
  mkState sampleCache
    (mkWorld 1000
       {[ samplePath := Text (JsonValue (Some 7%nat) (Some 0%Z) (Some 1000%Z)) ]}
       None (fun _ => None) (fun _ => None)).

(** A cache directory that cannot be created: [mkdir] fails with EACCES. *)
Definition denied : State nat :=
  mkState sampleCache
    (mkWorld 1000 ∅ (Some "EACCES"%string) (fun _ => None) (fun _ => None)).

End LawCache.

(** ** The cache and JSON: what [set] writes of a JavaScript value *)

Module Json.

Import Eff LawCache.

(** A JavaScript value, as a caller may hand it to [set] as data.  A finite
    number is an integer here; the negative zero, functions, symbols and
    objects with a [toJSON] of their own are left out. *)
Inductive jsvalue : Type :=
| JUndefined
| JNull
| JBool (b : bool)
| JNum (n : Z)
| JNaN
| JInfinity (negative : bool)
| JBigInt (n : Z)
| JStr (s : jsstring)
| JArr (items : list jsvalue)
| JObj (fields : list (string * jsvalue)).

(** [JSON.parse(JSON.stringify(v))], what a value comes back as through a
    file: [None] when [JSON.stringify] gives no text ([undefined]); NaN and
    the infinities are written as [null]; [undefined] is written as [null]
    inside an array and is left out of an object; a BigInt makes
    [JSON.stringify] throw a TypeError. *)
Fixpoint jsonImage (v : jsvalue) : result (option jsvalue) :=
  match v with
  | JUndefined => Ok None
  | JNull => Ok (Some JNull)
  | JBool b => Ok (Some (JBool b))
  | JNum n => Ok (Some (JNum n))
  | JNaN => Ok (Some JNull)
  | JInfinity _ => Ok (Some JNull)
  | JBigInt _ => Throw TypeError
  | JStr s => Ok (Some (JStr s))
  | JArr items =>
    match
      (fix elements (l : list jsvalue) : result (list jsvalue) :=
         match l with
         | [] => Ok []
         | x :: rest =>
           match jsonImage x with
           | Throw e => Throw e
           | Ok image =>
             match elements rest with
             | Throw e => Throw e
             | Ok images =>
               Ok (match image with
                   | Some j => j
                   | None => JNull
                   end :: images)
             end
           end
         end) items
    with
    | Throw e => Throw e
    | Ok images => Ok (Some (JArr images))
    end
  | JObj fields =>
    match
      (fix properties (l : list (string * jsvalue))
           : result (list (string * jsvalue)) :=
         match l with
         | [] => Ok []
         | (key, x) :: rest =>
           match jsonImage x with
           | Throw e => Throw e
           | Ok image =>
             match properties rest with
             | Throw e => Throw e
             | Ok images =>
               Ok (match image with
                   | Some j => (key, j) :: images
                   | None => images
                   end)
             end
           end
         end) fields
    with
    | Throw e => Throw e
    | Ok images => Ok (Some (JObj images))
    end
  end.

(** set, for any JavaScript value as data: the entry is written as
    [JSON.stringify] renders it. *)
Definition setValue (type : category) (id : jsstring) (data : jsvalue)
    : M (State jsvalue) unit :=
  ensureInitialized ;;;
  let* this := gets this in
  let key := getCacheKey (tag type) id in
  let path := getCachePath this key in
  let ttl := getTtl this type in
  let* now := gets (fun st => now (world st)) in
  let* cachedAt := lift (toISOString now) in
  let* expiresAt := lift (toISOString (now + ttl)) in
  let* stored := lift (jsonImage data) in
  writeFile path (JsonValue stored (Some cachedAt) (Some expiresAt)).

(** What the caller of [get] receives: the data, [undefined] for an entry
    without data, [null] for a miss. *)
Definition returned (c : cached jsvalue) : jsvalue :=
  match c with
  | Hit data => data
  | NoData => JUndefined
  | Miss => JNull
  end.

Definition getValue (type : category) (id : jsstring) : M (State jsvalue) jsvalue :=
  let* c := get type id in
  ret (returned c).

(** What [get] finds of a value that was stored. *)
Definition found (stored : option jsvalue) : cached jsvalue :=
  match stored with
  | Some j => Hit j
  | None => NoData
  end.

(** *** Sample values *)

(** A fresh cache on an empty, healthy disk, at time 1000. *)
Definition freshDisk : State jsvalue :=
  mkState sampleCache (mkWorld 1000 ∅ None (fun _ => None) (fun _ => None)).

(** A cache whose law texts have a negative time to live. *)
Definition staleDisk : State jsvalue :=
  mkState
    (constructor (js "/home/user/.cache/egov-law-mcp")
       (Some (mkPartialConfig None (Some (-1)%Z) None)))
    (mkWorld 1000 ∅ None (fun _ => None) (fun _ => None)).

(** A law text as the tools store it. *)
Definition sampleLawText : jsvalue :=
  JObj [ ("lawId", JStr (js "415AC0000000057"));
         ("lawNumber", JStr (js "平成十五年法律第五十七号"));
         ("lawName", JStr (js "個人情報の保護に関する法律"));
         ("content", JStr (js "**第一条**"));
         ("toc", JArr [ JObj [ ("title", JStr (js "第一条"));
                               ("ref", JStr (js "第1条")) ] ]);
         ("fetchedAt", JStr (js "2026-01-01T00:00:00.000Z")) ]%string.

(** A search result whose count is not a number. *)
Definition countless : jsvalue :=
  JObj [ ("totalCount", JNaN); ("laws", JArr []) ]%string.

End Json.

(** ** The retrying client ([src/api/client.ts]) *)

Module Client.

Import Eff Parser.

Definition BASE_URL : jsstring := js "https://laws.e-gov.go.jp/api/1".
Definition MAX_RETRIES : nat := 3.
Definition RETRY_DELAY : Z := 1000.

(** [ApiResponse<T>] *)
Inductive ApiResponse (T : Type) : Type :=
| Success (data : T)
| Failure (code : string) (message : jsstring).

Arguments Success {T} data.
Arguments Failure {T} code message.

(** What one [fetch] meets: the request is rejected (a network failure, or the
    abort when the timeout fires), or a response arrives, whose [text()] is
    the body or is rejected in turn. *)
Inductive response : Type :=
| Rejected (e : error)
| Http (status : N) (statusText : jsstring) (text : result jsstring).

(** What the client does to the outside, in order. *)
Inductive event : Type :=
| Fetched (url : jsstring)
| Delayed (ms : Z).

Definition isFetched (ev : event) : bool :=
  match ev with
  | Fetched _ => true
  | Delayed _ => false
  end.

(** The network: its answer to the n-th request of the run, and the log of
    what happened so far. *)
Record Net := mkNet {
  respond : nat -> jsstring -> response;
  log : list event
}.

(** The number of requests made so far. *)
Definition requests (net : Net) : nat := length (List.filter isFetched (log net)).

(** [await fetch(url, ...)] *)
Definition fetch (url : jsstring) : M Net response := fun net =>
  let answer := respond net (requests net) url in
  let net' := mkNet (respond net) (log net ++ [Fetched url]) in
  match answer with
  | Rejected e => (Throw e, net')
  | _ => (Ok answer, net')
  end.

(** delay *)
Definition delay (ms : Z) : M Net unit :=
  modify (fun net => mkNet (respond net) (log net ++ [Delayed ms])).

(** The net after more events. *)
Definition after (net : Net) (events : list event) : Net :=
  mkNet (respond net) (log net ++ events).

(** The service answers every request for [url] with [answer]. *)
Definition answers (net : Net) (url : jsstring) (answer : response) : Prop :=
  forall n, respond net n url = answer.

(** What attempts that all fail do to the outside, from [attempt] on with
    [remaining] attempts left: a request each, and a delay after each but the
    last of [maxRetries]. *)
Fixpoint failingAttempts (remaining attempt maxRetries : nat) (url : jsstring)
    : list event :=
  match remaining with
  | O => []
  | S remaining' =>
    Fetched url
    :: (if (attempt <? maxRetries)%nat
        then [Delayed (RETRY_DELAY * Z.of_nat attempt)]
        else [])
    ++ failingAttempts remaining' (S attempt) maxRetries url
  end.

(** [response.ok] *)
Definition ok (status : N) : bool := (200 <=? status) && (status <=? 299).

Section WithParser.

Context {num : JsNumber}.

(** The module's XML parser, the clock read by parseLawText, and
    [encodeURIComponent]. *)
Context (parser : XMLParser) (clock : jsstring)
        (encodeURIComponent : jsstring -> jsstring).

(** The [try] block of one attempt of fetchWithRetry. *)
Definition attemptOnce {T : Type} (url : jsstring)
    (parse : jsstring -> result T) : M Net (ApiResponse T) :=
  let* response := fetch url in
  match response with
  | Rejected e => throw e
  | Http status statusText text =>
    if negb (ok status) then
      if status =? 404
      then ret (Failure "NOT_FOUND" (js "リソースが見つかりませんでした"))
      else throw (mkError "Error"
                    (js "HTTP " ++ String_of_N status ++ js ": " ++ statusText) None)
    else
      let* xml := lift text in
      let* data := lift (parse xml) in
      ret (Success data)
  end.

(** The loop of fetchWithRetry from [attempt] on, [remaining] attempts left:
    whatever the [try] block throws is caught, kept as [lastError] and, unless
    this was the last attempt, followed by a delay and the next attempt. *)
Fixpoint retryLoop {T : Type} (remaining attempt maxRetries : nat)
    (lastError : option error) (url : jsstring)
    (parse : jsstring -> result T) : M Net (ApiResponse T) :=
  match remaining with
  | O =>
    ret (Failure "FETCH_ERROR"
           (match lastError with
            | Some e => err_message e
            | None => js "リクエストに失敗しました"
            end))
  | S remaining' =>
    try_catch (attemptOnce url parse)
      (fun error =>
         (* 最後の試行でなければリトライ *)
         (if (attempt <? maxRetries)%nat
          then delay (RETRY_DELAY * Z.of_nat attempt)
          else ret tt) ;;;
         retryLoop remaining' (S attempt) maxRetries (Some error) url parse)
  end.

(** fetchWithRetry; [retries] is [options.retries]. *)
Definition fetchWithRetry {T : Type} (url : jsstring)
    (parse : jsstring -> result T) (retries : option nat) : M Net (ApiResponse T) :=
  let maxRetries :=
    match retries with
    | Some n => n
    | None => MAX_RETRIES
    end in
  retryLoop maxRetries 1 maxRetries None url parse.

Definition lawdataUrl (lawId : jsstring) : jsstring :=
  BASE_URL ++ js "/lawdata/" ++ encodeURIComponent lawId.

(** getLawById *)
Definition getLawById (lawId : jsstring) : M Net (ApiResponse LawText) :=
  let url := lawdataUrl lawId in
  fetchWithRetry url (fun xml => parseLawText parser clock xml) None.

(** The error the parser callback of getArticle throws for a missing article. *)
Definition articleMissing (article : jsstring) : error :=
  mkError "Error" (js "条文「" ++ article ++ js "」が見つかりませんでした") None.

(** getArticle *)
Definition getArticle (lawId article : jsstring) (paragraph : option number)
    : M Net (ApiResponse Article) :=
  (* まず法令本文を取得 *)
  let* lawResult := getLawById lawId in
  match lawResult with
  | Failure code message => ret (Failure code message)
  | Success _ =>
    (* 取得したXMLから条文を抽出（再度XMLを取得） *)
    let url := lawdataUrl lawId in
    fetchWithRetry url
      (fun xml =>
         match parseArticle parser xml article paragraph with
         | Throw e => Throw e
         | Ok None => Throw (articleMissing article)
         | Ok (Some found) => Ok found
         end)
      None
  end.

End WithParser.

(** *** A sample run: the service always answers with the two-chapter law *)

Definition sampleXml : jsstring := js "<Law>...</Law>".

Definition sampleParser : XMLParser (num := IntNumber) :=
  fun _ => Ok (VObj [("Law", VObj [("LawBody", twoChapters)])]%string).

Definition steadyNet : Net :=
  mkNet (fun _ _ => Http 200 (js "OK") (Ok sampleXml)) [].

End Client.

(** ** More of the client: what one attempt comes to *)

Module Attempt.

Import Parser Client.

(** The error of a response that is neither ok nor 404. *)
Definition httpError (status : N) (statusText : jsstring) : error :=
  mkError "Error" (js "HTTP " ++ String_of_N status ++ js ": " ++ statusText) None.

(** How the [try] block of fetchWithRetry ends on an answer of the network:
    it returns a result, or it throws into the [catch]. *)
Definition tryOutcome {T : Type} (parse : jsstring -> result T)
    (answer : response) : result (ApiResponse T) :=
  match answer with
  | Rejected e => Throw e
  | Http status statusText text =>
    if negb (ok status) then
      if status =? 404
      then Ok (Failure "NOT_FOUND" (js "リソースが見つかりませんでした"))
      else Throw (httpError status statusText)
    else
      match text with
      | Throw e => Throw e
      | Ok xml =>
        match parse xml with
        | Throw e => Throw e
        | Ok data => Ok (Success data)
        end
      end
  end.

(** [lastError?.message ?? 'リクエストに失敗しました'] *)
Definition lastMessage (lastError : option error) : jsstring :=
  match lastError with
  | Some e => err_message e
  | None => js "リクエストに失敗しました"
  end.

(** [options.retries ?? MAX_RETRIES] *)
Definition maxRetriesOf (retries : option nat) : nat :=
  match retries with
  | Some n => n
  | None => MAX_RETRIES
  end.

(** An event fetchWithRetry may cause: a request for [url], or the delay after
    a failed attempt that is not the last. *)
Definition retryEvent (maxRetries : nat) (url : jsstring) (ev : event) : Prop :=
  ev = Fetched url
  \/ exists attempt : nat,
       (1 <= attempt < maxRetries)%nat
       /\ ev = Delayed (RETRY_DELAY * Z.of_nat attempt).

(** Where a response of fetchWithRetry comes from: data is what the callback
    made of the body of an answer with a status in 200..299; NOT_FOUND stands
    for an answer with status 404; every other failure is FETCH_ERROR. *)
Definition fromNetwork {T : Type} (url : jsstring) (parse : jsstring -> result T)
    (net : Net) (r : ApiResponse T) : Prop :=
  match r with
  | Success data =>
    exists (n : nat) (status : N) (statusText xml : jsstring),
      respond net n url = Http status statusText (Ok xml)
      /\ ok status = true
      /\ parse xml = Ok data
  | Failure code _ =>
    (code = "NOT_FOUND"%string
     /\ exists (n : nat) (statusText : jsstring) (text : result jsstring),
          respond net n url = Http 404 statusText text)
    \/ code = "FETCH_ERROR"%string
  end.

(** A network whose first [failures] answers from now on are rejections and
    whose next answer is a document. *)
Definition flakyNet (failures : nat) (xml : jsstring) : Net :=
  mkNet (fun n _ =>
           if (n <? failures)%nat
           then Rejected (mkError "TypeError" (js "fetch failed") None)
           else Http 200 (js "OK") (Ok xml))
        [].

(** A service that answers every request with HTTP 503. *)
Definition busyNet : Net :=
  mkNet (fun _ _ => Http 503 (js "Service Unavailable") (Ok [])) [].

Definition sampleUrl : jsstring :=
  js "https://laws.e-gov.go.jp/api/1/lawdata/415AC0000000057".

(** A callback that keeps the document as it is. *)
Definition keep (xml : jsstring) : result jsstring := Ok xml.

(** A network that is down. *)
Definition deadNet : Net :=
  mkNet (fun _ _ => Rejected (mkError "TypeError" (js "fetch failed") None)) [].

(** A service without the document. *)
Definition missingNet : Net :=
  mkNet (fun _ _ => Http 404 (js "Not Found") (Ok [])) [].

End Attempt.

(** ** Law lists ([src/api/parser.ts], [src/api/client.ts]) *)

Module LawList.

Import Parser Client Eff.

Section Lists.

Context {num : JsNumber}.

(** types.ts: LawInfo, as parseLawList fills it; an optional field that is
    [undefined] is [None]. *)
Record LawInfo := mkLawInfo {
  lawId : jsstring;
  lawNumber : jsstring;
  lawName : jsstring;
  lawNameKana : option jsstring;
  lawType : jsstring;
  promulgationDate : option jsstring;
  enforcementDate : option jsstring
}.

(** types.ts: SearchResult *)
Record SearchResult := mkSearchResult {
  totalCount : nat;
  laws : list LawInfo
}.

(** [String(item.key || '')] *)
Definition stringOr (item : value) (key : string) : jsstring :=
  String_of_value (or_value (getProp item key) (VStr [])).

(** [item.key ? String(item.key) : undefined] *)
Definition stringIf (item : value) (key : string) : option jsstring :=
  if truthy_opt (getProp item key) then Some (String_of (getProp item key)) else None.

(** The callback of the [map] in parseLawList. *)
Definition lawInfoOf (item : value) : LawInfo :=
  mkLawInfo
    (stringOr item "LawId")
    (stringOr item "LawNo")
    (stringOr item "LawName")
    (stringIf item "LawNameKana")
    (stringOr item "LawType")
    (stringIf item "PromulgationDate")
    (stringIf item "EnforcementDate").

(** [applData.LawNameListInfo || dataRoot.LawNameListInfo || []] *)
Definition lawListOf (result : value) : value :=
  let dataRoot := or_value (getProp result "DataRoot") result in
  (* e-Gov APIの構造: DataRoot > ApplData > LawNameListInfo *)
  let applData := or_value (getProp dataRoot "ApplData") dataRoot in
  or_value (or_else (getProp applData "LawNameListInfo")
                    (getProp dataRoot "LawNameListInfo"))
           (VArr []).

(** parseLawList *)
Definition parseLawList (parser : XMLParser) (xml : jsstring) : result SearchResult :=
  match parser xml with
  | Throw e => Throw e
  | Ok result =>
    let laws := List.map lawInfoOf (ensureArray (Some (lawListOf result))) in
    Ok (mkSearchResult (length laws) laws)
  end.

(** The entries parseLawList reads from a decoded document. *)
Definition entriesOf (decoded : value) : list LawInfo :=
  List.map lawInfoOf (ensureArray (Some (lawListOf decoded))).

End Lists.

(** *** [String.prototype.includes] and [Array.prototype.sort] *)

Fixpoint startsWith (s q : jsstring) : bool :=
  match q, s with
  | [], _ => true
  | _ :: _, [] => false
  | b :: q', a :: s' => (a =? b) && startsWith s' q'
  end.

(** [s.includes(q)]: [q] occurs in [s] at some position. *)
Fixpoint includes (s q : jsstring) : bool :=
  startsWith s q
  || match s with
     | [] => false
     | _ :: s' => includes s' q
     end.

(** [Array.prototype.sort] with a comparison function is a stable sort.  The
    element [x] stood before those of the sorted rest, so it goes before the
    first of them it does not have to follow. *)
Fixpoint sort_insert {A : Type} (compareFn : A -> A -> Z) (x : A) (sorted : list A)
    : list A :=
  match sorted with
  | [] => [x]
  | y :: rest =>
    if (compareFn x y <=? 0)%Z then x :: y :: rest
    else y :: sort_insert compareFn x rest
  end.

Fixpoint sort {A : Type} (compareFn : A -> A -> Z) (l : list A) : list A :=
  match l with
  | [] => []
  | x :: rest => sort_insert compareFn x (sort compareFn rest)
  end.

(** A comparison function that ranks by a flag, as that of findSimilarLaws. *)
Definition flagged_first {A : Type} (flag : A -> bool) (a b : A) : Z :=
  ((if flag b then 1 else 0) - (if flag a then 1 else 0))%Z.

(** *** The client's calls on law lists *)

(** types.ts: LawCategory *)
Inductive LawCategory := Constitution | CabinetOrder | MinisterialOrdinance | Other.

(** The enum's numbers; none is zero, so a category that is given is truthy. *)
Definition categoryNumber (c : LawCategory) : N :=
  match c with
  | Constitution => 1
  | CabinetOrder => 2
  | MinisterialOrdinance => 3
  | Other => 4
  end.

(** The parameter object of searchLaws.  [category] and [lawType] of the
    source are [paramCategory] and [paramLawType] here, apart from the cache's
    categories and the field of LawInfo. *)
Record SearchParams := mkSearchParams {
  keyword : option jsstring;
  paramCategory : option LawCategory;
  paramLawType : option jsstring;
  promulgationDateFrom : option jsstring;
  promulgationDateTo : option jsstring
}.

(** [{ keyword }] *)
Definition byKeyword (keyword : jsstring) : SearchParams :=
  mkSearchParams (Some keyword) None None None None.

(** [if (x) queryParams.set(name, x)] for an optional string: the pair is
    added when the string is given and not empty. *)
Definition setIf (name : string) (x : option jsstring) : list (string * jsstring) :=
  match x with
  | Some s => if str_eqb s [] then [] else [(name, s)]
  | None => []
  end.

Section Calls.

Context {num : JsNumber}.

(** The module's XML parser, the clock, [encodeURIComponent], and the
    serializer of one value of a query
    ([application/x-www-form-urlencoded]). *)
Context (parser : XMLParser) (clock : jsstring)
        (encodeURIComponent : jsstring -> jsstring)
        (formEncode : jsstring -> jsstring).

(** [queryParams.toString()]; the names set here consist of letters and [_],
    which the serializer leaves as they are. *)
Definition queryString (queryParams : list (string * jsstring)) : jsstring :=
  join (js "&")
    (List.map (fun '(name, x) => js name ++ js "=" ++ formEncode x) queryParams).

Definition searchQuery (params : SearchParams) : list (string * jsstring) :=
  setIf "keyword" (keyword params)
  ++ match paramCategory params with
     | Some c => [("category"%string, String_of_N (categoryNumber c))]
     | None => []
     end
  ++ setIf "law_type" (paramLawType params)
  ++ setIf "promulgation_date_from" (promulgationDateFrom params)
  ++ setIf "promulgation_date_to" (promulgationDateTo params).

Definition searchUrl (params : SearchParams) : jsstring :=
  BASE_URL ++ js "/lawlists?" ++ queryString (searchQuery params).

(** searchLaws *)
Definition searchLaws (params : SearchParams) : M Net (ApiResponse SearchResult) :=
  fetchWithRetry (searchUrl params) (fun xml => parseLawList parser xml) None.

(** The error of getLawByNumber when no law has the number. *)
Definition noExactMatch (lawNumber : jsstring) : ApiResponse LawText :=
  Failure "NOT_FOUND"
    (js "法令番号「" ++ lawNumber ++ js "」に該当する法令が見つかりませんでした").

(** getLawByNumber *)
Definition getLawByNumber (lawNumber : jsstring) : M Net (ApiResponse LawText) :=
  (* まず法令番号で検索して法令IDを取得 *)
  let* searchResult := searchLaws (byKeyword lawNumber) in
  match searchResult with
  | Failure code message => ret (Failure code message)
  | Success data =>
    (* 完全一致する法令を探す *)
    match List.find (fun law => str_eqb (LawList.lawNumber law) lawNumber) (laws data) with
    | None => ret (noExactMatch lawNumber)
    | Some exactMatch =>
      getLawById parser clock encodeURIComponent (LawList.lawId exactMatch)
    end
  end.

Definition updatedUrl (from : jsstring) (to : option jsstring) : jsstring :=
  BASE_URL ++ js "/lawlists/updated?"
  ++ queryString (("updated_from"%string, from) :: setIf "updated_to" to).

(** getUpdatedLaws *)
Definition getUpdatedLaws (from : jsstring) (to : option jsstring)
    : M Net (ApiResponse SearchResult) :=
  fetchWithRetry (updatedUrl from to) (fun xml => parseLawList parser xml) None.

(** The comparison function of findSimilarLaws. *)
Definition byNameMatch (query : jsstring) (a b : LawInfo) : Z :=
  let aMatch := if includes (LawList.lawName a) query then 1%Z else 0%Z in
  let bMatch := if includes (LawList.lawName b) query then 1%Z else 0%Z in
  (bMatch - aMatch)%Z.

(** findSimilarLaws *)
Definition findSimilarLaws (query : jsstring) : M Net (ApiResponse SearchResult) :=
  (* キーワード検索を実行 *)
  let* result := searchLaws (byKeyword query) in
  match result with
  | Failure code message => ret (Failure code message)
  | Success data =>
    (* 関連度でソート（名前の部分一致を優先） *)
    let sortedLaws := sort (byNameMatch query) (laws data) in
    ret (Success (mkSearchResult (length sortedLaws) (firstn 10 sortedLaws)))
  end.

End Calls.

(** *** A sample list *)

Definition entry (id no name : string) : value (num := IntNumber) :=
  VObj [("LawId", VStr (js id)); ("LawNo", VStr (js no)); ("LawName", VStr (js name))]%string.

Definition sampleList : value (num := IntNumber) :=
  VObj [("DataRoot",
    VObj [("ApplData",
      VObj [("LawNameListInfo",
        VArr [ entry "129AC0000000089" "明治二十九年法律第八十九号" "民法";
               entry "415AC0000000057" "平成十五年法律第五十七号" "個人情報の保護に関する法律";
               entry "322AC0000000049" "昭和二十二年法律第四十九号" "労働基準法";
               entry "415CO0000000507" "平成十五年政令第五百七号" "個人情報の保護に関する法律施行令" ])])])]%string.

Definition listParser : XMLParser (num := IntNumber) := fun _ => Ok sampleList.

End LawList.

(** ** More of the cache: clear, and names for the states of the disk *)

Module Disk.

Import Eff LawCache.

Section Ops.

Context {T : Type}.

(** The environment with other files. *)
Definition withFiles (w : World T) (fs : gmap jsstring (file T)) : World T :=
  mkWorld (now w) fs (mkdirError w) (writeError w) (unlinkError w).

(** The entry [set] writes at time [now] with a time to live [ttl]. *)
Definition storedEntry (data : T) (now ttl : Z) : file T :=
  Text (JsonValue (Some data) (Some now) (Some (now + ttl)%Z)).

(** The files after an [unlink] of [path] whose outcome is ignored: the file
    is gone unless the call ran into a fault. *)
Definition unlinked (w : World T) (path : jsstring) : gmap jsstring (file T) :=
  match unlinkError w path with
  | Some _ => files w
  | None => base.delete path (files w)
  end.

(** The files after unlinking [paths] one after the other, faults ignored. *)
Definition swept (unlinkError : jsstring -> option string)
    (fs : gmap jsstring (file T)) (paths : list jsstring) : gmap jsstring (file T) :=
  fold_left
    (fun fs path =>
       match unlinkError path with
       | Some _ => fs
       | None => base.delete path fs
       end)
    paths fs.

(** [path.basename]: what follows the last separator. *)
Definition baseName (path : jsstring) : jsstring :=
  rev (span_while (fun c => negb (c =? SLASH)) (rev path)).

(** The name under which the file at [path] is listed in the directory
    [dir], if it lies directly inside it: the name that, joined to [dir],
    gives [path]. *)
Definition entryName (dir path : jsstring) : option jsstring :=
  let name := baseName path in
  if plainSegment name && str_eqb (path_join dir name) path
  then Some name
  else None.

(** What [readdir] runs into, if anything. *)
Context (readdirError : option string).

(** [readdir(dir)]: the names of the files directly inside [dir].  The disk
    holds files only, so no directory is listed. *)
Definition readdir (dir : jsstring) : M (State T) (list jsstring) := fun st =>
  match readdirError with
  | Some code => (Throw (errno code), st)
  | None =>
    (Ok (omap (entryName dir) (List.map fst (map_to_list (files (world st))))), st)
  end.

(** [await Promise.all(xs.map(f))] for calls [f x] that do not reject: all of
    them are made.  They are made here in the order of the list. *)
Fixpoint forEach {A : Type} (xs : list A) (f : A -> M (State T) unit)
    : M (State T) unit :=
  match xs with
  | [] => ret tt
  | x :: rest => f x ;;; forEach rest f
  end.

(** clear *)
Definition clear : M (State T) unit :=
  ensureInitialized ;;;
  let* this := gets this in
  try_catch
    (let* files := readdir (cacheDir this) in
     forEach files
       (fun file =>
          try_catch (unlink (path_join (cacheDir this) file)) (fun _ => ret tt)))
    (fun _ =>
       (* ディレクトリが存在しない場合は無視 *)
       ret tt).

End Ops.

(** *** Sample states *)

(** The fresh cache after a law text was stored. *)
Definition stored : State nat :=
  snd (set lawText (js "415AC0000000057") 7%nat fresh).

(** A cache whose law texts are to live longer than a [Date] can tell, on a
    healthy disk at time 1000. *)
Definition forever : State nat :=
  mkState
    (constructor (js "/home/user/.cache/egov-law-mcp")
       (Some (mkPartialConfig None (Some (9 * 10 ^ 15)%Z) None)))
    (mkWorld 1000 ∅ None (fun _ => None) (fun _ => None)).

(** A disk on which nothing can be removed. *)
Definition sticky : State nat :=
  mkState (this stored)
    (mkWorld 1000 (files (world stored)) None (fun _ => None)
       (fun _ => Some "EACCES"%string)).

End Disk.

(** ** Markdown ([src/utils/xml-to-markdown.ts]) *)

Module Markdown.

Import Parser.

Section Rendering.

Context {num : JsNumber}.

(** The line of one entry of the table of contents at a nesting level. *)
Definition tocLine (level : nat) (title ref : jsstring) : jsstring :=
  let indent := repeat_str (js "  ") level in
  indent ++ js "- " ++ title ++ js " (" ++ ref ++ js ")".

(** What the loop of tocToMarkdown pushes for one entry: its line and, when
    it has children, their rendering as one more element. *)
Fixpoint tocPushed (level : nat) (item : TocItem) : list jsstring :=
  match item with
  | mkTocItem title ref children =>
    tocLine level title ref
    :: match children with
       | Some (child :: rest) =>
         [join nl (flat_map (tocPushed (S level)) (child :: rest))]
       | _ => []
       end
  end.

(** tocToMarkdown *)
Definition tocToMarkdown (toc : list TocItem) (level : nat) : jsstring :=
  join nl (flat_map (tocPushed level) toc).

(** The lines of the entries of a table of contents, each entry before its
    children, indented by two spaces a level. *)
Fixpoint tocEntryLines (level : nat) (item : TocItem) : list jsstring :=
  match item with
  | mkTocItem title ref children =>
    tocLine level title ref
    :: match children with
       | Some entries => flat_map (tocEntryLines (S level)) entries
       | None => []
       end
  end.

(** lawTextToMarkdown *)
Definition lawTextToMarkdown (lawText : LawText) : jsstring :=
  join nl
    ([ js "# " ++ lawName lawText;
       [];
       js "**法令番号**: " ++ lawNumber lawText;
       js "**法令ID**: " ++ lawId lawText;
       [] ]
     (* 目次 *)
     ++ match toc lawText with
        | [] => []
        | _ => [ js "## 目次"; []; tocToMarkdown (toc lawText) 0; [] ]
        end
     (* 本文 *)
     ++ [ content lawText ]).

(** What the loop of articleToMarkdown pushes for one paragraph. *)
Definition paragraphParts (para : Paragraph) : list jsstring :=
  [ js "**第" ++ num_to_string (paragraphNum para) ++ js "項**";
    [];
    paragraphContent para;
    [] ]
  ++ match items para with
     | [] => []
     | _ =>
       List.map (fun item => js "  - " ++ itemNum item ++ js ". " ++ itemContent item)
         (items para)
       ++ [ [] ]
     end.

(** [article.articleTitle || `第${article.articleNum}条`] *)
Definition articleHeadingTitle (article : Article) : jsstring :=
  match articleTitle article with
  | Some title => if str_eqb title [] then js "第" ++ articleNum article ++ js "条" else title
  | None => js "第" ++ articleNum article ++ js "条"
  end.

(** articleToMarkdown *)
Definition articleToMarkdown (article : Article) : jsstring :=
  let title := articleHeadingTitle article in
  join nl
    ([ js "## " ++ title; []; articleContent article; [] ]
     (* 項の詳細 *)
     ++ match paragraphs article with
        | [] => []
        | _ =>
          [ js "### 項の詳細"; [] ] ++ flat_map paragraphParts (paragraphs article)
        end).

End Rendering.

(** [if (x)] for an optional string *)
Definition given (x : option jsstring) : option jsstring :=
  match x with
  | Some s => if str_eqb s [] then None else Some s
  | None => None
  end.

(** What the loop of searchResultToMarkdown pushes for one law. *)
Definition lawParts (law : LawList.LawInfo) : list jsstring :=
  [ js "### " ++ LawList.lawName law;
    [];
    js "- **法令番号**: " ++ LawList.lawNumber law;
    js "- **法令ID**: " ++ LawList.lawId law ]
  ++ match given (Some (LawList.lawType law)) with
     | Some lawType => [ js "- **種別**: " ++ lawType ]
     | None => []
     end
  ++ match given (LawList.promulgationDate law) with
     | Some promulgationDate => [ js "- **公布日**: " ++ promulgationDate ]
     | None => []
     end
  ++ [ [] ].

(** searchResultToMarkdown *)
Definition searchResultToMarkdown (laws : list LawList.LawInfo) : jsstring :=
  match laws with
  | [] => js "検索結果がありません。"
  | _ =>
    join nl
      ([ js "検索結果: " ++ String_of_N (N.of_nat (length laws)) ++ js "件"; [] ]
       ++ flat_map lawParts laws)
  end.

(** errorToMarkdown *)
Definition errorToMarkdown (code : jsstring) (message : jsstring) : jsstring :=
  js "## エラー" ++ nl ++ nl
  ++ js "**コード**: " ++ code ++ nl
  ++ js "**メッセージ**: " ++ message ++ nl ++ nl
  ++ js "### 対処方法" ++ nl ++ nl
  ++ js "- キーワードや条件を変えて再検索してください" ++ nl
  ++ js "- 法令番号が正しいか確認してください" ++ nl
  ++ js "- しばらく待ってから再試行してください" ++ nl.

(** suggestSimilarLaws; a candidate is a pair of [lawName] and [lawId]. *)
Definition suggestSimilarLaws (query : jsstring)
    (candidates : list (jsstring * jsstring)) : jsstring :=
  match candidates with
  | [] => js "「" ++ query ++ js "」に該当する法令が見つかりませんでした。"
  | _ =>
    join nl
      ([ js "「" ++ query ++ js "」に該当する法令が見つかりませんでした。";
         [];
         js "以下の法令を探していますか？";
         [] ]
       ++ List.map (fun '(lawName, lawId) =>
                      js "- " ++ lawName ++ js " (ID: " ++ lawId ++ js ")")
            (firstn 5 candidates))
  end.

(** Two lists of pieces that join to the same text wherever they stand in a
    list that is joined. *)
Definition joins_like (sep : jsstring) (l l' : list jsstring) : Prop :=
  forall front rest : list jsstring,
    join sep (front ++ l ++ rest) = join sep (front ++ l' ++ rest).

(** *** A sample table of contents *)

Definition sampleToc : list TocItem :=
  [ mkTocItem (js "第一章 総則") (js "第1")
      (Some [ mkTocItem (js "第一条") (js "第1") None;
              mkTocItem (js "第二条") (js "第2") (Some []) ]);
    mkTocItem (js "第二章 雑則") (js "第2") None ].

(** A law whose Article 3 has no ArticleTitle. *)
Definition untitledLaw : value (num := IntNumber) :=
  VObj [ ("Law",
          VObj [ ("LawBody",
                  VObj [ ("MainProvision",
                          VObj [ ("Article",
                                  VArr [ VObj [ ("Paragraph",
                                                 VArr [sampleParagraph "1" "報告"]);
                                                ("@_Num", VStr (js "3")) ] ]) ]) ]) ]) ]%string.

Definition untitledParser : XMLParser (num := IntNumber) := fun _ => Ok untitledLaw.

End Markdown.

(** ** The tools ([src/tools]) *)

Module Tools.

Import Eff Parser LawCache Client LawList Markdown.

(** [String.prototype.trim]: white space and line terminators are removed at
    both ends. *)
Definition is_white_space (c : N) : bool :=
  ((9 <=? c) && (c <=? 13)) || (c =? 32) || (c =? 160) || (c =? 5760)
  || ((8192 <=? c) && (c <=? 8202)) || (c =? 8232) || (c =? 8233)
  || (c =? 8239) || (c =? 8287) || (c =? 12288) || (c =? 65279).

Fixpoint drop_while (p : N -> bool) (s : jsstring) : jsstring :=
  match s with
  | [] => []
  | c :: r => if p c then drop_while p r else s
  end.

Definition trim (s : jsstring) : jsstring :=
  rev (drop_while is_white_space (rev (drop_while is_white_space s))).

(** The double quote. *)
Definition QUOTE : jsstring := [34].

(** What a tool returns: SearchLawsResult, GetLawTextResult, GetArticleResult. *)
Record ToolResult (D : Type) := mkToolResult {
  success : bool;
  content : jsstring;
  data : option D
}.

Arguments mkToolResult {D} success content data.
Arguments success {D} _.
Arguments content {D} _.
Arguments data {D} _.

(** The two objects a tool is given: the cache, with its disk, and the
    client, with its network. *)
Record Env (T : Type) := mkEnv {
  cache : State T;
  network : Net
}.

Arguments mkEnv {T} cache network.
Arguments cache {T} _.
Arguments network {T} _.

(** A call on the cache, and a call on the client. *)
Definition onCache {T A : Type} (m : M (State T) A) : M (Env T) A := fun env =>
  let '(r, st) := m (cache env) in (r, mkEnv st (network env)).

Definition onClient {T A : Type} (m : M Net A) : M (Env T) A := fun env =>
  let '(r, net) := m (network env) in (r, mkEnv (cache env) net).

Definition failed {D : Type} (code message : jsstring) : ToolResult D :=
  mkToolResult false (errorToMarkdown code message) None.

Section WithClient.

Context {num : JsNumber}.

Context (parser : XMLParser) (clock : jsstring)
        (encodeURIComponent formEncode : jsstring -> jsstring).

(** [`search_${keyword}_${category ?? 'all'}`]; a category is one of the four
    numbers the tool's schema admits. *)
Definition searchCacheKey (keyword : jsstring) (category : option LawCategory)
    : jsstring :=
  js "search_" ++ keyword ++ js "_"
  ++ match category with
     | Some c => String_of_N (categoryNumber c)
     | None => js "all"
     end.

(** tools/search-laws.ts: searchLaws *)
Definition searchLaws (keyword : jsstring) (category : option LawCategory)
    : M (Env SearchResult) (ToolResult SearchResult) :=
  if str_eqb keyword [] || str_eqb (trim keyword) [] then
    ret (failed (js "INVALID_PARAMS") (js "検索キーワードを指定してください"))
  else
    (* キャッシュキーを生成 *)
    let cacheKey := searchCacheKey keyword category in
    (* キャッシュをチェック *)
    let* cached := onCache (get lawList cacheKey) in
    match cached with
    | Hit cached =>
      ret (mkToolResult true (searchResultToMarkdown (laws cached)) (Some cached))
    | _ =>
      (* API を呼び出し *)
      let* result :=
        onClient (LawList.searchLaws parser formEncode
                    (mkSearchParams (Some keyword) category None None None)) in
      match result with
      | Failure code message => ret (failed (js code) message)
      | Success data =>
        (* キャッシュに保存 *)
        onCache (set lawList cacheKey data) ;;;
        ret (mkToolResult true (searchResultToMarkdown (laws data)) (Some data))
      end
    end.

(** [law_id ?? law_number!], after the guard that one of them is given. *)
Definition lawCacheKey (law_id law_number : option jsstring) : jsstring :=
  match law_id, law_number with
  | Some id, _ => id
  | None, Some number => number
  | None, None => []
  end.

(** What getLawText answers to a failure: for NOT_FOUND, the laws that
    findSimilarLaws offers, if any. *)
Definition afterFailure (law_id law_number : option jsstring)
    (code : string) (message : jsstring) : M (Env LawText) (ToolResult LawText) :=
  (* 見つからない場合は類似候補を提案 *)
  if String.eqb code "NOT_FOUND" then
    let query := lawCacheKey law_id law_number in
    let* similar := onClient (findSimilarLaws parser formEncode query) in
    match similar with
    | Success found =>
      match laws found with
      | [] => ret (failed (js code) message)
      | _ =>
        ret (mkToolResult false
               (suggestSimilarLaws query
                  (List.map (fun law => (LawList.lawName law, LawList.lawId law))
                     (laws found)))
               None)
      end
    | Failure _ _ => ret (failed (js code) message)
    end
  else ret (failed (js code) message).

(** tools: getLawText *)
Definition getLawText (law_id law_number : option jsstring)
    : M (Env LawText) (ToolResult LawText) :=
  match given law_id, given law_number with
  | None, None =>
    ret (failed (js "INVALID_PARAMS")
           (js "法令ID (law_id) または法令番号 (law_number) のいずれかを指定してください"))
  | _, _ =>
    (* キャッシュキーを生成 *)
    let cacheKey := lawCacheKey law_id law_number in
    (* キャッシュをチェック *)
    let* cached := onCache (get lawText cacheKey) in
    match cached with
    | Hit cached =>
      ret (mkToolResult true (lawTextToMarkdown cached) (Some cached))
    | _ =>
      (* API を呼び出し *)
      let* result :=
        match given law_id with
        | Some id => onClient (getLawById parser clock encodeURIComponent id)
        | None =>
          onClient (getLawByNumber parser clock encodeURIComponent formEncode
                      (lawCacheKey None law_number))
        end in
      match result with
      | Failure code message => afterFailure law_id law_number code message
      | Success data =>
        (* キャッシュに保存 *)
        onCache (set lawText cacheKey data) ;;;
        (* 法令IDでもキャッシュ（法令番号で取得した場合） *)
        (match given law_number with
         | Some number =>
           if negb (str_eqb (Parser.lawId data) [])
              && negb (str_eqb (Parser.lawId data) number)
           then onCache (set lawText (Parser.lawId data) data)
           else ret tt
         | None => ret tt
         end) ;;;
        ret (mkToolResult true (lawTextToMarkdown data) (Some data))
      end
    end
  end.

(** tools: getArticle.  The cache holds law texts; what is read from it is
    not used. *)
Definition getArticle (law_id article : jsstring) (paragraph : option number)
    : M (Env LawText) (ToolResult Article) :=
  if str_eqb law_id [] then
    ret (failed (js "INVALID_PARAMS") (js "法令ID (law_id) を指定してください"))
  else if str_eqb article [] then
    ret (failed (js "INVALID_PARAMS")
           (js "条番号 (article) を指定してください（例: " ++ QUOTE ++ js "第一条" ++ QUOTE
            ++ js ", " ++ QUOTE ++ js "1" ++ QUOTE ++ js "）"))
  else
    (* キャッシュをチェック（法令本文キャッシュから抽出を試みる） *)
    let* cachedLawText := onCache (get lawText law_id) in
    (* API を呼び出し *)
    let* result :=
      onClient (Client.getArticle parser clock encodeURIComponent
                  law_id article paragraph) in
    match result with
    | Failure code message => ret (failed (js code) message)
    | Success found =>
      ret (mkToolResult true (articleToMarkdown found) (Some found))
    end.

End WithClient.

(** *** Sample runs *)

(** A fresh cache on an empty, healthy disk at time 1000, and the service
    that answers every request with the same document. *)
Definition sampleEnv {T : Type} : Env T :=
  mkEnv (mkState sampleCache (mkWorld 1000 ∅ None (fun _ => None) (fun _ => None)))
        steadyNet.

(** The same with a cache directory that cannot be created. *)
Definition deniedEnv {T : Type} : Env T :=
  mkEnv (mkState sampleCache
           (mkWorld 1000 ∅ (Some "EACCES"%string) (fun _ => None) (fun _ => None)))
        steadyNet.

(** A first search, for 個人情報. *)
Definition firstSearch : result (ToolResult SearchResult) * Env SearchResult :=
  searchLaws listParser (fun s => s) (js "個人情報") None sampleEnv.

(** A service that answers a request for a list with the sample list and
    any other request with the law 415AC0000000057, and a parser for the
    two documents. *)
Definition listXml : jsstring := js "<DataRoot>list</DataRoot>".
Definition lawXml : jsstring := js "<DataRoot>law</DataRoot>".

Definition routedNet : Net :=
  mkNet (fun _ url =>
           Http 200 (js "OK")
             (Ok (if includes url (js "/lawlists") then listXml else lawXml)))
        [].

Definition routedParser : XMLParser (num := IntNumber) := fun xml =>
  Ok (if str_eqb xml listXml then sampleList else supplementaryOnly).

Definition routedEnv {T : Type} : Env T :=
  mkEnv (mkState sampleCache (mkWorld 1000 ∅ None (fun _ => None) (fun _ => None)))
        routedNet.

(** A first request of a law text by its number. *)
Definition firstByNumber : result (ToolResult LawText) * Env LawText :=
  getLawText routedParser (js "2026-01-01T00:00:00.000Z") (fun s => s) (fun s => s)
    None (Some (js "平成十五年法律第五十七号")) routedEnv.

End Tools.
(** * Facts *)

(** ** JavaScript strings *)

Lemma join_nil_concat (parts : list jsstring) : concat_all parts = List.concat parts.
Proof.
  unfold concat_all.
  induction parts as [|p [|q rest] IH]; simpl in *.
  - reflexivity.
  - now rewrite app_nil_r.
  - now rewrite IH.
Qed.

Example js_ascii : js "a_1" = [97; 95; 49].
Proof. reflexivity. Qed.

Example js_kanji : js "第二十条" = [31532; 20108; 21313; 26465].
Proof. vm_compute. reflexivity. Qed.

Example String_of_N_123 : String_of_N 123 = js "123".
Proof. vm_compute. reflexivity. Qed.

(** ** The parser *)

Import Parser.

Section TreeFacts.

Context {num : JsNumber}.

Section DescentFacts.

Context {A R : Type} (bottom : R) (body : (value -> A -> R) -> value -> A -> R).

Hypothesis body_local : forall (r1 r2 : value -> A -> R) (v : value) (a : A),
  (forall c a', (vdepth c < vdepth v)%nat -> r1 c a' = r2 c a') ->
  body r1 v a = body r2 v a.

Lemma iterate_stable (n m : nat) (v : value) (a : A) :
  (vdepth v < n)%nat -> (vdepth v < m)%nat -> iterate bottom body n v a = iterate bottom body m v a.
Proof.
  revert m v a.
  induction n as [|n IH]; intros m v a Hn Hm; [lia|].
  destruct m as [|m]; [lia|].
  simpl. apply body_local.
  intros c a' Hc. apply IH; lia.
Qed.

Lemma descend_unfold (v : value) (a : A) : descend bottom body v a = body (descend bottom body) v a.
Proof.
  unfold descend at 1. simpl.
  apply body_local.
  intros c a' Hc. unfold descend. apply iterate_stable; lia.
Qed.

End DescentFacts.

(** *** Depth of what a descent reaches *)

Lemma vdepth_items (c : value) (items : list value) :
  In c items -> (vdepth c < vdepth (VArr items))%nat.
Proof.
  intros Hin. simpl.
  assert (H : Forall (fun k => (k <= list_max (List.map vdepth items))%nat)
                     (List.map vdepth items)) by (apply list_max_le; lia).
  rewrite Forall_forall in H.
  specialize (H (vdepth c)). cbv beta in H.
  assert ((vdepth c <= list_max (List.map vdepth items))%nat); [|lia].
  apply H. apply list_elem_of_In, in_map, Hin.
Qed.

Lemma vdepth_fields (k : string) (c : value) (fields : list (string * value)) :
  In (k, c) fields -> (vdepth c < vdepth (VObj fields))%nat.
Proof.
  intros Hin. simpl.
  set (ds := List.map (fun '(_, x) => vdepth x) fields).
  assert (H : Forall (fun n => (n <= list_max ds)%nat) ds) by (apply list_max_le; lia).
  rewrite Forall_forall in H.
  assert ((vdepth c <= list_max ds)%nat); [|lia].
  apply H. apply list_elem_of_In. unfold ds.
  apply in_map_iff. exists (k, c). split; [reflexivity|exact Hin].
Qed.

Lemma lookup_field_In (fields : list (string * value)) (key : string) (c : value) :
  lookup_field fields key = Some c -> exists k, In (k, c) fields.
Proof.
  induction fields as [|[k v] rest IH]; simpl; [discriminate|].
  destruct (String.eqb k key).
  - intros [= ->]. exists k. now left.
  - intros H. destruct (IH H) as [k' Hk']. exists k'. now right.
Qed.

Lemma vdepth_getProp (v : value) (key : string) (c : value) :
  getProp v key = Some c -> (vdepth c < vdepth v)%nat.
Proof.
  destruct v as [s|n|b|its|fs]; simpl; try discriminate.
  intros H. apply lookup_field_In in H as [k Hk].
  exact (vdepth_fields k c fs Hk).
Qed.

Lemma vdepth_Object_values (v c : value) :
  In c (Object_values v) -> (vdepth c < vdepth v)%nat.
Proof.
  destruct v as [s|n|b|its|fs]; simpl; try contradiction.
  - apply vdepth_items.
  - intros H. apply in_map_iff in H as [[k x] [Hx Hin]]. simpl in Hx. subst x.
    exact (vdepth_fields k c fs Hin).
Qed.

Lemma vdepth_ensureArray (x : option value) (v c : value) :
  (forall y, x = Some y -> (vdepth y < vdepth v)%nat) ->
  In c (ensureArray x) -> (vdepth c < vdepth v)%nat.
Proof.
  intros Hx Hin. destruct x as [y|]; simpl in Hin; [|contradiction].
  specialize (Hx y eq_refl).
  destruct y as [s|n|b|its|fs]; simpl in Hin;
    try (destruct Hin as [<-|[]]; exact Hx).
  pose proof (vdepth_items c its Hin). lia.
Qed.

Lemma vdepth_children (v : value) (key : string) (c : value) :
  In c (ensureArray (getProp v key)) -> (vdepth c < vdepth v)%nat.
Proof.
  apply vdepth_ensureArray. intros y Hy. exact (vdepth_getProp v key y Hy).
Qed.

(** *** The descents unfold *)

Lemma flat_map_ext_in {X Y : Type} (f g : X -> list Y) (l : list X) :
  (forall x, In x l -> f x = g x) -> flat_map f l = flat_map g l.
Proof.
  induction l as [|x l IH]; intros H; simpl; [reflexivity|].
  rewrite (H x (or_introl eq_refl)), IH; [reflexivity|].
  intros y Hy. apply H. now right.
Qed.

Lemma first_found_ext_in {X Y : Type} (f g : X -> option Y) (l : list X) :
  (forall x, In x l -> f x = g x) -> first_found f l = first_found g l.
Proof.
  induction l as [|x l IH]; intros H; simpl; [reflexivity|].
  rewrite (H x (or_introl eq_refl)), IH; [reflexivity|].
  intros y Hy. apply H. now right.
Qed.

Lemma omap_ext_in {X Y : Type} (f g : X -> option Y) (l : list X) :
  (forall x, In x l -> f x = g x) -> omap f l = omap g l.
Proof.
  induction l as [|x l IH]; intros H; [reflexivity|].
  assert (IH' : omap f l = omap g l) by (apply IH; intros y Hy; apply H; now right).
  change (match f x with Some y => y :: omap f l | None => omap f l end
          = match g x with Some y => y :: omap g l | None => omap g l end).
  now rewrite (H x (or_introl eq_refl)), IH'.
Qed.

Lemma extractText_body_local (r1 r2 : value -> unit -> jsstring) (v : value) (a : unit) :
  (forall c a', (vdepth c < vdepth v)%nat -> r1 c a' = r2 c a') ->
  extractText_body r1 v a = extractText_body r2 v a.
Proof.
  intros H. unfold extractText_body.
  destruct (negb (truthy v)); [reflexivity|].
  assert (E : forall x, In x (Object_values v) ->
    textPieces (fun y => r1 y tt) x = textPieces (fun y => r2 y tt) x).
  { intros x Hx. pose proof (vdepth_Object_values v x Hx) as Hd.
    destruct x as [s|n|b|vs|fs]; try reflexivity; simpl.
    - apply map_ext_in. intros y Hy. apply H.
      pose proof (vdepth_items y vs Hy). lia.
    - now rewrite (H _ tt Hd). }
  destruct v as [s|n|b|its|fs]; try reflexivity;
    (destruct (truthy_opt _); [reflexivity|]);
    f_equal; apply flat_map_ext_in; exact E.
Qed.

Lemma extractText_value_unfold (node : value) :
  extractText_value node = extractText_body (fun v _ => extractText_value v) node tt.
Proof.
  unfold extractText_value at 1.
  rewrite (descend_unfold [] extractText_body extractText_body_local).
  apply extractText_body_local. intros c [] _. reflexivity.
Qed.

Lemma extractItemContent_unfold (item : value) (level : nat) :
  extractItemContent item level = extractItemContent_body extractItemContent item level.
Proof.
  apply descend_unfold.
  intros r1 r2 v a H. unfold extractItemContent_body.
  do 2 f_equal. apply map_ext_in. intros c Hc. apply H.
  refine (vdepth_ensureArray _ v c _ Hc).
  intros y. unfold or_else.
  destruct (truthy_opt (getProp v "Subitem1")); apply vdepth_getProp.
Qed.

Lemma tocChildren_local (r1 r2 : value -> string -> option TocItem)
    (v : value) (childTypes : list string) :
  (forall c a', (vdepth c < vdepth v)%nat -> r1 c a' = r2 c a') ->
  tocChildren r1 v childTypes = tocChildren r2 v childTypes.
Proof.
  intros H. induction childTypes as [|t rest IH]; [reflexivity|].
  cbn [tocChildren].
  destruct (ensureArray (getProp v t)) as [|c0 cs] eqn:E; [exact IH|].
  f_equal. apply omap_ext_in. intros c Hc. apply H.
  apply (vdepth_children v t). now rewrite E.
Qed.

Lemma extractTocItem_unfold (node : value) (type : string) :
  extractTocItem node type = extractTocItem_body extractTocItem node type.
Proof.
  apply descend_unfold.
  intros r1 r2 v a H. unfold extractTocItem_body.
  now rewrite (tocChildren_local r1 r2 v _ H).
Qed.

Lemma findArticleRecursive_unfold (node : value) (targetNum : jsstring) :
  findArticleRecursive node targetNum
  = findArticleRecursive_body findArticleRecursive node targetNum.
Proof.
  apply descend_unfold.
  intros r1 r2 v a H. unfold findArticleRecursive_body.
  destruct (List.find _ _); [reflexivity|].
  apply first_found_ext_in. intros key _.
  apply first_found_ext_in. intros c Hc.
  now rewrite (H c a (vdepth_children v key c Hc)).
Qed.

End TreeFacts.
Section LocatorFacts.

Context {num : JsNumber}.

Lemma spec_searchOrder_unfold (node : value) :
  spec_searchOrder node
  = ensureArray (getProp node "Article")
    ++ flat_map (fun key => flat_map spec_searchOrder (ensureArray (getProp node key)))
         containerKeys.
Proof.
  unfold spec_searchOrder at 1.
  rewrite descend_unfold.
  - unfold spec_searchOrder_body. reflexivity.
  - intros r1 r2 v a H. unfold spec_searchOrder_body. f_equal.
    apply flat_map_ext_in. intros key _.
    apply flat_map_ext_in. intros c Hc.
    apply H. exact (vdepth_children v key c Hc).
Qed.

Lemma find_app_first {X : Type} (p : X -> bool) (l1 l2 : list X) :
  List.find p (l1 ++ l2)
  = match List.find p l1 with
    | Some x => Some x
    | None => List.find p l2
    end.
Proof.
  induction l1 as [|x l1 IH]; simpl; [reflexivity|].
  destruct (p x); [reflexivity|exact IH].
Qed.

Lemma find_flat_map {X Y : Type} (p : Y -> bool) (f : X -> list Y) (l : list X) :
  List.find p (flat_map f l) = first_found (fun x => List.find p (f x)) l.
Proof.
  induction l as [|x l IH]; simpl; [reflexivity|].
  rewrite find_app_first, IH. reflexivity.
Qed.

(** The recursive search answers with the first Article, in search order, that
    carries the target number, as long as the Articles that carry it are
    truthy (element objects are). *)
Lemma findArticleRecursive_first (targetNum : jsstring) (node : value) :
  (forall a, In a (spec_searchOrder node) -> hasNum targetNum a = true -> truthy a = true) ->
  findArticleRecursive node targetNum = List.find (hasNum targetNum) (spec_searchOrder node).
Proof.
  remember (vdepth node) as d eqn:Hd.
  revert node Hd.
  induction d as [d IH] using lt_wf_ind.
  intros node Hd Hok.
  rewrite findArticleRecursive_unfold. unfold findArticleRecursive_body.
  rewrite spec_searchOrder_unfold in Hok |- *.
  rewrite find_app_first.
  destruct (List.find (hasNum targetNum) (ensureArray (getProp node "Article")));
    [reflexivity|].
  rewrite find_flat_map.
  apply first_found_ext_in. intros key Hkey.
  rewrite find_flat_map.
  apply first_found_ext_in. intros c Hc.
  assert (Hsub : forall a, In a (spec_searchOrder c) ->
                           hasNum targetNum a = true -> truthy a = true).
  { intros a Ha. apply Hok. apply in_or_app. right.
    apply in_flat_map. exists key. split; [exact Hkey|].
    apply in_flat_map. exists c. split; [exact Hc|exact Ha]. }
  rewrite (IH (vdepth c)) with (node := c); try reflexivity; try exact Hsub.
  - destruct (List.find (hasNum targetNum) (spec_searchOrder c)) as [a|] eqn:E;
      [|reflexivity].
    apply find_some in E as [Hin Hp].
    unfold if_truthy. simpl. now rewrite (Hsub a Hin Hp).
  - subst d. exact (vdepth_children node key c Hc).
Qed.

(** *** Kind order and document order *)

Lemma spec_kindOrder_unfold (node : value) :
  spec_kindOrder node
  = ensureArray (getProp node "Article")
    ++ flat_map (fun kind => flat_map spec_kindOrder (ensureArray (getProp node kind)))
         spec_containerKinds.
Proof.
  unfold spec_kindOrder at 1.
  rewrite descend_unfold.
  - unfold spec_kindOrder_body. reflexivity.
  - intros r1 r2 v a H. unfold spec_kindOrder_body. f_equal.
    apply flat_map_ext_in. intros key _.
    apply flat_map_ext_in. intros c Hc.
    apply H. exact (vdepth_children v key c Hc).
Qed.

(** The locator visits the container kinds of the data model, in this
    order. *)
Lemma containerKeys_kinds : containerKeys = spec_containerKinds.
Proof. reflexivity. Qed.

(** The recursive search answers with the first Article, kind by kind, that
    carries the target number, as long as the Articles that carry it are
    truthy (element objects are). *)
Lemma findArticleRecursive_kindOrder (targetNum : jsstring) (node : value) :
  (forall a, In a (spec_kindOrder node) -> hasNum targetNum a = true -> truthy a = true) ->
  findArticleRecursive node targetNum = List.find (hasNum targetNum) (spec_kindOrder node).
Proof.
  remember (vdepth node) as d eqn:Hd.
  revert node Hd.
  induction d as [d IH] using lt_wf_ind.
  intros node Hd Hok.
  rewrite findArticleRecursive_unfold. unfold findArticleRecursive_body.
  rewrite containerKeys_kinds.
  rewrite spec_kindOrder_unfold in Hok |- *.
  rewrite find_app_first.
  destruct (List.find (hasNum targetNum) (ensureArray (getProp node "Article")));
    [reflexivity|].
  rewrite find_flat_map.
  apply first_found_ext_in. intros key Hkey.
  rewrite find_flat_map.
  apply first_found_ext_in. intros c Hc.
  assert (Hsub : forall a, In a (spec_kindOrder c) ->
                           hasNum targetNum a = true -> truthy a = true).
  { intros a Ha. apply Hok. apply in_or_app. right.
    apply in_flat_map. exists key. split; [exact Hkey|].
    apply in_flat_map. exists c. split; [exact Hc|exact Ha]. }
  rewrite (IH (vdepth c)) with (node := c); try reflexivity; try exact Hsub.
  - destruct (List.find (hasNum targetNum) (spec_kindOrder c)) as [a|] eqn:E;
      [|reflexivity].
    apply find_some in E as [Hin Hp].
    unfold if_truthy. simpl. now rewrite (Hsub a Hin Hp).
  - subst d. exact (vdepth_children node key c Hc).
Qed.

Lemma lookup_field_In_key (fields : list (string * value)) (key : string) (c : value) :
  lookup_field fields key = Some c -> In (key, c) fields.
Proof.
  induction fields as [|[k v] rest IH]; simpl; [discriminate|].
  destruct (String.eqb_spec k key) as [->|Hne].
  - intros [= ->]. now left.
  - intros H. right. exact (IH H).
Qed.

Lemma isContainerKind_cases (key : string) :
  isContainerKind key = true ->
  key = "Part"%string \/ key = "Chapter"%string \/ key = "Section"%string
  \/ key = "Subsection"%string \/ key = "Division"%string.
Proof.
  unfold isContainerKind, spec_containerKinds. cbn [List.existsb].
  destruct (String.eqb_spec key "Part"); [auto|].
  destruct (String.eqb_spec key "Chapter"); [auto|].
  destruct (String.eqb_spec key "Section"); [auto|].
  destruct (String.eqb_spec key "Subsection"); [auto|].
  destruct (String.eqb_spec key "Division"); [auto 6|].
  discriminate.
Qed.

(** The fields of a node that hold nested containers. *)
Lemma no_container_lookup (fields : list (string * value)) (kind : string) :
  List.filter (fun '(key, _) => isContainerKind key) fields = [] ->
  isContainerKind kind = true ->
  lookup_field fields kind = None.
Proof.
  intros Hnone Hkind.
  destruct (lookup_field fields kind) as [x|] eqn:E; [|reflexivity].
  apply lookup_field_In_key in E.
  assert (Hin : In (kind, x) (List.filter (fun '(key, _) => isContainerKind key) fields)).
  { apply filter_In. split; [exact E|exact Hkind]. }
  rewrite Hnone in Hin. destruct Hin.
Qed.

Section OneKind.

Context {Y : Type} (under : option value -> list Y).
Hypothesis under_none : under None = [].

(** With nested containers of one kind, a visit kind by kind is a visit of
    the fields as they stand. *)
Lemma kinds_are_fields (fields : list (string * value)) :
  (length (List.filter (fun '(key, _) => isContainerKind key) fields) <= 1)%nat ->
  flat_map (fun kind => under (lookup_field fields kind)) spec_containerKinds
  = flat_map (fun '(key, x) => if isContainerKind key then under (Some x) else [])
      fields.
Proof.
  induction fields as [|[k x] rest IH]; intros Hone.
  - cbn. now rewrite !under_none.
  - cbn [List.filter] in Hone. cbn [flat_map].
    destruct (isContainerKind k) eqn:Hk.
    + cbn [length] in Hone.
      assert (Hrest : List.filter (fun '(key, _) => isContainerKind key) rest = []).
      { destruct (List.filter _ rest); [reflexivity|cbn in Hone; lia]. }
      assert (Hnone : forall kind, isContainerKind kind = true ->
                lookup_field rest kind = None).
      { intros kind. now apply no_container_lookup. }
      assert (Hempty : flat_map (fun '(key, y) =>
                          if isContainerKind key then under (Some y) else []) rest = []).
      { clear IH Hone Hnone. induction rest as [|[k' y] rest IHrest]; [reflexivity|].
        cbn [List.filter] in Hrest. cbn [flat_map].
        destruct (isContainerKind k'); [discriminate|]. now apply IHrest. }
      rewrite Hempty, app_nil_r.
      pose proof (Hnone "Part"%string eq_refl) as HP.
      pose proof (Hnone "Chapter"%string eq_refl) as HC.
      pose proof (Hnone "Section"%string eq_refl) as HS.
      pose proof (Hnone "Subsection"%string eq_refl) as HU.
      pose proof (Hnone "Division"%string eq_refl) as HD.
      unfold spec_containerKinds.
      destruct (isContainerKind_cases k Hk) as [->|[->|[->|[->| ->]]]];
        cbn; rewrite ?HP, ?HC, ?HS, ?HU, ?HD, ?under_none, ?app_nil_r;
        reflexivity.
    + rewrite <- IH by exact Hone. cbn [app].
      apply flat_map_ext_in. intros kind Hin. cbn [lookup_field].
      destruct (String.eqb_spec k kind) as [->|_]; [|reflexivity].
      assert (Hkind : isContainerKind kind = true).
      { unfold isContainerKind. apply existsb_exists. exists kind.
        split; [exact Hin|apply String.eqb_refl]. }
      congruence.
Qed.

End OneKind.

(** On a tree whose containers nest containers of one kind, the search kind
    by kind is the search in document order. *)
Lemma spec_kindOrder_documentOrder (node : value) :
  homogeneous node = true -> spec_kindOrder node = spec_documentOrder node.
Proof.
  remember (vdepth node) as d eqn:Hd. revert node Hd.
  induction d as [d IH] using lt_wf_ind. intros node Hd Hhom.
  rewrite spec_kindOrder_unfold.
  destruct node as [s|n|b|its|fs]; try reflexivity.
  cbn [homogeneous] in Hhom. apply andb_true_iff in Hhom as [Hone Hall].
  apply Nat.leb_le in Hone.
  cbn [getProp spec_documentOrder]. f_equal.
  rewrite (kinds_are_fields
             (fun o => flat_map spec_kindOrder (ensureArray o)) eq_refl fs Hone).
  apply flat_map_ext_in. intros [key x] Hin.
  destruct (isContainerKind key) eqn:Hkey; [|reflexivity].
  rewrite forallb_forall in Hall. specialize (Hall (key, x) Hin).
  cbv beta iota in Hall. rewrite Hkey in Hall. cbn [negb orb] in Hall.
  pose proof (vdepth_fields key x fs Hin) as Hx.
  destruct x as [s|n|b|entries|gs]; cbn [ensureArray flat_map];
    try (rewrite app_nil_r; apply (IH _ ltac:(subst d; exact Hx));
         [reflexivity|exact Hall]).
  apply flat_map_ext_in. intros c Hc.
  rewrite forallb_forall in Hall.
  pose proof (vdepth_items c entries Hc).
  apply (IH (vdepth c)); [subst d; lia|reflexivity|exact (Hall c Hc)].
Qed.

(** A falsy value has no [@_Num]: only the target ["undefined"] can meet one. *)
Lemma hasNum_truthy (targetNum : jsstring) (a : value) :
  targetNum <> js "undefined" -> hasNum targetNum a = true -> truthy a = true.
Proof.
  intros Hne Hp. destruct a as [s|n|b|its|fs]; try reflexivity;
    unfold hasNum in Hp; simpl in Hp;
    apply bool_decide_eq_true in Hp; congruence.
Qed.

End LocatorFacts.

(** The normalizer answers ["undefined"] to that designator only: a run of
    digits and a decimal rendering start with a digit. *)
Lemma match_digits_head (s m : jsstring) :
  match_digits s = Some m -> exists c r, m = c :: r /\ is_digit c = true.
Proof.
  induction s as [|c s IH]; simpl; [discriminate|].
  destruct (is_digit c) eqn:E; [|exact IH].
  intros [= <-]. eauto.
Qed.

Lemma String_of_N_head (n : N) (c : N) (r : jsstring) :
  String_of_N n = c :: r -> is_digit c = true.
Proof.
  unfold String_of_N. destruct (N.to_uint n); simpl; intros [= <- _]; reflexivity.
Qed.

Lemma normalizeArticleNum_undefined (designator : jsstring) :
  normalizeArticleNum designator = js "undefined" -> designator = js "undefined".
Proof.
  assert (U : js "undefined" = 117 :: js "ndefined") by reflexivity.
  unfold normalizeArticleNum.
  destruct (match_digits designator) as [m|] eqn:Em.
  - intros ->. apply match_digits_head in Em as (c & r & E & Hc).
    rewrite U in E. injection E as <- _. discriminate Hc.
  - destruct (match_dai_jo designator) as [kanjiPart|]; [|trivial].
    destruct (fold_left kanjiStep (string_iterator kanjiPart) (0, 0)) as [result temp].
    rewrite U. intros E. apply String_of_N_head in E. discriminate E.
Qed.
Example twoChapters_order :
  spec_searchOrder (num := IntNumber) twoChaptersMain
  = [article1; article2; article20; article100].
Proof. reflexivity. Qed.

(** C1, as the code has it: the article locator normalizes the designator and
    searches depth-first, a container's direct Article children before its
    nested containers, and the nested containers kind by kind: its Parts, then
    its Chapters, Sections, Subsections and Divisions, in document order
    within a kind.  It returns the first Article in that order whose ordinal
    equals the normalized target, for every designator on a tree whose
    Articles are elements and for every tree when the designator is not the
    word "undefined".  On a tree whose containers nest containers of one kind,
    as the data model has it, that is the first such Article in document
    order.  Among Articles 1, 2, 20 and 100 under two Chapters, 第二十条 finds
    Article 20; when no Article of the tree matches, the result is null. *)
Theorem C1_findArticle_first_in_search_order :
  (forall (num : JsNumber) (lawBody mainProvision : value) (designator : jsstring),
     if_truthy (getProp lawBody "MainProvision") = Some mainProvision ->
     designator <> js "undefined"
     \/ Forall (fun a => truthy a = true) (spec_kindOrder mainProvision) ->
     findArticle lawBody designator
     = List.find (hasNum (normalizeArticleNum designator))
                 (spec_kindOrder mainProvision))
  /\ (forall (num : JsNumber) (lawBody mainProvision : value) (designator : jsstring),
        if_truthy (getProp lawBody "MainProvision") = Some mainProvision ->
        homogeneous mainProvision = true ->
        designator <> js "undefined"
        \/ Forall (fun a => truthy a = true) (spec_documentOrder mainProvision) ->
        findArticle lawBody designator
        = List.find (hasNum (normalizeArticleNum designator))
                    (spec_documentOrder mainProvision))
  /\ (findArticle (num := IntNumber) twoChapters (js "第二十条") = Some article20
      /\ article20 <> article2)
  /\ (forall (num : JsNumber) (lawBody : value) (designator : jsstring),
        (forall mainProvision a,
           if_truthy (getProp lawBody "MainProvision") = Some mainProvision ->
           In a (spec_kindOrder mainProvision) ->
           hasNum (normalizeArticleNum designator) a = false) ->
        findArticle lawBody designator = None).
Proof.
  assert (Hkind : forall (num : JsNumber) (lawBody mainProvision : value)
                         (designator : jsstring),
            if_truthy (getProp lawBody "MainProvision") = Some mainProvision ->
            designator <> js "undefined"
            \/ Forall (fun a => truthy a = true) (spec_kindOrder mainProvision) ->
            findArticle lawBody designator
            = List.find (hasNum (normalizeArticleNum designator))
                        (spec_kindOrder mainProvision)).
  { intros num lawBody mainProvision designator Hmp Hok.
    unfold findArticle. rewrite Hmp.
    apply findArticleRecursive_kindOrder.
    intros a Ha Hnum. destruct Hok as [Hd|Hall].
    + apply (hasNum_truthy (normalizeArticleNum designator)); [|exact Hnum].
      intros E. apply Hd. exact (normalizeArticleNum_undefined designator E).
    + rewrite Forall_forall in Hall.
      apply Hall. now apply list_elem_of_In. }
  split; [exact Hkind|split; [|split]].
  - intros num lawBody mainProvision designator Hmp Hhom Hok.
    rewrite <- (spec_kindOrder_documentOrder mainProvision Hhom) in Hok |- *.
    now apply Hkind.
  - split; [vm_compute; reflexivity|discriminate].
  - intros num lawBody designator Hnone.
    unfold findArticle.
    destruct (if_truthy (getProp lawBody "MainProvision")) as [mainProvision|] eqn:Hmp;
      [|reflexivity].
    rewrite findArticleRecursive_kindOrder.
    + destruct (List.find _ _) as [a|] eqn:E; [|reflexivity].
      apply find_some in E as [Hin Hp].
      rewrite (Hnone mainProvision a eq_refl Hin) in Hp. discriminate.
    + intros a Hin Hp.
      rewrite (Hnone mainProvision a eq_refl Hin) in Hp. discriminate.
Qed.

(** The two Chapters nest nothing but Articles: the first Article numbered
    100 in document order is found. *)
Lemma C1_findArticle_witness :
  findArticle (num := IntNumber) twoChapters (js "第百条") = Some article100.
Proof.
  refine (eq_trans
            (proj1 (proj2 C1_findArticle_first_in_search_order)
               IntNumber twoChapters twoChaptersMain (js "第百条") _ _ _)
            _).
  - reflexivity.
  - vm_compute. reflexivity.
  - left. vm_compute. discriminate.
  - vm_compute. reflexivity.
Defined.

(** Spec 4.4 on a MainProvision whose Chapter stands before its Part: the
    first Article 5 in document order is the Chapter's, and the locator
    returns the Part's. *)
Lemma C1_counterexample_mixed :
  List.find (hasNum (normalizeArticleNum (js "第五条")))
    (spec_documentOrder (num := IntNumber) mixedMain)
  = Some chapterArticle
  /\ findArticle (num := IntNumber) mixedBody (js "第五条") = Some partArticle
  /\ chapterArticle <> partArticle.
Proof.
  split; [|split]; [vm_compute; reflexivity|vm_compute; reflexivity|].
  intros E.
  pose proof (f_equal (fun a => extractText (getProp a "Paragraph")) E) as H.
  vm_compute in H. discriminate H.
Qed.

Example findArticle_hundred :
  findArticle (num := IntNumber) twoChapters (js "第百条") = Some article100.
Proof. vm_compute. reflexivity. Qed.

(** An empty [<Article/>] decodes to the empty string and has no ordinal:
    nested under a Chapter it is skipped even for the target "undefined",
    while as a direct child it is returned (and then read as not found). *)
Example findArticle_empty_element :
  findArticleRecursive (num := IntNumber)
    (VObj [("Chapter", VArr [VObj [("Article", VArr [VStr []])]])]%string)
    (js "undefined") = None
  /\ findArticleRecursive (num := IntNumber)
       (VObj [("Article", VArr [VStr []])]%string) (js "undefined")
     = Some (VStr []).
Proof. split; vm_compute; reflexivity. Qed.

(** The generated table of the round trip: every value up to 999. *)
Lemma roundTrip_table :
  forallb roundTrip (List.map N.of_nat (List.seq 0 1000)) = true.
Proof. vm_compute. reflexivity. Qed.

(** C2, as the code has it: for every decimal value v up to 999, the numeral
    normalizer applied to the designator 第 + render_kanji(v) + 条 returns the
    decimal string of v (the kanji table has no thousand, and a kanji sequence
    outside the markers 第 ... 条 is returned as it is). *)
Theorem C2_normalizeArticleNum_upto_999 (v : N) :
  v <= 999 -> normalizeArticleNum (spec_designator v) = String_of_N v.
Proof.
  intros Hv.
  pose proof roundTrip_table as T.
  rewrite forallb_forall in T.
  specialize (T v). unfold roundTrip, str_eqb in T.
  apply bool_decide_eq_true in T; [exact T|].
  apply in_map_iff. exists (N.to_nat v). split; [apply N2Nat.id|].
  apply in_seq. lia.
Qed.

Lemma C2_normalizeArticleNum_witness :
  normalizeArticleNum (js "第百二十三条") = js "123".
Proof. exact (C2_normalizeArticleNum_upto_999 123 ltac:(vm_compute; discriminate)). Defined.

Example normalize_bare_ten : normalizeArticleNum (js "第十条") = js "10".
Proof. vm_compute. reflexivity. Qed.

Example normalize_bare_hundred : normalizeArticleNum (js "第百条") = js "100".
Proof. vm_compute. reflexivity. Qed.

Example normalize_twenty : normalizeArticleNum (js "第二十条") = js "20".
Proof. vm_compute. reflexivity. Qed.

(** Spec 8 at v = 1000: 千 is not in the table and is skipped, so 第千条 reads
    as 0; without the markers the input comes back unchanged. *)
Lemma C2_counterexample_thousand :
  ~ (forall v : N, v <= 9999 ->
       normalizeArticleNum (spec_designator v) = String_of_N v)
  /\ ~ (forall v : N, v <= 9999 ->
       normalizeArticleNum (spec_render_kanji v) = String_of_N v).
Proof.
  split; intros H; specialize (H 1000 ltac:(vm_compute; discriminate));
    vm_compute in H; discriminate.
Qed.

Example normalize_thousand : normalizeArticleNum (js "第千条") = js "0".
Proof. vm_compute. reflexivity. Qed.

Example normalize_no_markers : normalizeArticleNum (js "十") = js "十".
Proof. vm_compute. reflexivity. Qed.

(** Arabic digits win, first run only; the kanji pattern is greedy, and a
    digit kanji overwrites the pending one. *)
Example normalize_arabic_first_run : normalizeArticleNum (js "第12条の3") = js "12".
Proof. vm_compute. reflexivity. Qed.

Example normalize_greedy : normalizeArticleNum (js "第一条第二条") = js "2".
Proof. vm_compute. reflexivity. Qed.
Section RendererFacts.

Context {num : JsNumber}.

(** *** Text extraction *)

Lemma extractText_value_loop (obj : value) :
  truthy obj = true ->
  (forall s, obj <> VStr s) -> (forall n, obj <> VNum n) ->
  truthy_opt (getProp obj "#text") = false ->
  extractText_value obj
  = List.concat (flat_map (textPieces extractText_value) (Object_values obj)).
Proof.
  intros Ht Hs Hn Hno.
  rewrite extractText_value_unfold. unfold extractText_body.
  rewrite Ht. simpl negb. cbv iota.
  destruct obj as [s|n|b|its|fs];
    [exfalso; exact (Hs s eq_refl)|exfalso; exact (Hn n eq_refl)| | |];
    rewrite Hno, join_nil_concat; reflexivity.
Qed.

Lemma concat_flat_map {X Y : Type} (f : X -> list (list Y)) (g : X -> list Y) (l : list X) :
  (forall x, In x l -> List.concat (f x) = g x) ->
  List.concat (flat_map f l) = List.concat (List.map g l).
Proof.
  induction l as [|x l IH]; intros H; simpl; [reflexivity|].
  rewrite concat_app, (H x (or_introl eq_refl)), IH; [reflexivity|].
  intros y Hy. apply H. now right.
Qed.

Lemma markupOnly_field (fields : list (string * value)) (key : string) (x : value) :
  forallb (fun '(_, y) => markupOnly y) fields = true ->
  lookup_field fields key = Some x -> markupOnly x = true.
Proof.
  intros Hall Hx. apply lookup_field_In in Hx as [k Hk].
  rewrite forallb_forall in Hall. exact (Hall (k, x) Hk).
Qed.

(** On markup-only content the code's extraction is the specification's fold. *)
Lemma extractText_markupOnly (v : value) :
  markupOnly v = true -> extractText_value v = spec_allText v.
Proof.
  remember (vdepth v) as d eqn:Hd. revert v Hd.
  induction d as [d IH] using lt_wf_ind. intros v Hd Hm.
  assert (Hpiece : forall x, (vdepth x < d)%nat -> markupOnly x = true ->
                             List.concat (textPieces extractText_value x) = spec_allText x).
  { intros x Hx Hmx. destruct x as [s|n|b|vs|gs]; simpl in Hmx; try discriminate.
    - simpl. apply app_nil_r.
    - simpl. f_equal. apply map_ext_in. intros y Hy.
      rewrite forallb_forall in Hmx.
      pose proof (vdepth_items y vs Hy).
      apply (IH (vdepth y)); [lia|reflexivity|exact (Hmx y Hy)].
    - cbn [textPieces List.concat]. rewrite app_nil_r.
      apply (IH (vdepth (VObj gs))); [exact Hx|reflexivity|exact Hmx]. }
  destruct v as [s|n|b|its|fs]; simpl in Hm; try discriminate.
  - rewrite extractText_value_unfold. unfold extractText_body. simpl.
    unfold str_eqb. destruct (bool_decide (s = [])) eqn:E; simpl; [|reflexivity].
    apply bool_decide_eq_true in E. now subst s.
  - rewrite extractText_value_loop; try reflexivity; try discriminate.
    simpl Object_values. cbn [spec_allText].
    apply concat_flat_map. intros x Hx.
    rewrite forallb_forall in Hm.
    apply Hpiece; [|exact (Hm x Hx)].
    subst d. exact (vdepth_items x its Hx).
  - apply andb_true_iff in Hm as [Hno Hall].
    apply negb_true_iff in Hno.
    rewrite extractText_value_loop; try reflexivity; try discriminate; [|exact Hno].
    simpl Object_values. cbn [spec_allText].
    replace (List.map (fun '(_, x) => spec_allText x) fs)
      with (List.map spec_allText (List.map snd fs))
      by (rewrite map_map; apply map_ext; now intros [k x]).
    apply concat_flat_map. intros x Hx.
    apply in_map_iff in Hx as [[k y] [Hy Hin]]. simpl in Hy. subst y.
    rewrite forallb_forall in Hall.
    apply Hpiece; [|exact (Hall (k, x) Hin)].
    subst d. exact (vdepth_fields k x fs Hin).
Qed.

Lemma extractSentenceText_markupOnly (sentence : value) :
  markupOnly sentence = true ->
  extractSentenceText (Some sentence)
  = spec_sentenceText (or_value (getProp sentence "Sentence") sentence).
Proof.
  intros Hm.
  assert (Hread : forall x, markupOnly x = true ->
            concat_all (List.map extractText_value (ensureArray (Some x)))
            = spec_sentenceText x).
  { intros x Hx. destruct x as [s|n|b|its|fs]; simpl in Hx; try discriminate.
    - cbn [ensureArray List.map concat_all join spec_sentenceText].
      now apply (extractText_markupOnly (VStr s)).
    - simpl. rewrite join_nil_concat. f_equal. apply map_ext_in.
      intros y Hy. rewrite forallb_forall in Hx.
      exact (extractText_markupOnly y (Hx y Hy)).
    - cbn [ensureArray List.map concat_all join spec_sentenceText].
      now apply extractText_markupOnly. }
  unfold extractSentenceText, if_truthy, truthy_opt.
  destruct sentence as [s|n|b|its|fs]; simpl in Hm; try discriminate.
  - simpl. unfold str_eqb. destruct (bool_decide (s = [])) eqn:E; simpl; [|reflexivity].
    apply bool_decide_eq_true in E. now subst s.
  - exact (Hread (VArr its) Hm).
  - cbn [truthy]. cbv iota.
    assert (Hobj : markupOnly (VObj fs) = true) by exact Hm.
    apply andb_true_iff in Hm as [Hno Hall].
    cbn [getProp]. unfold or_value.
    destruct (lookup_field fs "Sentence") as [x|] eqn:Ex; [|exact (Hread _ Hobj)].
    pose proof (markupOnly_field fs "Sentence" x Hall Ex) as Hx.
    destruct (truthy x); [exact (Hread x Hx)|exact (Hread _ Hobj)].
Qed.

(** *** The paragraph filter *)

Lemma fold_push_filter {X : Type} (skip : X -> bool) (f : X -> jsstring)
    (l : list X) (parts : list jsstring) :
  fold_left (fun parts x => if skip x then parts else parts ++ [f x]) l parts
  = parts ++ List.map f (List.filter (fun x => negb (skip x)) l).
Proof.
  revert parts. induction l as [|x l IH]; intros parts; simpl.
  - now rewrite app_nil_r.
  - rewrite IH. destruct (skip x); simpl; [reflexivity|].
    now rewrite <- app_assoc.
Qed.

Lemma extractArticleContent_filter (article : value) (p : number) :
  extractArticleContent article (Some p)
  = join nl (articleHeading article
             ++ List.map extractParagraphContent (paragraphsNumbered article p)).
Proof.
  unfold extractArticleContent, paragraphsNumbered.
  rewrite (fold_push_filter
             (fun para => other_paragraph (Some p) (getProp para "@_Num"))
             extractParagraphContent).
  do 3 f_equal. apply filter_ext. intros para.
  unfold other_paragraph. apply negb_involutive.
Qed.

(** *** The code and the behaviour in words *)

Lemma extractText_spec (v : value) : extractText_value v = spec_nodeText v.
Proof.
  remember (vdepth v) as d eqn:Hd. revert v Hd.
  induction d as [d IH] using lt_wf_ind. intros v Hd.
  assert (Hpiece : forall x, (vdepth x < d)%nat ->
            List.concat (textPieces extractText_value x)
            = match x with
              | VStr s => s
              | VArr vs => List.concat (List.map spec_nodeText vs)
              | VObj _ => spec_nodeText x
              | _ => []
              end).
  { intros x Hx. destruct x as [s|n|b|vs|gs]; cbn [textPieces List.concat];
      try reflexivity.
    - apply app_nil_r.
    - f_equal. apply map_ext_in. intros y Hy.
      pose proof (vdepth_items y vs Hy).
      apply (IH (vdepth y)); [lia|reflexivity].
    - rewrite app_nil_r. apply (IH (vdepth (VObj gs))); [exact Hx|reflexivity]. }
  destruct v as [s|n|b|its|fs].
  - rewrite extractText_value_unfold. unfold extractText_body. cbn [truthy spec_nodeText].
    unfold str_eqb. destruct (bool_decide (s = [])) eqn:E; cbn [negb]; [|reflexivity].
    apply bool_decide_eq_true in E. now subst s.
  - rewrite extractText_value_unfold. unfold extractText_body. cbn [truthy spec_nodeText].
    now destruct (num_truthy n).
  - rewrite extractText_value_unfold. unfold extractText_body. cbn [truthy spec_nodeText].
    now destruct b.
  - rewrite extractText_value_loop; try reflexivity; try discriminate.
    cbn [Object_values spec_nodeText].
    apply concat_flat_map. intros x Hx.
    apply Hpiece. subst d. exact (vdepth_items x its Hx).
  - cbn [spec_nodeText].
    destruct (truthy_opt (lookup_field fs "#text")) eqn:Htext.
    + rewrite extractText_value_unfold. unfold extractText_body.
      cbn [truthy negb getProp]. now rewrite Htext.
    + rewrite extractText_value_loop; try reflexivity; try discriminate;
        [|exact Htext].
      cbn [Object_values].
      replace (List.map (fun '(_, x) =>
                 match x with
                 | VStr s => s
                 | VArr vs => List.concat (List.map spec_nodeText vs)
                 | VObj _ => spec_nodeText x
                 | _ => []
                 end) fs)
        with (List.map (fun x =>
                 match x with
                 | VStr s => s
                 | VArr vs => List.concat (List.map spec_nodeText vs)
                 | VObj _ => spec_nodeText x
                 | _ => []
                 end) (List.map snd fs))
        by (rewrite map_map; apply map_ext; now intros [k x]).
      apply concat_flat_map. intros x Hx.
      apply in_map_iff in Hx as [[k y] [Hy Hin]]. cbn [snd] in Hy. subst y.
      apply Hpiece. subst d. exact (vdepth_fields k x fs Hin).
Qed.

Lemma extractSentenceText_spec (sentence : value) :
  extractSentenceText (Some sentence) = spec_fieldText sentence.
Proof.
  unfold extractSentenceText, if_truthy, spec_fieldText. cbn [truthy_opt].
  assert (Hread : forall x,
            concat_all (List.map extractText_value x)
            = List.concat (List.map spec_nodeText x)).
  { intros x. rewrite join_nil_concat. f_equal. apply map_ext.
    exact extractText_spec. }
  destruct sentence as [s|n|b|its|fs].
  - cbn [truthy]. unfold str_eqb.
    destruct (bool_decide (s = [])) eqn:E; cbn [negb]; [|reflexivity].
    apply bool_decide_eq_true in E. now subst s.
  - destruct (truthy (VNum n)); [apply Hread|reflexivity].
  - destruct (truthy (VBool b)); [apply Hread|reflexivity].
  - cbn [truthy]. apply Hread.
  - cbn [truthy]. apply Hread.
Qed.

Lemma extractSentenceText_specOf (sentence : option value) :
  extractSentenceText sentence = spec_fieldTextOf sentence.
Proof.
  destruct sentence as [v|]; [apply extractSentenceText_spec|reflexivity].
Qed.

Lemma sentenceEntryText_text (entry : value) (t : jsstring) :
  sentenceEntryText entry = Some t -> spec_nodeText entry = t.
Proof.
  destruct entry as [s|n|b|its|fs]; cbn [sentenceEntryText]; try discriminate.
  - now intros [= <-].
  - cbn [spec_nodeText].
    destruct (lookup_field fs "#text") as [[u|m|c|us|gs]|]; try discriminate.
    cbn [truthy_opt truthy String_of String_of_value].
    destruct (str_eqb u []); [discriminate|]. now intros [= <-].
Qed.

Lemma underFirst_lookup {R : Type} (key : string) (f : value -> list R)
    (fields : list (string * value)) :
  underFirst key f fields
  = match lookup_field fields key with
    | Some x => f x
    | None => []
    end.
Proof.
  induction fields as [|[k x] rest IH]; [reflexivity|].
  cbn [underFirst lookup_field]. destruct (String.eqb k key); [reflexivity|exact IH].
Qed.

Lemma numbered_prefix (num0 : option value) :
  (if numbered num0 then String_of num0 ++ js "　" else []) = spec_ordinalPrefix num0.
Proof.
  unfold numbered, spec_ordinalPrefix, if_truthy.
  destruct num0 as [v|]; [|reflexivity].
  cbn [truthy_opt String_of].
  destruct (truthy v); cbn [andb]; [|reflexivity].
  destruct v as [s|n|b|its|fs]; try reflexivity.
  cbn [String_of_value]. now destruct (str_eqb s (js "1")).
Qed.

Lemma extractItemContent_spec (item : value) :
  forall level : nat, extractItemContent item level = spec_itemText level item.
Proof.
  remember (vdepth item) as d eqn:Hd. revert item Hd.
  induction d as [d IH] using lt_wf_ind. intros item Hd level.
  rewrite extractItemContent_unfold. unfold extractItemContent_body. cbv zeta.
  destruct item as [s|n|b|its|fs]; try reflexivity.
  cbn [getProp spec_itemText]. cbv zeta.
  rewrite extractSentenceText_specOf. f_equal. f_equal.
  rewrite underFirst_lookup. unfold or_else.
  assert (Hsub : forall x,
            (vdepth x < d)%nat ->
            List.map (fun subitem => extractItemContent subitem (S level))
              (ensureArray (Some x))
            = match x with
              | VArr subitems => List.map (spec_itemText (S level)) subitems
              | _ => [spec_itemText (S level) x]
              end).
  { intros x Hx.
    destruct x as [s|n|b|us|gs]; cbn [ensureArray List.map];
      try (f_equal; apply (IH _ Hx); reflexivity).
    apply map_ext_in. intros y Hy.
    pose proof (vdepth_items y us Hy).
    apply (IH (vdepth y)); [lia|reflexivity]. }
  assert (Hkey : forall key x, lookup_field fs key = Some x -> (vdepth x < d)%nat).
  { intros key x Hx. subst d. exact (vdepth_getProp (VObj fs) key x Hx). }
  destruct (truthy_opt (lookup_field fs "Subitem1")) eqn:H1.
  - destruct (lookup_field fs "Subitem1") as [x|] eqn:E1; [|discriminate H1].
    exact (Hsub x (Hkey _ x E1)).
  - destruct (lookup_field fs "Subitem2") as [x|] eqn:E2; [|reflexivity].
    exact (Hsub x (Hkey _ x E2)).
Qed.

Lemma extractParagraphContent_spec (paragraph : value) :
  extractParagraphContent paragraph = spec_paragraphText paragraph.
Proof.
  unfold extractParagraphContent, spec_paragraphText. cbv zeta.
  rewrite numbered_prefix, extractSentenceText_specOf. f_equal. f_equal.
  apply map_ext. intros item. apply extractItemContent_spec.
Qed.

End RendererFacts.

(** C8, as the code has it: sentence-text extraction returns the field itself
    when it is a literal string.  Of any other field it reads the Sentence
    entries when it has some, the field itself when it has none, and
    concatenates their texts in order, where the text of a string is the
    string, the text of a number its decimal string, the text of an element
    with a non-empty text node that text node alone, and the text of any other
    element the concatenation, in field order, of its string children and of
    the texts of its array and element children.  So the Sentence entries the
    service sends, strings or elements with a text node beside their
    attributes, give the concatenation of their texts; and on content without
    any text node the result is the concatenation of every descendant string
    in field order. *)
Theorem C8_extractSentenceText_text (num : JsNumber) :
  (forall s : jsstring, extractSentenceText (Some (VStr s)) = s)
  /\ (forall sentence : value,
        extractSentenceText (Some sentence) = spec_fieldText sentence)
  /\ (forall (fields : list (string * value)) (entries : list value)
             (texts : list jsstring),
        lookup_field fields "Sentence" = Some (VArr entries) ->
        List.map sentenceEntryText entries = List.map Some texts ->
        extractSentenceText (Some (VObj fields)) = List.concat texts)
  /\ (forall sentence : value,
        markupOnly sentence = true ->
        extractSentenceText (Some sentence)
        = spec_sentenceText (or_value (getProp sentence "Sentence") sentence)).
Proof.
  split; [|split; [|split]].
  - intros s. now rewrite extractSentenceText_spec.
  - exact extractSentenceText_spec.
  - intros fields entries texts Hsentence Htexts.
    rewrite extractSentenceText_spec. unfold spec_fieldText.
    cbn [truthy getProp]. rewrite Hsentence. cbn [or_value truthy ensureArray].
    f_equal. clear Hsentence. revert texts Htexts.
    induction entries as [|entry entries IH]; intros [|t texts] Htexts;
      try discriminate; [reflexivity|].
    cbn [List.map] in Htexts |- *. injection Htexts as Hentry Hrest.
    now rewrite (sentenceEntryText_text entry t Hentry), (IH texts Hrest).
  - exact extractSentenceText_markupOnly.
Qed.

(** A ParagraphSentence as the service sends it: two Sentence elements, each
    with its text node and its number. *)
Lemma C8_extractSentenceText_witness :
  extractSentenceText (num := IntNumber) (Some numberedSentences)
  = List.concat [js "この法律は、個人情報の適正な取扱いに関し定める。";
                 js "ただし、別段の定めがある場合は、この限りでない。"].
Proof.
  refine (proj1 (proj2 (proj2 (C8_extractSentenceText_text IntNumber)))
            [("Sentence", VArr [
                VObj [ ("#text", VStr (js "この法律は、個人情報の適正な取扱いに関し定める。"));
                       ("@_Num", VStr (js "1")) ];
                VObj [ ("#text", VStr (js "ただし、別段の定めがある場合は、この限りでない。"));
                       ("@_Num", VStr (js "2")) ] ])]%string
            [ VObj [ ("#text", VStr (js "この法律は、個人情報の適正な取扱いに関し定める。"));
                     ("@_Num", VStr (js "1")) ];
              VObj [ ("#text", VStr (js "ただし、別段の定めがある場合は、この限りでない。"));
                     ("@_Num", VStr (js "2")) ] ]%string
            [js "この法律は、個人情報の適正な取扱いに関し定める。";
             js "ただし、別段の定めがある場合は、この限りでない。"] _ _).
  - reflexivity.
  - vm_compute. reflexivity.
Defined.

Example extractSentenceText_wrapped :
  extractSentenceText (num := IntNumber) (Some wrappedSentence) = js "甲乙".
Proof. vm_compute. reflexivity. Qed.

(** Spec 4.5 on a sentence with ruby: the wrapper has a text node and a Ruby
    child, and only the text node comes back. *)
Lemma C8_counterexample_ruby :
  extractSentenceText (num := IntNumber) (Some rubySentence) = js "この律"
  /\ spec_sentenceText (num := IntNumber) rubySentence = js "ほう法この律"
  /\ extractSentenceText (num := IntNumber) (Some rubySentence)
     <> spec_sentenceText rubySentence.
Proof. split; [|split]; [reflexivity|reflexivity|discriminate]. Qed.

(** C9: rendering an Article under a single-paragraph filter p emits, after
    the Article's caption and title lines, the text of the Paragraphs whose
    number equals p and nothing of any other Paragraph, where the text of a
    Paragraph is its sentence text, prefixed with its ordinal unless that is
    the implicit first, followed by its Items; of two Paragraphs of which the
    second is the one numbered p, only the second one's text is emitted. *)
Theorem C9_extractArticleContent_filter (num : JsNumber) (article : value) (p : number) :
  extractArticleContent article (Some p)
  = join nl (articleHeading article
             ++ List.map spec_paragraphText (paragraphsNumbered article p))
  /\ (forall first second : value,
        getProp article "Paragraph" = Some (VArr [first; second]) ->
        num_strict_eq (Number_of (getProp first "@_Num")) p = false ->
        num_strict_eq (Number_of (getProp second "@_Num")) p = true ->
        extractArticleContent article (Some p)
        = join nl (articleHeading article ++ [spec_paragraphText second])).
Proof.
  assert (Hall : extractArticleContent article (Some p)
                 = join nl (articleHeading article
                            ++ List.map spec_paragraphText
                                 (paragraphsNumbered article p))).
  { rewrite extractArticleContent_filter. do 2 f_equal.
    apply map_ext. exact extractParagraphContent_spec. }
  split; [exact Hall|].
  intros first second Hparas Hfirst Hsecond.
  rewrite Hall. unfold paragraphsNumbered.
  rewrite Hparas. cbn [ensureArray List.filter]. now rewrite Hfirst, Hsecond.
Qed.

(** Article 2 of the tests under the filter 2: the heading and the second
    paragraph's text, with its ordinal. *)
Lemma C9_extractArticleContent_witness :
  extractArticleContent (num := IntNumber) twoParagraphs (Some (Some 2%Z))
  = js "**第二条**" ++ nl ++ nl ++ js "2　この法律において「個人識別符号」とは".
Proof.
  refine (eq_trans
            (proj2 (C9_extractArticleContent_filter IntNumber twoParagraphs (Some 2%Z))
               (sampleParagraph "1" "この法律において「個人情報」とは")
               (sampleParagraph "2" "この法律において「個人識別符号」とは") _ _ _)
            _).
  - reflexivity.
  - reflexivity.
  - reflexivity.
  - vm_compute. reflexivity.
Defined.

Example twoParagraphs_filtered :
  extractArticleContent (num := IntNumber) twoParagraphs (Some (Some 2%Z))
  = js "**第二条**" ++ nl ++ nl ++ js "2　この法律において「個人識別符号」とは".
Proof. vm_compute. reflexivity. Qed.
(** *** The document builder *)

Section BuilderFacts.

Context {num : JsNumber}.

Lemma extractToc_no_MainProvision (lawBody : value) :
  if_truthy (getProp lawBody "MainProvision") = None -> extractToc lawBody = [].
Proof. intros H. unfold extractToc. now rewrite H. Qed.

Lemma extractLawContent_empty (lawBody : value) :
  if_truthy (getProp lawBody "Preamble") = None ->
  if_truthy (getProp lawBody "MainProvision") = None ->
  if_truthy (getProp lawBody "SupplementaryProvisions") = None ->
  extractLawContent lawBody = [].
Proof. intros Hp Hm Hs. unfold extractLawContent. now rewrite Hp, Hm, Hs. Qed.

Lemma parseLawText_decoded (parser : XMLParser) (now xml : jsstring) (decoded : value) :
  parser xml = Ok decoded ->
  exists id number name,
    parseLawText parser now xml
    = Ok (mkLawText id number name
            (extractLawContent (lawBodyOf decoded))
            (extractToc (lawBodyOf decoded)) now).
Proof.
  intros H. unfold parseLawText. rewrite H.
  do 3 eexists. reflexivity.
Qed.

End BuilderFacts.

(** C7, as the code has it: the document builder fails exactly when the XML
    parser throws, with the parser's error; on every input that decodes it
    returns a LawDocument, whose table of contents is empty when the law body
    has no MainProvision and whose rendered content is empty when the law body
    has none of Preamble, MainProvision and SupplementaryProvisions. *)
Theorem C7_parseLawText_placeholder (num : JsNumber) (parser : XMLParser)
    (now xml : jsstring) :
  (forall e, parser xml = Throw e -> parseLawText parser now xml = Throw e)
  /\ (forall decoded, parser xml = Ok decoded ->
      exists law,
        parseLawText parser now xml = Ok law
        /\ fetchedAt law = now
        /\ (if_truthy (getProp (lawBodyOf decoded) "MainProvision") = None ->
            toc law = [])
        /\ (if_truthy (getProp (lawBodyOf decoded) "Preamble") = None ->
            if_truthy (getProp (lawBodyOf decoded) "MainProvision") = None ->
            if_truthy (getProp (lawBodyOf decoded) "SupplementaryProvisions") = None ->
            content law = [])).
Proof.
  split.
  - intros e H. unfold parseLawText. now rewrite H.
  - intros decoded H.
    destruct (parseLawText_decoded parser now xml decoded H) as (id & number & name & E).
    eexists. split; [exact E|]. simpl. split; [reflexivity|]. split.
    + apply extractToc_no_MainProvision.
    + apply extractLawContent_empty.
Qed.

(** A law element with a number and an empty body. *)
Lemma C7_parseLawText_witness :
  exists law,
    parseLawText (num := IntNumber)
      (fun _ => Ok (VObj [("Law", VObj [("LawNum", VStr (js "平成十五年法律第五十七号"))])]%string))
      (js "2026-01-01T00:00:00.000Z") (js "<Law><LawNum>平成十五年法律第五十七号</LawNum></Law>")
    = Ok law
    /\ toc law = [] /\ content law = [].
Proof.
  destruct (proj2 (C7_parseLawText_placeholder IntNumber
              (fun _ => Ok (VObj [("Law", VObj [("LawNum", VStr (js "平成十五年法律第五十七号"))])]%string))
              (js "2026-01-01T00:00:00.000Z")
              (js "<Law><LawNum>平成十五年法律第五十七号</LawNum></Law>"))
            _ eq_refl) as (law & E & _ & Htoc & Hcontent).
  exists law. split; [exact E|]. split; [apply Htoc|apply Hcontent]; reflexivity.
Defined.

(** Spec 4.2 on a law without MainProvision and without any Article whose
    body still has SupplementaryProvisions: the rendered content is not
    empty. *)
Lemma C7_counterexample_supplementaryOnly :
  spec_noArticleData (num := IntNumber) (lawBodyOf supplementaryOnly)
  /\ exists law,
       parseLawText (num := IntNumber) (fun _ => Ok supplementaryOnly)
         (js "2026-01-01T00:00:00.000Z") (js "<Law/>") = Ok law
       /\ toc law = []
       /\ content law = js "## 附則" ++ nl ++ nl ++ js "### 附　則" ++ nl
       /\ content law <> [].
Proof.
  split.
  - split; [reflexivity|].
    intros key block Hkey Hblock.
    simpl in Hkey. destruct Hkey as [<-|[<-|[<-|[]]]];
      vm_compute in Hblock; try contradiction.
    destruct Hblock as [<-|[]]. reflexivity.
  - eexists. split; [reflexivity|]. split; [reflexivity|].
    split; [vm_compute; reflexivity|discriminate].
Qed.

(** A law whose MainProvision has Paragraphs but no Article renders the
    heading of the MainProvision and nothing else. *)
Example paragraphsOnly_content :
  exists law,
    parseLawText (num := IntNumber) (fun _ => Ok paragraphsOnly)
      (js "2026-01-01T00:00:00.000Z") (js "<Law/>") = Ok law
    /\ spec_searchOrder (num := IntNumber)
         (VObj [("Paragraph", VArr [sampleParagraph "1" "元号は、政令で定める。"])]%string)
       = []
    /\ toc law = []
    /\ content law = js "## 本則" ++ nl ++ nl.
Proof. eexists. repeat split; vm_compute; reflexivity. Qed.

(** ** The cache *)

Import LawCache.

(** *** Keys and paths *)

Lemma sanitize_safe (id : jsstring) : forallb safeUnit (sanitize id) = true.
Proof.
  induction id as [|c id IH]; simpl; [reflexivity|].
  rewrite IH, andb_true_r.
  destruct (safeUnit c) eqn:E; [exact E|reflexivity].
Qed.

Lemma sanitize_length (id : jsstring) : length (sanitize id) = length id.
Proof. unfold sanitize. apply length_map. Qed.

Lemma safeUnit_no_separator (c : N) :
  safeUnit c = true -> negb (c =? SLASH) && negb (c =? BACKSLASH) = true.
Proof.
  unfold safeUnit, SLASH, BACKSLASH. intros H.
  destruct (N.eqb_spec c 47) as [->|_]; [discriminate H|].
  destruct (N.eqb_spec c 92) as [->|_]; [discriminate H|].
  reflexivity.
Qed.

Lemma tag_separatorFree (type : category) : separatorFree (tag type) = true.
Proof. destruct type; vm_compute; reflexivity. Qed.

Lemma getCacheKey_separatorFree (type : category) (id : jsstring) :
  separatorFree (getCacheKey (tag type) id) = true.
Proof.
  unfold getCacheKey. cbv zeta. unfold separatorFree.
  rewrite forallb_app, forallb_app, forallb_app.
  fold (separatorFree (tag type)). rewrite tag_separatorFree.
  change (forallb _ (js "_")) with true.
  change (forallb _ (js ".json")) with true.
  rewrite andb_true_r. cbn [andb]. apply forallb_forall. intros c Hc.
  apply safeUnit_no_separator.
  pose proof (sanitize_safe id) as Hs. rewrite forallb_forall in Hs.
  exact (Hs c Hc).
Qed.

Lemma getCacheKey_plain (type : category) (id : jsstring) :
  plainSegment (getCacheKey (tag type) id) = true.
Proof.
  unfold plainSegment.
  assert (Hlen : (6 <= length (getCacheKey (tag type) id))%nat).
  { unfold getCacheKey. cbv zeta. rewrite !length_app. simpl. lia. }
  assert (Hne : forall short : jsstring,
            (length short < 6)%nat ->
            negb (str_eqb (getCacheKey (tag type) id) short) = true).
  { intros short Hshort. unfold str_eqb.
    apply negb_true_iff, bool_decide_eq_false.
    intros E. rewrite E in Hlen. lia. }
  rewrite !Hne by (simpl; lia). cbn [andb].
  pose proof (getCacheKey_separatorFree type id) as Hfree.
  unfold separatorFree in Hfree. rewrite forallb_forall in Hfree.
  apply forallb_forall. intros c Hc.
  specialize (Hfree c Hc). now apply andb_true_iff in Hfree as [Hfree _].
Qed.

Lemma split_on_nonempty (sep : N) (s : jsstring) : split_on sep s <> [].
Proof.
  destruct s as [|c r]; simpl; [discriminate|].
  destruct (c =? sep); [discriminate|].
  destruct (split_on sep r); discriminate.
Qed.

Lemma split_on_app (sep : N) (a b : jsstring) :
  split_on sep (a ++ sep :: b) = split_on sep a ++ split_on sep b.
Proof.
  induction a as [|c a IH]; simpl.
  - now rewrite N.eqb_refl.
  - destruct (c =? sep); [now rewrite IH|].
    rewrite IH. pose proof (split_on_nonempty sep a) as Hne.
    destruct (split_on sep a) as [|seg segs]; [contradiction|reflexivity].
Qed.

Lemma split_on_free (sep : N) (s : jsstring) :
  forallb (fun c => negb (c =? sep)) s = true -> split_on sep s = [s].
Proof.
  induction s as [|c s IH]; simpl; [reflexivity|].
  intros H. apply andb_true_iff in H as [Hc Hs].
  apply negb_true_iff in Hc. rewrite Hc, (IH Hs). reflexivity.
Qed.

Lemma plainSegment_free (segment : jsstring) :
  plainSegment segment = true ->
  forallb (fun c => negb (c =? SLASH)) segment = true.
Proof.
  unfold plainSegment. intros H.
  now apply andb_true_iff in H as [_ H].
Qed.

Lemma split_on_join (segments : list jsstring) :
  segments <> [] ->
  forallb plainSegment segments = true ->
  split_on SLASH (join (js "/") segments) = segments.
Proof.
  induction segments as [|seg [|seg' rest] IH]; intros Hne Hall; [contradiction| |].
  - simpl in *. rewrite andb_true_r in Hall.
    exact (split_on_free SLASH seg (plainSegment_free seg Hall)).
  - cbn [join]. change (js "/") with [SLASH]. cbn [app].
    cbn [forallb] in Hall. apply andb_true_iff in Hall as [Hseg Hrest].
    rewrite split_on_app, (split_on_free SLASH seg (plainSegment_free seg Hseg)).
    cbn [app]. f_equal. apply IH; [discriminate|exact Hrest].
Qed.

Lemma normalizeStep_plain (allowAboveRoot : bool) (res : list jsstring) (segment : jsstring) :
  plainSegment segment = true ->
  normalizeStep allowAboveRoot res segment = res ++ [segment].
Proof.
  unfold plainSegment, normalizeStep. intros H.
  apply andb_true_iff in H as [H _].
  apply andb_true_iff in H as [H H2].
  apply andb_true_iff in H as [H0 H1].
  apply negb_true_iff in H0, H1, H2.
  now rewrite H0, H1, H2.
Qed.

Lemma normalize_plain (allowAboveRoot : bool) (segments res : list jsstring) :
  forallb plainSegment segments = true ->
  fold_left (normalizeStep allowAboveRoot) segments res = res ++ segments.
Proof.
  revert res. induction segments as [|seg rest IH]; intros res Hall; simpl.
  - now rewrite app_nil_r.
  - simpl in Hall. apply andb_true_iff in Hall as [Hseg Hrest].
    rewrite (normalizeStep_plain _ _ _ Hseg), (IH _ Hrest).
    now rewrite <- app_assoc.
Qed.

Lemma join_snoc (sep : jsstring) (parts : list jsstring) (p : jsstring) :
  parts <> [] -> join sep (parts ++ [p]) = join sep parts ++ sep ++ p.
Proof.
  induction parts as [|q [|q' rest] IH]; intros Hne; [contradiction| |].
  - reflexivity.
  - change (join sep ((q :: q' :: rest) ++ [p]))
      with (q ++ sep ++ join sep ((q' :: rest) ++ [p])).
    rewrite IH by discriminate.
    cbn [join]. now rewrite <- !app_assoc.
Qed.

Lemma split_on_joined (segments : list jsstring) (name : jsstring) :
  segments <> [] ->
  forallb plainSegment segments = true ->
  plainSegment name = true ->
  split_on SLASH (join (js "/") segments ++ SLASH :: name) = segments ++ [name].
Proof.
  intros Hne Hall Hname.
  rewrite split_on_app, (split_on_join segments Hne Hall).
  now rewrite (split_on_free SLASH name (plainSegment_free name Hname)).
Qed.

Lemma split_on_absolute (segments : list jsstring) (name : jsstring) :
  segments <> [] ->
  forallb plainSegment segments = true ->
  plainSegment name = true ->
  split_on SLASH (SLASH :: join (js "/") segments ++ SLASH :: name)
  = [] :: (segments ++ [name]).
Proof.
  intros Hne Hall Hname.
  change (SLASH :: join (js "/") segments ++ SLASH :: name)
    with ([] ++ SLASH :: (join (js "/") segments ++ SLASH :: name)).
  now rewrite split_on_app, (split_on_joined segments name Hne Hall Hname).
Qed.

Lemma plainSegment_head (segment : jsstring) :
  plainSegment segment = true ->
  exists c rest, segment = c :: rest /\ (c =? SLASH) = false.
Proof.
  intros H. pose proof (plainSegment_free segment H) as Hfree.
  destruct segment as [|c rest]; [discriminate H|].
  exists c, rest. split; [reflexivity|].
  simpl in Hfree. apply andb_true_iff in Hfree as [Hc _].
  now apply negb_true_iff in Hc.
Qed.

Lemma path_join_nonempty (a b : jsstring) :
  a <> [] -> b <> [] -> path_join a b = normalize (a ++ js "/" ++ b).
Proof. destruct a, b; intros Ha Hb; try contradiction; reflexivity. Qed.

(** A file name that is a plain segment lands directly inside a normalized
    directory. *)
Lemma path_join_plain (absolute : bool) (segments : list jsstring)
    (name : jsstring) (c : N) (stem : jsstring) :
  segments <> [] ->
  forallb plainSegment segments = true ->
  plainSegment name = true ->
  name = stem ++ [c] -> c <> SLASH ->
  path_join (directory absolute segments) name
  = directory absolute segments ++ js "/" ++ name.
Proof.
  intros Hne Hall Hname Hlast Hc.
  destruct (plainSegment_head name Hname) as (n0 & name' & En & _).
  assert (Ejoin : exists c0 rest,
            join (js "/") segments = c0 :: rest /\ (c0 =? SLASH) = false).
  { destruct segments as [|seg0 segs]; [contradiction|].
    assert (Hseg0 : plainSegment seg0 = true)
      by (simpl in Hall; now apply andb_true_iff in Hall as [H _]).
    destruct (plainSegment_head seg0 Hseg0) as (c0 & seg0' & E0 & Hc0).
    exists c0. rewrite E0. destruct segs; cbn [join]; eauto. }
  destruct Ejoin as (c0 & rest & Ejoin & Hc0).
  assert (Hlastc : forall prefix,
            last (prefix ++ join (js "/") segments ++ SLASH :: name) = Some c).
  { intros prefix. rewrite Hlast.
    change (SLASH :: stem ++ [c]) with ((SLASH :: stem) ++ [c]).
    rewrite !app_assoc. apply last_snoc. }
  assert (Hfold : forall allowAboveRoot,
            fold_left (normalizeStep allowAboveRoot) (segments ++ [name]) []
            = segments ++ [name]).
  { intros allowAboveRoot. rewrite normalize_plain; [reflexivity|].
    rewrite forallb_app, Hall. simpl. now rewrite Hname. }
  assert (Hcons : exists s0 ss, segments ++ [name] = s0 :: ss)
    by (destruct segments; simpl; eauto).
  destruct Hcons as (s0 & ss & Es).
  assert (Hc' : (c =? SLASH) = false) by now apply N.eqb_neq.
  rewrite path_join_nonempty;
    [|unfold directory; rewrite Ejoin; now destruct absolute|rewrite En; discriminate].
  unfold directory. rewrite <- app_assoc.
  change (js "/" ++ name) with (SLASH :: name).
  destruct absolute.
  - change (js "/" ++ join (js "/") segments ++ SLASH :: name)
      with (SLASH :: (join (js "/") segments ++ SLASH :: name)).
    unfold normalize. rewrite N.eqb_refl. cbv beta iota zeta. cbn [negb].
    rewrite !(split_on_absolute segments name Hne Hall Hname).
    cbn [fold_left].
    change (normalizeStep false [] []) with (@nil jsstring).
    rewrite !Hfold, Es. cbv iota. rewrite <- Es.
    change (SLASH :: join (js "/") segments ++ SLASH :: name)
      with ([SLASH] ++ join (js "/") segments ++ SLASH :: name).
    rewrite Hlastc, Hc', app_nil_r, (join_snoc (js "/") segments name Hne).
    reflexivity.
  - cbn [app].
    assert (Etl : join (js "/") segments ++ SLASH :: name
                  = c0 :: (rest ++ SLASH :: name)) by now rewrite Ejoin.
    unfold normalize. rewrite Etl. cbv beta iota zeta. rewrite Hc0. cbn [negb].
    rewrite <- Etl.
    rewrite !(split_on_joined segments name Hne Hall Hname).
    rewrite !Hfold, Es. cbv iota. rewrite <- Es.
    pose proof (Hlastc []) as Hl. change ([] ++ ?x) with x in Hl.
    rewrite Hl, Hc', app_nil_r, (join_snoc (js "/") segments name Hne).
    reflexivity.
Qed.

(** C10: the cache key of a category and any raw identifier is
    category + "_" + s + ".json" with every unit of s in [A-Za-z0-9_-] (one
    per unit of the identifier); the key holds no path separator and is a
    plain file name, and joined to a normalized cache directory, absolute or
    relative, it names a file directly inside that directory. *)
Theorem C10_getCacheKey_safe (type : category) (id : jsstring) :
  exists s : jsstring,
    getCacheKey (tag type) id = tag type ++ js "_" ++ s ++ js ".json"
    /\ forallb safeUnit s = true
    /\ length s = length id
    /\ separatorFree (getCacheKey (tag type) id) = true
    /\ plainSegment (getCacheKey (tag type) id) = true
    /\ (forall (this : Cache) (absolute : bool) (segments : list jsstring),
          segments <> [] ->
          forallb plainSegment segments = true ->
          cacheDir this = directory absolute segments ->
          getCachePath this (getCacheKey (tag type) id)
          = cacheDir this ++ js "/" ++ getCacheKey (tag type) id).
Proof.
  exists (sanitize id).
  split; [reflexivity|].
  split; [apply sanitize_safe|].
  split; [apply sanitize_length|].
  split; [apply getCacheKey_separatorFree|].
  split; [apply getCacheKey_plain|].
  intros this absolute segments Hne Hall Hdir.
  unfold getCachePath. rewrite Hdir.
  apply (path_join_plain absolute segments _ 110
           (tag type ++ js "_" ++ sanitize id ++ js ".jso"));
    try assumption.
  - apply getCacheKey_plain.
  - unfold getCacheKey. rewrite <- !app_assoc. reflexivity.
  - discriminate.
Qed.

Lemma C10_getCacheKey_witness :
  getCachePath (constructor (js "/home/user/.cache/egov-law-mcp") None)
    (getCacheKey (tag lawText) (js "../../etc/passwd"))
  = js "/home/user/.cache/egov-law-mcp/lawText_______etc_passwd.json".
Proof.
  destruct (C10_getCacheKey_safe lawText (js "../../etc/passwd"))
    as (s & _ & _ & _ & _ & _ & Hpath).
  refine (eq_trans
    (Hpath (constructor (js "/home/user/.cache/egov-law-mcp") None) true
           [js "home"; js "user"; js ".cache"; js "egov-law-mcp"] _ _ _) _).
  - discriminate.
  - vm_compute. reflexivity.
  - vm_compute. reflexivity.
  - vm_compute. reflexivity.
Defined.

(** *** Reads and writes *)

Section StoreFacts.

Context {T : Type}.

Implicit Types (st : State T) (type : category) (id : jsstring).

Ltac run :=
  unfold get, set, delete, ensureInitialized, mkdir, readFile, writeFile, unlink,
    setInitialized, entryAt, Eff.bind, Eff.try_catch, Eff.ret, Eff.throw, Eff.gets,
    Eff.modify, Eff.lift in *;
  cbn [fst snd this world initialized cacheDir config now files mkdirError
       writeError unlinkError err_code errno] in *.

Lemma ensureInitialized_ready st :
  dirReady st ->
  exists c',
    ensureInitialized st = (Ok tt, mkState c' (world st))
    /\ cacheDir c' = cacheDir (this st)
    /\ config c' = config (this st)
    /\ initialized c' = true.
Proof.
  intros Hready. destruct st as [[dir cfg init] w]. unfold dirReady in Hready.
  run. destruct init.
  - exists (mkCache dir cfg true). repeat split.
  - exists (mkCache dir cfg true).
    destruct Hready as [H|[H|H]]; [discriminate| |]; rewrite H; repeat split.
Qed.

Lemma ensureInitialized_fault st (code : string) :
  initialized (this st) = false ->
  mkdirError (world st) = Some code ->
  code <> "EEXIST"%string ->
  ensureInitialized st = (Throw (errno code), st).
Proof.
  intros Hinit Hmk Hcode. run. rewrite Hinit, Hmk. cbn.
  rewrite bool_decide_eq_false_2; [reflexivity|congruence].
Qed.

(** With the directory in place, [get] is a read of the entry's file: it
    answers what the file holds and changes nothing but the flag. *)
Lemma get_ready st type id :
  dirReady st ->
  exists c',
    get type id st
    = (Ok (entryAt (world st) (getCachePath (this st) (getCacheKey (tag type) id))),
       mkState c' (world st))
    /\ cacheDir c' = cacheDir (this st)
    /\ config c' = config (this st)
    /\ initialized c' = true.
Proof.
  intros Hready.
  destruct (ensureInitialized_ready st Hready) as (c' & E & Hdir & Hcfg & Hinit).
  exists c'. split; [|auto].
  unfold get, Eff.bind at 1. rewrite E.
  run. unfold getCachePath. rewrite Hdir.
  destruct (files (world st) !! _) as [[code|[| |data cachedAt expiresAt]]|];
    try reflexivity.
  cbn. destruct (expired expiresAt (now (world st))); reflexivity.
Qed.

Lemma get_initialized st type id :
  initialized (this st) = true ->
  get type id st
  = (Ok (entryAt (world st) (getCachePath (this st) (getCacheKey (tag type) id))), st).
Proof.
  intros Hinit. run. rewrite Hinit. cbn.
  destruct (files (world st) !! _) as [[code|[| |data cachedAt expiresAt]]|];
    try reflexivity.
  cbn. destruct (expired expiresAt (now (world st))); reflexivity.
Qed.

(** [get] never writes: whatever it answers, the files, the clock and the
    rest of the environment are as before. *)
Lemma get_world st type id : world (snd (get type id st)) = world st.
Proof.
  destruct (initialized (this st)) eqn:Hinit.
  - now rewrite get_initialized.
  - destruct (mkdirError (world st)) as [code|] eqn:Hmk.
    + destruct (String.eqb_spec code "EEXIST") as [->|Hne].
      * destruct (get_ready st type id) as (c' & E & _); [now right; right|].
        now rewrite E.
      * unfold get, Eff.bind at 1.
        now rewrite (ensureInitialized_fault st code Hinit Hmk Hne).
    + destruct (get_ready st type id) as (c' & E & _); [now right; left|].
      now rewrite E.
Qed.

(** A completed [set] leaves the entry on disk and the cache initialized. *)
Lemma set_completed st st' type id (data : T) :
  set type id data st = (Ok tt, st') ->
  initialized (this st') = true
  /\ cacheDir (this st') = cacheDir (this st)
  /\ config (this st') = config (this st)
  /\ now (world st') = now (world st)
  /\ files (world st') !! getCachePath (this st) (getCacheKey (tag type) id)
     = Some (Text (JsonValue (Some data) (Some (now (world st)))
                     (Some (now (world st) + getTtl (this st) type)%Z))).
Proof.
  unfold set, Eff.bind at 1.
  destruct (ensureInitialized st) as [[[]|e] st1] eqn:E; [|discriminate].
  assert (Hst1 : world st1 = world st /\ cacheDir (this st1) = cacheDir (this st)
                 /\ config (this st1) = config (this st)
                 /\ initialized (this st1) = true).
  { destruct st as [[dir cfg init] w]. run. destruct init.
    - injection E as <-. auto.
    - destruct (mkdirError w) as [code|]; cbn in E.
      + destruct (bool_decide (Some code = Some "EEXIST"%string)); cbn in E;
          [injection E as <-; auto|discriminate].
      + injection E as <-. auto. }
  destruct Hst1 as (Hw & Hdir & Hcfg & Hinit).
  run. unfold toISOString, getCachePath, getTtl.
  rewrite Hw, Hdir, Hcfg.
  destruct (Z.abs (now (world st)) <=? maxTime)%Z; cbn; [|discriminate].
  destruct (Z.abs _ <=? maxTime)%Z; cbn; [|discriminate].
  destruct (writeError (world st) _) as [code|]; [discriminate|].
  intros [= <-]. cbn. rewrite Hinit, Hdir, Hcfg.
  repeat split. apply lookup_insert_eq.
Qed.

End StoreFacts.

(** For data that JSON gives back: after a [set] that completed, a [get] of
    the same category and identifier returns the value as long as the clock
    has not passed the stored expiry (in particular immediately, for a ttl
    that is not negative), and returns a miss once the clock is past the
    expiry, [now + ttl]. *)
Lemma set_then_get_data (T : Type) (type : category) (id : jsstring) (value : T)
    (st st' : State T) :
  set type id value st = (Ok tt, st') ->
  (forall t : Z,
     (t <= now (world st) + getTtl (this st) type)%Z ->
     get type id (atTime t st') = (Ok (Hit value), atTime t st'))
  /\ ((0 <= getTtl (this st) type)%Z ->
      get type id st' = (Ok (Hit value), st'))
  /\ (forall t : Z,
        (now (world st) + getTtl (this st) type < t)%Z ->
        get type id (atTime t st') = (Ok Miss, atTime t st')).
Proof.
  intros Hset.
  destruct (set_completed st st' type id value Hset)
    as (Hinit & Hdir & Hcfg & Hnow & Hfile).
  assert (Hat : forall t,
            get type id (atTime t st')
            = (Ok (if (now (world st) + getTtl (this st) type <? t)%Z
                   then Miss else Hit value), atTime t st')).
  { intros t. rewrite get_initialized by exact Hinit.
    f_equal. f_equal. unfold entryAt, getCachePath. cbn.
    unfold getCachePath in Hfile. rewrite Hdir, Hfile. reflexivity. }
  split; [|split].
  - intros t Ht. rewrite Hat.
    destruct (Z.ltb_spec (now (world st) + getTtl (this st) type) t); [lia|reflexivity].
  - intros Httl. rewrite get_initialized by exact Hinit.
    f_equal. f_equal. unfold entryAt, getCachePath.
    unfold getCachePath in Hfile. rewrite Hdir, Hfile, Hnow. cbn.
    destruct (Z.ltb_spec (now (world st) + getTtl (this st) type) (now (world st)));
      [lia|reflexivity].
  - intros t Ht. rewrite Hat.
    destruct (Z.ltb_spec (now (world st) + getTtl (this st) type) t); [reflexivity|lia].
Qed.

(** On a fresh cache at time 1000 with the default seven days for law texts:
    a hit at once, a miss one millisecond past the expiry. *)
Lemma set_then_get_data_sample :
  fst (get lawText (js "415AC0000000057")
         (snd (set lawText (js "415AC0000000057") 7%nat fresh)))
  = Ok (Hit 7%nat)
  /\ fst (get lawText (js "415AC0000000057")
            (atTime 604801001 (snd (set lawText (js "415AC0000000057") 7%nat fresh))))
     = Ok Miss.
Proof.
  pose proof (set_then_get_data nat lawText (js "415AC0000000057") 7%nat fresh
                (snd (set lawText (js "415AC0000000057") 7%nat fresh))
                ltac:(vm_compute; reflexivity)) as (_ & Hnow & Hlater).
  split.
  - rewrite Hnow; [reflexivity|vm_compute; discriminate].
  - rewrite Hlater; [reflexivity|vm_compute; reflexivity].
Qed.


(** *** Values through JSON *)

Section JsonFacts.

Import Json.

Ltac run :=
  unfold get, set, setValue, ensureInitialized, mkdir, readFile, writeFile,
    setInitialized, entryAt, Eff.bind, Eff.try_catch, Eff.ret, Eff.throw, Eff.gets,
    Eff.modify, Eff.lift in *;
  cbn [fst snd this world initialized cacheDir config now files mkdirError
       writeError unlinkError err_code errno] in *.

(** A completed [setValue] leaves on disk what JSON makes of the value. *)
Lemma setValue_completed (st st' : State jsvalue) (type : category) (id : jsstring)
    (data : jsvalue) :
  setValue type id data st = (Ok tt, st') ->
  exists stored : option jsvalue,
    jsonImage data = Ok stored
    /\ initialized (this st') = true
    /\ cacheDir (this st') = cacheDir (this st)
    /\ now (world st') = now (world st)
    /\ files (world st') !! getCachePath (this st) (getCacheKey (tag type) id)
       = Some (Text (JsonValue stored (Some (now (world st)))
                       (Some (now (world st) + getTtl (this st) type)%Z))).
Proof.
  unfold setValue, Eff.bind at 1.
  destruct (ensureInitialized st) as [[[]|e] st1] eqn:E; [|discriminate].
  assert (Hst1 : world st1 = world st /\ cacheDir (this st1) = cacheDir (this st)
                 /\ config (this st1) = config (this st)
                 /\ initialized (this st1) = true).
  { destruct st as [[dir cfg init] w]. run. destruct init.
    - injection E as <-. auto.
    - destruct (mkdirError w) as [code|]; cbn in E.
      + destruct (bool_decide (Some code = Some "EEXIST"%string)); cbn in E;
          [injection E as <-; auto|discriminate].
      + injection E as <-. auto. }
  destruct Hst1 as (Hw & Hdir & Hcfg & Hinit).
  run. unfold toISOString, getCachePath, getTtl.
  rewrite Hw, Hdir, Hcfg.
  destruct (Z.abs (now (world st)) <=? maxTime)%Z; cbn; [|discriminate].
  destruct (Z.abs _ <=? maxTime)%Z; cbn; [|discriminate].
  destruct (jsonImage data) as [stored|e]; cbn; [|discriminate].
  destruct (writeError (world st) _) as [code|]; [discriminate|].
  intros [= <-]. cbn. exists stored. rewrite Hinit, Hdir.
  repeat split. apply lookup_insert_eq.
Qed.

(** For data that JSON gives back, [setValue] is [set]. *)
Lemma setValue_data (st : State jsvalue) (type : category) (id : jsstring)
    (data : jsvalue) :
  jsonImage data = Ok (Some data) ->
  setValue type id data st = set type id data st.
Proof.
  intros Hjson. unfold setValue, set, Eff.bind, Eff.gets, Eff.lift.
  destruct (ensureInitialized st) as [[[]|e] st1]; [|reflexivity].
  rewrite Hjson.
  destruct (toISOString (now (world st1))); [|reflexivity].
  destruct (toISOString _); reflexivity.
Qed.

End JsonFacts.

(** C3, as the code has it: a value goes through a JSON file.  After a set
    that completed, a get of the same category and identifier returns, at
    every clock reading up to now + ttl, what JSON makes of the value: the
    value itself when JSON gives it back unchanged (plain data: strings,
    finite numbers, booleans, null, arrays and objects of such), at once when
    the ttl is not negative; and at every clock reading past now + ttl, the
    stored expiry, it returns a miss. *)
Theorem C3_set_then_get (type : category) (id : jsstring) (value : Json.jsvalue)
    (st st' : State Json.jsvalue) :
  Json.setValue type id value st = (Ok tt, st') ->
  (Json.jsonImage value = Ok (Some value) ->
   (0 <= getTtl (this st) type)%Z ->
   Json.getValue type id st' = (Ok value, st'))
  /\ (Json.jsonImage value = Ok (Some value) ->
      forall t : Z,
        (t <= now (world st) + getTtl (this st) type)%Z ->
        Json.getValue type id (atTime t st') = (Ok value, atTime t st'))
  /\ (exists stored : option Json.jsvalue,
        Json.jsonImage value = Ok stored
        /\ forall t : Z,
             (t <= now (world st) + getTtl (this st) type)%Z ->
             get type id (atTime t st') = (Ok (Json.found stored), atTime t st'))
  /\ (forall t : Z,
        (now (world st) + getTtl (this st) type < t)%Z ->
        get type id (atTime t st') = (Ok Miss, atTime t st')).
Proof.
  intros Hset.
  destruct (setValue_completed st st' type id value Hset)
    as (stored & Himage & Hinit & Hdir & Hnow & Hfile).
  assert (Hat : forall t,
            get type id (atTime t st')
            = (Ok (if (now (world st) + getTtl (this st) type <? t)%Z
                   then Miss else Json.found stored), atTime t st')).
  { intros t. rewrite get_initialized by exact Hinit.
    f_equal. f_equal. unfold entryAt, getCachePath. cbn.
    unfold getCachePath in Hfile. rewrite Hdir, Hfile.
    cbn [expired]. now destruct stored. }
  assert (Hearly : forall t,
            (t <= now (world st) + getTtl (this st) type)%Z ->
            get type id (atTime t st') = (Ok (Json.found stored), atTime t st')).
  { intros t Ht. rewrite Hat.
    destruct (Z.ltb_spec (now (world st) + getTtl (this st) type) t);
      [lia|reflexivity]. }
  assert (Hvalue : Json.jsonImage value = Ok (Some value) ->
            forall t, (t <= now (world st) + getTtl (this st) type)%Z ->
            Json.getValue type id (atTime t st') = (Ok value, atTime t st')).
  { intros Hjson t Ht. unfold Json.getValue, Eff.bind.
    rewrite (Hearly t Ht). rewrite Hjson in Himage. injection Himage as <-.
    reflexivity. }
  assert (Hsame : atTime (now (world st')) st' = st').
  { destruct st' as [c [n f m w u]]. reflexivity. }
  split; [|split; [|split]].
  - intros Hjson Httl.
    pose proof (Hvalue Hjson (now (world st')) ltac:(rewrite Hnow; lia)) as H.
    now rewrite Hsame in H.
  - exact Hvalue.
  - exists stored. split; [exact Himage|exact Hearly].
  - intros t Ht. rewrite Hat.
    destruct (Z.ltb_spec (now (world st) + getTtl (this st) type) t);
      [reflexivity|lia].
Qed.

(** A law text on a fresh cache at time 1000, with the default seven days: it
    comes back at once, and one millisecond past the expiry it is a miss. *)
Lemma C3_set_then_get_witness :
  Json.getValue lawText (js "415AC0000000057")
    (snd (Json.setValue lawText (js "415AC0000000057") Json.sampleLawText
            Json.freshDisk))
  = (Ok Json.sampleLawText,
     snd (Json.setValue lawText (js "415AC0000000057") Json.sampleLawText
            Json.freshDisk))
  /\ fst (get lawText (js "415AC0000000057")
            (atTime 604801001
               (snd (Json.setValue lawText (js "415AC0000000057") Json.sampleLawText
                       Json.freshDisk))))
     = Ok Miss.
Proof.
  pose proof (C3_set_then_get lawText (js "415AC0000000057") Json.sampleLawText
                Json.freshDisk
                (snd (Json.setValue lawText (js "415AC0000000057")
                        Json.sampleLawText Json.freshDisk))
                ltac:(vm_compute; reflexivity)) as (Hnow & _ & _ & Hlater).
  split.
  - apply Hnow; [vm_compute; reflexivity|vm_compute; discriminate].
  - rewrite Hlater; [reflexivity|vm_compute; reflexivity].
Defined.

(** Spec 8 on a value that JSON does not give back: a count that is NaN is
    stored as null, so the get that follows the set returns another value. *)
Lemma C3_counterexample_NaN :
  fst (Json.setValue lawList (js "search_all") Json.countless Json.freshDisk) = Ok tt
  /\ fst (Json.getValue lawList (js "search_all")
            (snd (Json.setValue lawList (js "search_all") Json.countless
                    Json.freshDisk)))
     = Ok (Json.JObj [ ("totalCount", Json.JNull); ("laws", Json.JArr []) ]%string)
  /\ Json.JObj [ ("totalCount", Json.JNull); ("laws", Json.JArr []) ]%string
     <> Json.countless.
Proof.
  split; [|split]; [vm_compute; reflexivity|vm_compute; reflexivity|discriminate].
Qed.

(** With a negative time to live the entry has expired when it is written:
    the get that follows the set misses. *)
Example set_negative_ttl_misses :
  fst (Json.setValue lawText (js "415AC0000000057") Json.sampleLawText Json.staleDisk)
  = Ok tt
  /\ fst (Json.getValue lawText (js "415AC0000000057")
            (snd (Json.setValue lawText (js "415AC0000000057") Json.sampleLawText
                    Json.staleDisk)))
     = Ok Json.JNull.
Proof. split; vm_compute; reflexivity. Qed.

(** A BigInt cannot be written: set rejects and the disk stays empty. *)
Example set_bigint_rejects :
  Json.setValue lawText (js "415AC0000000057") (Json.JBigInt 1) Json.freshDisk
  = (Throw TypeError,
     mkState (mkCache (cacheDir sampleCache) (config sampleCache) true)
       (world Json.freshDisk)).
Proof. vm_compute. reflexivity. Qed.

(** [set] itself has no handler: a write the disk refuses rejects the call. *)
Remark set_write_fault (T : Type) (type : category) (id : jsstring) (data : T)
    (st : State T) (code : string) :
  initialized (this st) = true ->
  (Z.abs (now (world st)) <= maxTime)%Z ->
  (Z.abs (now (world st) + getTtl (this st) type) <= maxTime)%Z ->
  writeError (world st) (getCachePath (this st) (getCacheKey (tag type) id)) = Some code ->
  set type id data st = (Throw (errno code), st).
Proof.
  intros Hinit Hnow Hexp Hw.
  unfold set, ensureInitialized, writeFile, toISOString,
    Eff.bind, Eff.ret, Eff.gets, Eff.lift.
  rewrite Hinit. cbn.
  apply Z.leb_le in Hnow, Hexp. rewrite Hnow, Hexp. cbn. now rewrite Hw.
Qed.

(** C4, as the code has it: once the cache directory is in place (the cache
    is initialized, or mkdir succeeds or fails with EEXIST), [get] swallows
    every read fault: it answers without throwing and leaves the disk as it
    was, and an absent or unreadable file, a file that is not JSON and the
    JSON null are misses.  A mkdir fault other than EEXIST is rethrown by
    ensureInitialized and rejects both [get] and [set]. *)
Theorem C4_get_swallows_read_faults (T : Type) (type : category) (id : jsstring)
    (st : State T) :
  (dirReady st ->
   exists (r : cached T) (st' : State T),
     get type id st = (Ok r, st')
     /\ world st' = world st
     /\ match files (world st) !! getCachePath (this st) (getCacheKey (tag type) id) with
        | Some (Text (JsonValue _ _ _)) => True
        | _ => r = Miss
        end)
  /\ (forall code : string,
        initialized (this st) = false ->
        mkdirError (world st) = Some code ->
        code <> "EEXIST"%string ->
        get type id st = (Throw (errno code), st)
        /\ forall data : T, set type id data st = (Throw (errno code), st)).
Proof.
  split.
  - intros Hready.
    destruct (get_ready st type id Hready) as (c' & E & _).
    eexists. eexists. split; [exact E|]. split; [reflexivity|].
    unfold entryAt.
    destruct (files (world st) !! _) as [[code|[| |data cachedAt expiresAt]]|];
      auto.
  - intros code Hinit Hmk Hcode.
    pose proof (ensureInitialized_fault st code Hinit Hmk Hcode) as E.
    split; [|intros data].
    + unfold get, Eff.bind at 1. now rewrite E.
    + unfold set, Eff.bind at 1. now rewrite E.
Qed.

Lemma C4_get_swallows_witness :
  (exists (r : cached nat) (st' : State nat),
     get lawText (js "415AC0000000057") fresh = (Ok r, st')
     /\ world st' = world fresh /\ r = Miss)
  /\ set lawText (js "415AC0000000057") 7%nat denied = (Throw (errno "EACCES"), denied).
Proof.
  split.
  - destruct (proj1 (C4_get_swallows_read_faults nat lawText (js "415AC0000000057") fresh)
                ltac:(right; left; reflexivity)) as (r & st' & E & Hw & Hr).
    exists r, st'. split; [exact E|]. split; [exact Hw|exact Hr].
  - refine (proj2 (proj2 (C4_get_swallows_read_faults nat lawText
                            (js "415AC0000000057") denied)
                     "EACCES"%string eq_refl eq_refl _) 7%nat).
    discriminate.
Defined.

(** Spec 7 with a cache directory that cannot be created: the fault of
    mkdir reaches the caller of [get]. *)
Lemma C4_counterexample_mkdir :
  get lawText (js "415AC0000000057") denied = (Throw (errno "EACCES"), denied)
  /\ ~ (exists (r : cached nat) (st' : State nat),
          get lawText (js "415AC0000000057") denied = (Ok r, st')).
Proof.
  assert (E : get lawText (js "415AC0000000057") denied
              = (Throw (errno "EACCES"), denied)) by reflexivity.
  split; [exact E|].
  intros (r & st' & H). rewrite E in H. discriminate.
Qed.

(** C5, as the code has it: [get] never changes the disk, so a stale entry's
    file stays as it is; and an entry whose expiresAt is before the time of
    the read is a miss (an entry read at its very expiresAt is still
    returned). *)
Theorem C5_get_lazy_expiry (T : Type) (type : category) (id : jsstring)
    (st : State T) :
  world (snd (get type id st)) = world st
  /\ (forall (data : option T) (cachedAt : option Z) (expiresAt : Z),
        dirReady st ->
        files (world st) !! getCachePath (this st) (getCacheKey (tag type) id)
        = Some (Text (JsonValue data cachedAt (Some expiresAt))) ->
        (expiresAt < now (world st))%Z ->
        fst (get type id st) = Ok Miss).
Proof.
  split; [apply get_world|].
  intros data cachedAt expiresAt Hready Hfile Hexp.
  destruct (get_ready st type id Hready) as (c' & E & _).
  rewrite E. cbn. unfold entryAt. rewrite Hfile. cbn.
  destruct (Z.ltb_spec expiresAt (now (world st))); [reflexivity|lia].
Qed.

Lemma C5_get_lazy_expiry_witness :
  fst (get lawText (js "415AC0000000057") (atTime 1001 boundary)) = Ok Miss
  /\ world (snd (get lawText (js "415AC0000000057") (atTime 1001 boundary)))
     = world (atTime 1001 boundary).
Proof.
  pose proof (C5_get_lazy_expiry nat lawText (js "415AC0000000057") (atTime 1001 boundary))
    as (Hworld & Hmiss).
  split; [|exact Hworld].
  apply (Hmiss (Some 7%nat) (Some 0%Z) 1000%Z).
  - right; left; reflexivity.
  - vm_compute. reflexivity.
  - vm_compute. reflexivity.
Defined.

(** Spec 4.6 at the boundary: the entry expires at 1000 and is read at 1000,
    so [now >= expiresAt], and [get] returns the data. *)
Lemma C5_counterexample_boundary :
  files (world boundary) !! getCachePath (this boundary)
                               (getCacheKey (tag lawText) (js "415AC0000000057"))
  = Some (Text (JsonValue (Some 7%nat) (Some 0%Z) (Some 1000%Z)))
  /\ (now (world boundary) >= 1000)%Z
  /\ fst (get lawText (js "415AC0000000057") boundary) = Ok (Hit 7%nat).
Proof.
  split; [vm_compute; reflexivity|].
  split; [vm_compute; discriminate|].
  vm_compute. reflexivity.
Qed.

(** ** The client *)

Import Client.

Section ClientFacts.

Context {num : JsNumber}.
Context (parser : XMLParser) (clock : jsstring)
        (encodeURIComponent : jsstring -> jsstring).

Lemma after_after (net : Net) (e1 e2 : list event) :
  after (after net e1) e2 = after net (e1 ++ e2).
Proof. unfold after. cbn. now rewrite <- app_assoc. Qed.

Lemma answers_after (net : Net) (url : jsstring) (answer : response) (events : list event) :
  answers net url answer -> answers (after net events) url answer.
Proof. intros H n. exact (H n). Qed.

Lemma attemptOnce_parsed {T : Type} (net : Net) (url statusText xml : jsstring)
    (parse : jsstring -> result T) :
  answers net url (Http 200 statusText (Ok xml)) ->
  attemptOnce url parse net
  = (match parse xml with
     | Ok data => Ok (Success data)
     | Throw e => Throw e
     end, after net [Fetched url]).
Proof.
  intros H. unfold attemptOnce, fetch, Eff.bind, Eff.lift, Eff.ret.
  rewrite (H (requests net)). cbn.
  destruct (parse xml); reflexivity.
Qed.

Lemma delay_after (net : Net) (ms : Z) : delay ms net = (Ok tt, after net [Delayed ms]).
Proof. reflexivity. Qed.

Lemma retryLoop_callback_throws {T : Type} (url statusText xml : jsstring)
    (parse : jsstring -> result T) (e : error)
    (remaining attempt maxRetries : nat) (lastError : option error) (net : Net) :
  answers net url (Http 200 statusText (Ok xml)) ->
  parse xml = Throw e ->
  retryLoop remaining attempt maxRetries lastError url parse net
  = (Ok (Failure "FETCH_ERROR"
           match match remaining with O => lastError | S _ => Some e end with
           | Some e' => err_message e'
           | None => js "リクエストに失敗しました"
           end),
     after net (failingAttempts remaining attempt maxRetries url)).
Proof.
  intros Hnet Hparse.
  revert attempt lastError net Hnet.
  induction remaining as [|remaining IH]; intros attempt lastError net Hnet.
  - cbn [retryLoop failingAttempts]. unfold Eff.ret, after.
    rewrite app_nil_r. now destruct net.
  - cbn [retryLoop failingAttempts]. unfold Eff.try_catch.
    rewrite (attemptOnce_parsed net url statusText xml parse Hnet), Hparse.
    unfold Eff.bind.
    destruct (attempt <? maxRetries)%nat.
    + rewrite delay_after, after_after.
      rewrite (IH (S attempt) (Some e) _ (answers_after net url _ _ Hnet)).
      rewrite after_after. unfold RETRY_DELAY.
      destruct remaining; reflexivity.
    + unfold Eff.ret.
      rewrite (IH (S attempt) (Some e) _ (answers_after net url _ _ Hnet)).
      rewrite after_after.
      destruct remaining; reflexivity.
Qed.

(** A callback that throws is retried like a network failure: three requests
    and two delays, then FETCH_ERROR with the callback's message. *)
Lemma fetchWithRetry_callback_throws {T : Type} (net : Net)
    (url statusText xml : jsstring) (parse : jsstring -> result T) (e : error) :
  answers net url (Http 200 statusText (Ok xml)) ->
  parse xml = Throw e ->
  fetchWithRetry url parse None net
  = (Ok (Failure "FETCH_ERROR" (err_message e)),
     after net [Fetched url; Delayed 1000; Fetched url; Delayed 2000; Fetched url]).
Proof.
  intros Hnet Hparse.
  unfold fetchWithRetry, MAX_RETRIES.
  exact (retryLoop_callback_throws url statusText xml parse e 3 1 3 None net Hnet Hparse).
Qed.

Lemma fetchWithRetry_parsed {T : Type} (net : Net)
    (url statusText xml : jsstring) (parse : jsstring -> result T) (data : T) :
  answers net url (Http 200 statusText (Ok xml)) ->
  parse xml = Ok data ->
  fetchWithRetry url parse None net = (Ok (Success data), after net [Fetched url]).
Proof.
  intros Hnet Hparse.
  unfold fetchWithRetry, MAX_RETRIES. cbn [retryLoop].
  unfold Eff.try_catch.
  now rewrite (attemptOnce_parsed net url statusText xml parse Hnet), Hparse.
Qed.

(** The sibling outcome: a 404 is terminal on its first occurrence. *)
Lemma fetchWithRetry_not_found {T : Type} (net : Net)
    (url statusText : jsstring) (text : result jsstring)
    (parse : jsstring -> result T) :
  respond net (requests net) url = Http 404 statusText text ->
  fetchWithRetry url parse None net
  = (Ok (Failure "NOT_FOUND" (js "リソースが見つかりませんでした")),
     after net [Fetched url]).
Proof.
  intros H. unfold fetchWithRetry, MAX_RETRIES. cbn [retryLoop].
  unfold Eff.try_catch, attemptOnce, fetch, Eff.bind, Eff.ret.
  now rewrite H.
Qed.

Lemma parseArticle_missing (xml article : jsstring) (paragraph : option number)
    (decoded : value) :
  parser xml = Ok decoded ->
  if_truthy (findArticle (lawBodyOf decoded) article) = None ->
  parseArticle parser xml article paragraph = Ok None.
Proof.
  intros Hp Hnone. unfold parseArticle. rewrite Hp.
  unfold lawBodyOf, lawDataOf in Hnone. cbv zeta in Hnone |- *.
  now rewrite Hnone.
Qed.

End ClientFacts.

(** C6 on the code: an article lookup whose document has no matching Article
    is not terminal on its first occurrence.  The callback's error is caught
    by the retry loop like a network failure: after the request of
    getLawById, the same document is requested three times, with delays of
    1000 and 2000 ms, and the call fails with FETCH_ERROR. *)
Theorem C6_getArticle_retries_missing_article (num : JsNumber) (parser : XMLParser)
    (clock : jsstring) (encodeURIComponent : jsstring -> jsstring)
    (net : Net) (lawId article statusText xml : jsstring)
    (paragraph : option number) (decoded : value) :
  answers net (lawdataUrl encodeURIComponent lawId) (Http 200 statusText (Ok xml)) ->
  parser xml = Ok decoded ->
  if_truthy (findArticle (lawBodyOf decoded) article) = None ->
  getArticle parser clock encodeURIComponent lawId article paragraph net
  = (Ok (Failure "FETCH_ERROR" (err_message (articleMissing article))),
     after net
       [ Fetched (lawdataUrl encodeURIComponent lawId);
         Fetched (lawdataUrl encodeURIComponent lawId);
         Delayed 1000;
         Fetched (lawdataUrl encodeURIComponent lawId);
         Delayed 2000;
         Fetched (lawdataUrl encodeURIComponent lawId) ]).
Proof.
  intros Hnet Hp Hnone.
  set (url := lawdataUrl encodeURIComponent lawId) in *.
  destruct (parseLawText_decoded parser clock xml decoded Hp) as (i & n & t & Hlaw).
  unfold getArticle, getLawById, Eff.bind. fold url.
  rewrite (fetchWithRetry_parsed net url statusText xml
             (fun xml => parseLawText parser clock xml) _ Hnet Hlaw).
  rewrite (fetchWithRetry_callback_throws (after net [Fetched url]) url statusText xml
             _ (articleMissing article) (answers_after net url _ _ Hnet)).
  - now rewrite after_after.
  - now rewrite (parseArticle_missing parser xml article paragraph decoded Hp Hnone).
Qed.

(** The two-chapter law has no Article 3. *)
Lemma C6_getArticle_witness :
  getArticle sampleParser (js "2026-01-01T00:00:00.000Z") (fun s => s)
    (js "415AC0000000057") (js "第三条") None steadyNet
  = (Ok (Failure "FETCH_ERROR" (err_message (articleMissing (js "第三条")))),
     after steadyNet
       [ Fetched (lawdataUrl (fun s => s) (js "415AC0000000057"));
         Fetched (lawdataUrl (fun s => s) (js "415AC0000000057"));
         Delayed 1000;
         Fetched (lawdataUrl (fun s => s) (js "415AC0000000057"));
         Delayed 2000;
         Fetched (lawdataUrl (fun s => s) (js "415AC0000000057")) ]).
Proof.
  refine (C6_getArticle_retries_missing_article IntNumber sampleParser
            (js "2026-01-01T00:00:00.000Z") (fun s => s) steadyNet
            (js "415AC0000000057") (js "第三条") (js "OK") sampleXml None
            (VObj [("Law", VObj [("LawBody", twoChapters)])]%string) _ _ _).
  - intros n. reflexivity.
  - reflexivity.
  - vm_compute. reflexivity.
Defined.

Example getArticle_missing_requests :
  requests (snd (getArticle sampleParser (js "2026-01-01T00:00:00.000Z") (fun s => s)
                   (js "415AC0000000057") (js "第三条") None steadyNet)) = 4%nat
  /\ lawdataUrl (fun s => s) (js "415AC0000000057")
     = js "https://laws.e-gov.go.jp/api/1/lawdata/415AC0000000057"
  /\ err_message (articleMissing (js "第三条")) = js "条文「第三条」が見つかりませんでした".
Proof. split; [|split]; vm_compute; reflexivity. Qed.

Example getArticle_found :
  exists found,
    fst (getArticle sampleParser (js "2026-01-01T00:00:00.000Z") (fun s => s)
           (js "415AC0000000057") (js "第二十条") None steadyNet)
    = Ok (Success found)
    /\ articleTitle found = Some (js "第二十条").
Proof. eexists. split; vm_compute; reflexivity. Qed.

(** ** More of the client: the retry loop *)

Import Attempt.

Section RetryFacts.

Context {T : Type} (url : jsstring) (parse : jsstring -> result T).

Lemma requests_after (net : Net) (events : list event) :
  requests (after net events)
  = (requests net + length (List.filter isFetched events))%nat.
Proof.
  unfold requests, after. cbn [log].
  now rewrite List.filter_app, length_app.
Qed.

Lemma attemptOnce_outcome (net : Net) :
  attemptOnce url parse net
  = (tryOutcome parse (respond net (requests net) url), after net [Fetched url]).
Proof.
  unfold attemptOnce, tryOutcome, httpError, fetch, Eff.bind, Eff.lift, Eff.ret,
    Eff.throw, after.
  destruct (respond net (requests net) url) as [e|status statusText text];
    [reflexivity|].
  cbv beta iota. destruct (negb (ok status)).
  - destruct (status =? 404); reflexivity.
  - destruct text as [xml|e]; [|reflexivity].
    cbv beta iota. destruct (parse xml); reflexivity.
Qed.

(** One turn of the loop, by what the attempt comes to. *)
Lemma retryLoop_step (remaining attempt maxRetries : nat)
    (lastError : option error) (net : Net) :
  retryLoop (S remaining) attempt maxRetries lastError url parse net
  = match tryOutcome parse (respond net (requests net) url) with
    | Ok r => (Ok r, after net [Fetched url])
    | Throw e =>
      retryLoop remaining (S attempt) maxRetries (Some e) url parse
        (after net (Fetched url ::
                    if (attempt <? maxRetries)%nat
                    then [Delayed (RETRY_DELAY * Z.of_nat attempt)]
                    else []))
    end.
Proof.
  cbn [retryLoop]. unfold Eff.try_catch. rewrite attemptOnce_outcome.
  destruct (tryOutcome parse _) as [r|e]; [reflexivity|].
  unfold Eff.bind. destruct (attempt <? maxRetries)%nat.
  - rewrite delay_after, after_after. reflexivity.
  - unfold Eff.ret. reflexivity.
Qed.

Lemma retryLoop_bounded (remaining attempt maxRetries : nat)
    (lastError : option error) (net : Net) :
  (1 <= attempt)%nat ->
  exists (r : ApiResponse T) (events : list event),
    retryLoop remaining attempt maxRetries lastError url parse net
    = (Ok r, after net events)
    /\ (length (List.filter isFetched events) <= remaining)%nat
    /\ Forall (retryEvent maxRetries url) events.
Proof.
  revert attempt lastError net.
  induction remaining as [|remaining IH]; intros attempt lastError net Hattempt.
  - exists (Failure "FETCH_ERROR" (lastMessage lastError)), [].
    split; [|split; [cbn [List.filter length]; lia|constructor]].
    cbn [retryLoop]. unfold Eff.ret, after, lastMessage.
    rewrite app_nil_r. now destruct net.
  - rewrite retryLoop_step.
    destruct (tryOutcome parse _) as [r|e].
    + exists r, [Fetched url]. split; [reflexivity|].
      split; [cbn [List.filter isFetched length]; lia|].
      constructor; [now left|constructor].
    + destruct (IH (S attempt) (Some e)
                  (after net (Fetched url ::
                     if (attempt <? maxRetries)%nat
                     then [Delayed (RETRY_DELAY * Z.of_nat attempt)] else []))
                  ltac:(lia))
        as (r & events & E & Hcount & Hall).
      exists r. eexists. split; [rewrite E, after_after; reflexivity|].
      split.
      * cbn [app List.filter isFetched length].
        rewrite List.filter_app, length_app.
        destruct (attempt <? maxRetries)%nat; simpl; lia.
      * constructor; [now left|].
        apply Forall_app_2; [|exact Hall].
        destruct (Nat.ltb_spec attempt maxRetries); [|constructor].
        constructor; [|constructor].
        right. exists attempt. split; [lia|reflexivity].
Qed.

(** Every attempt fails: [failure n] is what the try block throws on the
    n-th answer. *)
Lemma retryLoop_all_fail (failure : nat -> error)
    (remaining attempt maxRetries : nat) (lastError : option error) (net : Net) :
  (forall n, tryOutcome parse (respond net n url) = Throw (failure n)) ->
  retryLoop remaining attempt maxRetries lastError url parse net
  = (Ok (Failure "FETCH_ERROR"
           (lastMessage
              match remaining with
              | O => lastError
              | S r => Some (failure (requests net + r)%nat)
              end)),
     after net (failingAttempts remaining attempt maxRetries url)).
Proof.
  intros Hfail. revert attempt lastError net Hfail.
  induction remaining as [|remaining IH]; intros attempt lastError net Hfail.
  - cbn [retryLoop failingAttempts]. unfold Eff.ret, after, lastMessage.
    rewrite app_nil_r. now destruct net.
  - rewrite retryLoop_step, Hfail, IH by exact Hfail.
    rewrite after_after. cbn [failingAttempts app].
    do 4 f_equal.
    destruct remaining as [|r]; [do 2 f_equal; lia|].
    rewrite requests_after. do 2 f_equal.
    destruct (attempt <? maxRetries)%nat; cbn [List.filter isFetched length]; lia.
Qed.

(** The first [failures] attempts fail and the next one returns. *)
Lemma retryLoop_recovers (failure : nat -> error) (r : ApiResponse T)
    (failures remaining attempt maxRetries : nat) (lastError : option error)
    (net : Net) :
  (failures < remaining)%nat ->
  (forall n, (n < failures)%nat ->
     tryOutcome parse (respond net (requests net + n)%nat url) = Throw (failure n)) ->
  tryOutcome parse (respond net (requests net + failures)%nat url) = Ok r ->
  retryLoop remaining attempt maxRetries lastError url parse net
  = (Ok r, after net (failingAttempts failures attempt maxRetries url ++ [Fetched url])).
Proof.
  revert remaining attempt lastError net failure.
  induction failures as [|failures IH];
    intros remaining attempt lastError net failure Hlt Hfail Hok.
  - destruct remaining as [|remaining]; [lia|].
    rewrite retryLoop_step. rewrite Nat.add_0_r in Hok. now rewrite Hok.
  - destruct remaining as [|remaining]; [lia|].
    rewrite retryLoop_step.
    pose proof (Hfail O ltac:(lia)) as H0. rewrite Nat.add_0_r in H0. rewrite H0.
    set (events := Fetched url ::
           if (attempt <? maxRetries)%nat
           then [Delayed (RETRY_DELAY * Z.of_nat attempt)] else []).
    assert (Hreq : requests (after net events) = S (requests net)).
    { rewrite requests_after. unfold events.
      destruct (attempt <? maxRetries)%nat; simpl; lia. }
    rewrite (IH remaining (S attempt) (Some (failure O)) (after net events)
               (fun n => failure (S n))).
    + rewrite after_after. unfold events. cbn [failingAttempts app].
      now rewrite <- app_assoc.
    + lia.
    + intros n Hn. rewrite Hreq.
      replace (S (requests net) + n)%nat with (requests net + S n)%nat by lia.
      apply Hfail. lia.
    + rewrite Hreq.
      replace (S (requests net) + failures)%nat
        with (requests net + S failures)%nat by lia.
      exact Hok.
Qed.

End RetryFacts.

(** X1 (fetchWithRetry): the call never rejects.  Whatever the network
    answers and whatever the callback does, it resolves to a response after at
    most [maxRetries] requests for [url]; besides the requests it only waits,
    [RETRY_DELAY * attempt] after a failed attempt that is not the last. *)
Theorem fetchWithRetry_resolves_within_bounds {T : Type}
    (url : jsstring) (parse : jsstring -> result T) (retries : option nat)
    (net : Net) :
  exists (r : ApiResponse T) (events : list event),
    fetchWithRetry url parse retries net = (Ok r, after net events)
    /\ (length (List.filter isFetched events) <= maxRetriesOf retries)%nat
    /\ Forall (retryEvent (maxRetriesOf retries) url) events.
Proof.
  unfold fetchWithRetry. fold (maxRetriesOf retries).
  apply retryLoop_bounded. lia.
Qed.

(** X2 (fetchWithRetry): when every attempt fails, the call makes exactly
    [maxRetries] requests, waits 1000 * k ms after the k-th of them except the
    last, and resolves to FETCH_ERROR with the message of the error of the
    last attempt; with [retries = 0] it makes no request and the message is
    the default one. *)
Theorem fetchWithRetry_exhausted {T : Type}
    (url : jsstring) (parse : jsstring -> result T) (failure : nat -> error)
    (retries : option nat) (net : Net) :
  (forall n, tryOutcome parse (respond net n url) = Throw (failure n)) ->
  fetchWithRetry url parse retries net
  = (Ok (Failure "FETCH_ERROR"
           (lastMessage
              match maxRetriesOf retries with
              | O => None
              | S r => Some (failure (requests net + r)%nat)
              end)),
     after net (failingAttempts (maxRetriesOf retries) 1 (maxRetriesOf retries) url)).
Proof.
  intros Hfail. unfold fetchWithRetry. fold (maxRetriesOf retries).
  now apply retryLoop_all_fail.
Qed.

Lemma fetchWithRetry_exhausted_witness :
  fetchWithRetry sampleUrl keep None deadNet
  = (Ok (Failure "FETCH_ERROR" (js "fetch failed")),
     after deadNet
       [Fetched sampleUrl; Delayed 1000; Fetched sampleUrl; Delayed 2000;
        Fetched sampleUrl]).
Proof.
  exact (fetchWithRetry_exhausted sampleUrl keep
           (fun _ => mkError "TypeError" (js "fetch failed") None) None deadNet
           (fun n => eq_refl)).
Defined.

(** X3 (fetchWithRetry): the first attempt whose try block returns ends the
    loop.  After [failures] failed attempts, each followed by its delay, the
    result of the next attempt is the result of the call, and nothing is
    requested after it. *)
Theorem fetchWithRetry_first_return_wins {T : Type}
    (url : jsstring) (parse : jsstring -> result T) (failure : nat -> error)
    (r : ApiResponse T) (failures : nat) (retries : option nat) (net : Net) :
  (failures < maxRetriesOf retries)%nat ->
  (forall n, (n < failures)%nat ->
     tryOutcome parse (respond net (requests net + n)%nat url) = Throw (failure n)) ->
  tryOutcome parse (respond net (requests net + failures)%nat url) = Ok r ->
  fetchWithRetry url parse retries net
  = (Ok r,
     after net (failingAttempts failures 1 (maxRetriesOf retries) url
                ++ [Fetched url])).
Proof.
  intros Hlt Hfail Hok. unfold fetchWithRetry. fold (maxRetriesOf retries).
  now apply (retryLoop_recovers url parse failure).
Qed.

Lemma fetchWithRetry_first_return_wins_witness :
  fetchWithRetry sampleUrl keep None (flakyNet 2 sampleXml)
  = (Ok (Success sampleXml),
     after (flakyNet 2 sampleXml)
       [Fetched sampleUrl; Delayed 1000; Fetched sampleUrl; Delayed 2000;
        Fetched sampleUrl]).
Proof.
  refine (fetchWithRetry_first_return_wins sampleUrl keep
            (fun _ => mkError "TypeError" (js "fetch failed") None)
            (Success sampleXml) 2 None (flakyNet 2 sampleXml) _ _ _).
  - unfold maxRetriesOf, MAX_RETRIES. lia.
  - intros [|[|n]] Hn; [reflexivity|reflexivity|lia].
  - reflexivity.
Defined.

(** X4 (fetchWithRetry): HTTP 404 is terminal.  At the first attempt it gives
    NOT_FOUND after one request, with no delay and no retry, whatever the
    retry budget (if there is one attempt at all) and the body. *)
Theorem fetchWithRetry_404_terminal {T : Type}
    (url statusText : jsstring) (text : result jsstring)
    (parse : jsstring -> result T) (retries : option nat) (net : Net) :
  (1 <= maxRetriesOf retries)%nat ->
  respond net (requests net) url = Http 404 statusText text ->
  fetchWithRetry url parse retries net
  = (Ok (Failure "NOT_FOUND" (js "リソースが見つかりませんでした")),
     after net [Fetched url]).
Proof.
  intros Hone H404. unfold fetchWithRetry. fold (maxRetriesOf retries).
  destruct (maxRetriesOf retries) as [|m] eqn:Em; [lia|].
  rewrite retryLoop_step, H404. reflexivity.
Qed.

Lemma fetchWithRetry_404_terminal_witness :
  fetchWithRetry sampleUrl keep (Some 5%nat) missingNet
  = (Ok (Failure "NOT_FOUND" (js "リソースが見つかりませんでした")),
     after missingNet [Fetched sampleUrl]).
Proof.
  refine (fetchWithRetry_404_terminal sampleUrl
            (js "Not Found") (Ok []) keep (Some 5%nat) missingNet _ _).
  - unfold maxRetriesOf. lia.
  - reflexivity.
Defined.

(** X5 (fetchWithRetry): every other status outside 200..299 is retried like
    a network failure, client errors such as 400 included: the document is
    requested [maxRetries] times and the call resolves to FETCH_ERROR with the
    message HTTP <status>: <statusText>. *)
Theorem fetchWithRetry_http_error_retried {T : Type}
    (url statusText : jsstring) (text : result jsstring) (status : N)
    (parse : jsstring -> result T) (net : Net) :
  ok status = false ->
  status <> 404 ->
  answers net url (Http status statusText text) ->
  fetchWithRetry url parse None net
  = (Ok (Failure "FETCH_ERROR"
           (js "HTTP " ++ String_of_N status ++ js ": " ++ statusText)),
     after net
       [Fetched url; Delayed 1000; Fetched url; Delayed 2000; Fetched url]).
Proof.
  intros Hok H404 Hans.
  unfold fetchWithRetry.
  rewrite (retryLoop_all_fail url parse (fun _ => httpError status statusText)).
  - reflexivity.
  - intros n. rewrite (Hans n). unfold tryOutcome. rewrite Hok.
    cbv beta iota delta [negb].
    destruct (N.eqb_spec status 404) as [E|_]; [contradiction|reflexivity].
Qed.

Lemma fetchWithRetry_http_error_retried_witness :
  fetchWithRetry sampleUrl keep None busyNet
  = (Ok (Failure "FETCH_ERROR"
           (js "HTTP " ++ String_of_N 503 ++ js ": " ++ js "Service Unavailable")),
     after busyNet
       [Fetched sampleUrl; Delayed 1000; Fetched sampleUrl; Delayed 2000;
        Fetched sampleUrl]).
Proof.
  refine (fetchWithRetry_http_error_retried sampleUrl
            (js "Service Unavailable") (Ok []) 503 keep busyNet _ _ _).
  - reflexivity.
  - discriminate.
  - intros n. reflexivity.
Defined.

Lemma tryOutcome_returns {T : Type} (url : jsstring) (parse : jsstring -> result T)
    (net : Net) (n : nat) (r : ApiResponse T) :
  tryOutcome parse (respond net n url) = Ok r ->
  fromNetwork url parse net r.
Proof.
  unfold tryOutcome.
  destruct (respond net n url) as [e|status statusText text] eqn:Er; [discriminate|].
  destruct (ok status) eqn:Eok; cbv beta iota delta [negb].
  - destruct text as [xml|e]; [|discriminate].
    destruct (parse xml) as [data|e] eqn:Ep; [|discriminate].
    intros [= <-]. exists n, status, statusText, xml. now rewrite Er.
  - destruct (N.eqb_spec status 404) as [->|_]; [|discriminate].
    intros [= <-]. left. split; [reflexivity|].
    now exists n, statusText, text.
Qed.

Lemma retryLoop_fromNetwork {T : Type} (url : jsstring) (parse : jsstring -> result T)
    (remaining attempt maxRetries : nat) (lastError : option error) (net : Net) :
  exists (r : ApiResponse T) (net' : Net),
    retryLoop remaining attempt maxRetries lastError url parse net = (Ok r, net')
    /\ fromNetwork url parse net r.
Proof.
  revert attempt lastError net.
  induction remaining as [|remaining IH]; intros attempt lastError net.
  - eexists. eexists. split; [reflexivity|]. now right.
  - rewrite retryLoop_step.
    destruct (tryOutcome parse _) as [r|e] eqn:Et.
    + exists r. eexists. split; [reflexivity|].
      exact (tryOutcome_returns url parse net _ r Et).
    + destruct (IH (S attempt) (Some e)
                  (after net (Fetched url ::
                     if (attempt <? maxRetries)%nat
                     then [Delayed (RETRY_DELAY * Z.of_nat attempt)] else [])))
        as (r & net' & E & Hfrom).
      exists r, net'. split; [exact E|exact Hfrom].
Qed.

(** X8 (fetchWithRetry): where a response comes from.  The call resolves;
    data is what the callback made of the body of an answer with a status in
    200..299; NOT_FOUND is given for an answer with status 404 only; every
    other failure has the code FETCH_ERROR. *)
Theorem fetchWithRetry_outcomes {T : Type} (url : jsstring)
    (parse : jsstring -> result T) (retries : option nat) (net : Net) :
  exists (r : ApiResponse T) (net' : Net),
    fetchWithRetry url parse retries net = (Ok r, net')
    /\ fromNetwork url parse net r.
Proof. unfold fetchWithRetry. apply retryLoop_fromNetwork. Qed.

(** X9 (getArticle): when the service answers with a document in which
    parseArticle finds the article, the call returns it after requesting the
    same document twice: once through getLawById, whose result is only tested
    for success, and once for the article. *)
Theorem getArticle_found_after_two_requests (num : JsNumber) (parser : XMLParser)
    (clock : jsstring) (encodeURIComponent : jsstring -> jsstring)
    (net : Net) (lawId article statusText xml : jsstring)
    (paragraph : option number) (found : Article) :
  answers net (lawdataUrl encodeURIComponent lawId) (Http 200 statusText (Ok xml)) ->
  parseArticle parser xml article paragraph = Ok (Some found) ->
  getArticle parser clock encodeURIComponent lawId article paragraph net
  = (Ok (Success found),
     after net
       [ Fetched (lawdataUrl encodeURIComponent lawId);
         Fetched (lawdataUrl encodeURIComponent lawId) ]).
Proof.
  intros Hnet Hfound.
  set (url := lawdataUrl encodeURIComponent lawId) in *.
  destruct (parser xml) as [decoded|e] eqn:Hp;
    [|unfold parseArticle in Hfound; now rewrite Hp in Hfound].
  destruct (parseLawText_decoded parser clock xml decoded Hp) as (i & n & t & Hlaw).
  unfold getArticle, getLawById, Eff.bind. fold url.
  rewrite (fetchWithRetry_parsed net url statusText xml
             (fun xml => parseLawText parser clock xml) _ Hnet Hlaw).
  rewrite (fetchWithRetry_parsed (after net [Fetched url]) url statusText xml
             _ found (answers_after net url _ _ Hnet)).
  - now rewrite after_after.
  - now rewrite Hfound.
Qed.

Lemma getArticle_found_after_two_requests_witness :
  exists found : Article (num := IntNumber),
    getArticle sampleParser (js "2026-01-01T00:00:00.000Z") (fun s => s)
      (js "415AC0000000057") (js "第二十条") None steadyNet
    = (Ok (Success found),
       after steadyNet
         [ Fetched (lawdataUrl (fun s => s) (js "415AC0000000057"));
           Fetched (lawdataUrl (fun s => s) (js "415AC0000000057")) ]).
Proof.
  eexists.
  refine (getArticle_found_after_two_requests IntNumber sampleParser
            (js "2026-01-01T00:00:00.000Z") (fun s => s) steadyNet
            (js "415AC0000000057") (js "第二十条") (js "OK") sampleXml None _ _ _).
  - intros n. reflexivity.
  - vm_compute. reflexivity.
Defined.

(** X10 (getArticle): when the service has no such law (HTTP 404 to the
    request of getLawById), the call resolves to NOT_FOUND after that one
    request; the article is not requested. *)
Theorem getArticle_law_not_found (num : JsNumber) (parser : XMLParser)
    (clock : jsstring) (encodeURIComponent : jsstring -> jsstring)
    (net : Net) (lawId article statusText : jsstring) (text : result jsstring)
    (paragraph : option number) :
  respond net (requests net) (lawdataUrl encodeURIComponent lawId)
  = Http 404 statusText text ->
  getArticle parser clock encodeURIComponent lawId article paragraph net
  = (Ok (Failure "NOT_FOUND" (js "リソースが見つかりませんでした")),
     after net [Fetched (lawdataUrl encodeURIComponent lawId)]).
Proof.
  intros H404. unfold getArticle, getLawById, Eff.bind, fetchWithRetry, MAX_RETRIES.
  rewrite retryLoop_step, H404. reflexivity.
Qed.

Lemma getArticle_law_not_found_witness :
  getArticle sampleParser (js "2026-01-01T00:00:00.000Z") (fun s => s)
    (js "415AC0000000057") (js "第二十条") None missingNet
  = (Ok (Failure "NOT_FOUND" (js "リソースが見つかりませんでした")),
     after missingNet [Fetched (lawdataUrl (fun s => s) (js "415AC0000000057"))]).
Proof.
  refine (getArticle_law_not_found IntNumber sampleParser
            (js "2026-01-01T00:00:00.000Z") (fun s => s) missingNet
            (js "415AC0000000057") (js "第二十条") (js "Not Found") (Ok []) None _).
  reflexivity.
Defined.

(** ** Law lists *)

Import LawList.

Section SortFacts.

Context {A : Type} (flag : A -> bool).

Lemma sort_insert_flagged (x : A) (l : list A) :
  flag x = true ->
  sort_insert (flagged_first flag) x l = x :: l.
Proof.
  intros Hx. destruct l as [|y l]; [reflexivity|].
  cbn [sort_insert]. unfold flagged_first. rewrite Hx.
  destruct (flag y); reflexivity.
Qed.

Lemma sort_insert_unflagged (x : A) (l1 l2 : list A) :
  flag x = false ->
  Forall (fun y => flag y = true) l1 ->
  Forall (fun y => flag y = false) l2 ->
  sort_insert (flagged_first flag) x (l1 ++ l2) = l1 ++ x :: l2.
Proof.
  intros Hx H1 H2. induction H1 as [|y l1 Hy _ IH].
  - destruct l2 as [|z l2]; [reflexivity|].
    cbn [app sort_insert]. unfold flagged_first. rewrite Hx.
    inversion H2 as [|? ? Hz _]; subst. now rewrite Hz.
  - cbn [app sort_insert]. unfold flagged_first at 1. rewrite Hx, Hy.
    cbn. now rewrite IH.
Qed.

(** A stable sort by a flag: the flagged elements first, then the others,
    each group in its order. *)
Lemma sort_flagged_first (l : list A) :
  sort (flagged_first flag) l
  = List.filter flag l ++ List.filter (fun x => negb (flag x)) l.
Proof.
  induction l as [|x l IH]; [reflexivity|].
  cbn [sort List.filter]. rewrite IH.
  destruct (flag x) eqn:Hx; cbn [negb].
  - now apply sort_insert_flagged.
  - apply sort_insert_unflagged; [exact Hx| |].
    + apply List.Forall_forall. intros y Hy.
      now apply List.filter_In in Hy.
    + apply List.Forall_forall. intros y Hy.
      apply List.filter_In in Hy. now apply negb_true_iff.
Qed.

Lemma filter_partition_length (l : list A) :
  length (List.filter flag l ++ List.filter (fun x => negb (flag x)) l) = length l.
Proof.
  rewrite length_app. induction l as [|x l IH]; [reflexivity|].
  cbn [List.filter]. destruct (flag x); cbn [negb length]; lia.
Qed.

End SortFacts.

Section ListFacts.

Context {num : JsNumber}.
Context (parser : XMLParser) (clock : jsstring)
        (encodeURIComponent formEncode : jsstring -> jsstring).

Lemma parseLawList_decoded (xml : jsstring) (decoded : value) :
  parser xml = Ok decoded ->
  parseLawList parser xml
  = Ok (mkSearchResult (length (entriesOf decoded)) (entriesOf decoded)).
Proof. intros Hp. unfold parseLawList. now rewrite Hp. Qed.

Lemma searchLaws_listed (params : SearchParams) (net : Net)
    (statusText xml : jsstring) (decoded : value) :
  answers net (searchUrl formEncode params) (Http 200 statusText (Ok xml)) ->
  parser xml = Ok decoded ->
  searchLaws parser formEncode params net
  = (Ok (Success (mkSearchResult (length (entriesOf decoded)) (entriesOf decoded))),
     after net [Fetched (searchUrl formEncode params)]).
Proof.
  intros Hnet Hp. unfold searchLaws.
  exact (fetchWithRetry_parsed net _ statusText xml
           (fun xml => parseLawList parser xml) _ Hnet (parseLawList_decoded xml decoded Hp)).
Qed.

End ListFacts.

(** X6 (findSimilarLaws): when the keyword search answers with a list, the
    laws whose name contains the query come first and the others after them,
    each group in the order of the list; at most ten are returned, while
    totalCount counts all the laws of the list.  One request is made. *)
Theorem findSimilarLaws_ranking (num : JsNumber) (parser : XMLParser)
    (formEncode : jsstring -> jsstring) (query statusText xml : jsstring)
    (decoded : value) (net : Net) :
  answers net (searchUrl formEncode (byKeyword query)) (Http 200 statusText (Ok xml)) ->
  parser xml = Ok decoded ->
  findSimilarLaws parser formEncode query net
  = (Ok (Success
       (mkSearchResult
          (length (entriesOf decoded))
          (firstn 10
             (List.filter (fun law => includes (lawName law) query) (entriesOf decoded)
              ++ List.filter (fun law => negb (includes (lawName law) query))
                   (entriesOf decoded))))),
     after net [Fetched (searchUrl formEncode (byKeyword query))]).
Proof.
  intros Hnet Hp. unfold findSimilarLaws, Eff.bind.
  rewrite (searchLaws_listed parser formEncode _ net statusText xml decoded Hnet Hp).
  cbv beta iota zeta. cbn [laws]. unfold Eff.ret.
  change (byNameMatch query)
    with (flagged_first (fun law : LawInfo => includes (lawName law) query)).
  rewrite sort_flagged_first, filter_partition_length. reflexivity.
Qed.

Lemma findSimilarLaws_ranking_witness :
  findSimilarLaws listParser (fun s => s) (js "個人情報") steadyNet
  = (Ok (Success
       (mkSearchResult
          (length (entriesOf sampleList))
          (firstn 10
             (List.filter (fun law => includes (lawName law) (js "個人情報"))
                (entriesOf sampleList)
              ++ List.filter (fun law => negb (includes (lawName law) (js "個人情報")))
                   (entriesOf sampleList))))),
     after steadyNet [Fetched (searchUrl (fun s => s) (byKeyword (js "個人情報")))]).
Proof.
  refine (findSimilarLaws_ranking IntNumber listParser (fun s => s) (js "個人情報")
            (js "OK") sampleXml sampleList steadyNet _ _).
  - intros n. reflexivity.
  - reflexivity.
Defined.

Example findSimilarLaws_sample :
  List.map lawId
    (List.filter (fun law => includes (lawName law) (js "個人情報")) (entriesOf sampleList)
     ++ List.filter (fun law => negb (includes (lawName law) (js "個人情報")))
          (entriesOf sampleList))
  = [js "415AC0000000057"; js "415CO0000000507"; js "129AC0000000089";
     js "322AC0000000049"].
Proof. vm_compute. reflexivity. Qed.

(** X7 (getLawByNumber): when the keyword search answers with a list, the law
    text is requested for the first law of the list whose number is exactly
    the given one; when no law of the list has that number, the call resolves
    to NOT_FOUND after the one search request, without requesting any law
    text. *)
Theorem getLawByNumber_exact_match (num : JsNumber) (parser : XMLParser)
    (clock : jsstring) (encodeURIComponent formEncode : jsstring -> jsstring)
    (lawNumber statusText xml : jsstring) (decoded : value) (net : Net) :
  answers net (searchUrl formEncode (byKeyword lawNumber))
    (Http 200 statusText (Ok xml)) ->
  parser xml = Ok decoded ->
  getLawByNumber parser clock encodeURIComponent formEncode lawNumber net
  = match List.find (fun law => str_eqb (LawList.lawNumber law) lawNumber)
            (entriesOf decoded) with
    | Some law =>
      getLawById parser clock encodeURIComponent (lawId law)
        (after net [Fetched (searchUrl formEncode (byKeyword lawNumber))])
    | None =>
      (Ok (noExactMatch lawNumber),
       after net [Fetched (searchUrl formEncode (byKeyword lawNumber))])
    end.
Proof.
  intros Hnet Hp. unfold getLawByNumber, Eff.bind.
  rewrite (searchLaws_listed parser formEncode _ net statusText xml decoded Hnet Hp).
  cbv beta iota zeta. cbn [laws].
  destruct (List.find _ (entriesOf decoded)); reflexivity.
Qed.

Lemma getLawByNumber_exact_match_witness :
  getLawByNumber listParser (js "2026-01-01T00:00:00.000Z") (fun s => s) (fun s => s)
    (js "平成十五年法律第五十八号") steadyNet
  = (Ok (noExactMatch (js "平成十五年法律第五十八号")),
     after steadyNet
       [Fetched (searchUrl (fun s => s) (byKeyword (js "平成十五年法律第五十八号")))]).
Proof.
  refine (eq_trans
            (getLawByNumber_exact_match IntNumber listParser
               (js "2026-01-01T00:00:00.000Z") (fun s => s) (fun s => s)
               (js "平成十五年法律第五十八号") (js "OK") sampleXml sampleList steadyNet _ _)
            _).
  - intros n. reflexivity.
  - reflexivity.
  - vm_compute. reflexivity.
Defined.

Example getLawByNumber_sample :
  fst (getLawByNumber listParser (js "2026-01-01T00:00:00.000Z") (fun s => s) (fun s => s)
         (js "平成十五年法律第五十七号") steadyNet)
  = fst (getLawById listParser (js "2026-01-01T00:00:00.000Z") (fun s => s)
           (js "415AC0000000057") steadyNet)
  /\ List.map isFetched
       (log (snd (getLawByNumber listParser (js "2026-01-01T00:00:00.000Z")
                    (fun s => s) (fun s => s) (js "平成十五年法律第五十七号") steadyNet)))
     = [true; true].
Proof. split; vm_compute; reflexivity. Qed.

(** ** More of the cache *)

Import Disk.

Section DiskFacts.

Context {T : Type}.

Implicit Types (st : State T) (type : category) (id : jsstring).

Ltac run :=
  unfold get, set, delete, clear, readdir, ensureInitialized, mkdir, readFile,
    writeFile, unlink, setInitialized, entryAt, Eff.bind, Eff.try_catch, Eff.ret,
    Eff.throw, Eff.gets, Eff.modify, Eff.lift in *;
  cbn [fst snd this world initialized cacheDir config now files mkdirError
       writeError unlinkError err_code errno] in *.

Lemma withFiles_same (w : World T) : withFiles w (files w) = w.
Proof. now destruct w. Qed.

(** A call that got past ensureInitialized found the directory in place. *)
Lemma ensureInitialized_Ok_ready st st1 :
  ensureInitialized st = (Ok tt, st1) -> dirReady st.
Proof.
  intros E. unfold dirReady.
  destruct (initialized (this st)) eqn:Hinit; [now left|].
  destruct (mkdirError (world st)) as [code|] eqn:Hmk; [|now right; left].
  destruct (String.eqb_spec code "EEXIST") as [->|Hne]; [now right; right|].
  rewrite (ensureInitialized_fault st code Hinit Hmk Hne) in E. discriminate.
Qed.

(** With the directory in place, [set] is two date conversions and a write. *)
Lemma set_ready st type id (data : T) :
  dirReady st ->
  exists c',
    cacheDir c' = cacheDir (this st)
    /\ config c' = config (this st)
    /\ initialized c' = true
    /\ set type id data st
       = if (Z.abs (now (world st)) <=? maxTime)%Z
            && (Z.abs (now (world st) + getTtl (this st) type) <=? maxTime)%Z
         then
           match writeError (world st)
                   (getCachePath (this st) (getCacheKey (tag type) id)) with
           | Some code => (Throw (errno code), mkState c' (world st))
           | None =>
             (Ok tt,
              mkState c'
                (withFiles (world st)
                   (<[getCachePath (this st) (getCacheKey (tag type) id)
                      := storedEntry data (now (world st)) (getTtl (this st) type)]>
                      (files (world st)))))
           end
         else (Throw RangeError, mkState c' (world st)).
Proof.
  intros Hready.
  destruct (ensureInitialized_ready st Hready) as (c' & E & Hdir & Hcfg & Hinit).
  exists c'. repeat (split; [assumption|]).
  unfold set, Eff.bind at 1. rewrite E.
  run. unfold toISOString, getCachePath, getTtl. rewrite Hdir, Hcfg.
  destruct (Z.abs (now (world st)) <=? maxTime)%Z; cbn [andb]; [|reflexivity].
  destruct (Z.abs _ <=? maxTime)%Z; [|reflexivity].
  cbv beta iota.
  destruct (writeError (world st) _); reflexivity.
Qed.

(** With the directory in place, [delete] is an [unlink] whose outcome is
    ignored. *)
Lemma delete_ready st type id :
  dirReady st ->
  exists c',
    cacheDir c' = cacheDir (this st)
    /\ config c' = config (this st)
    /\ initialized c' = true
    /\ delete type id st
       = (Ok tt,
          mkState c'
            (withFiles (world st)
               (unlinked (world st)
                  (getCachePath (this st) (getCacheKey (tag type) id))))).
Proof.
  intros Hready.
  destruct (ensureInitialized_ready st Hready) as (c' & E & Hdir & Hcfg & Hinit).
  exists c'. repeat (split; [assumption|]).
  unfold delete, Eff.bind at 1. rewrite E.
  run. unfold getCachePath, unlinked. rewrite Hdir.
  destruct (unlinkError (world st) _) as [code|];
    [now rewrite withFiles_same|].
  destruct (files (world st) !! _) eqn:Hf; [reflexivity|].
  now rewrite delete_id, withFiles_same.
Qed.

(** A call of [get] that got past ensureInitialized. *)
Lemma get_Ok_ready st st' type id (c : cached T) :
  get type id st = (Ok c, st') -> dirReady st.
Proof.
  unfold get, Eff.bind at 1.
  destruct (ensureInitialized st) as [[[]|e] st1] eqn:E; [|discriminate].
  intros _. exact (ensureInitialized_Ok_ready st st1 E).
Qed.


End DiskFacts.



(** The file of a key lies directly inside a normalized cache directory. *)
Lemma getCachePath_direct (this : Cache) (absolute : bool) (segments : list jsstring)
    (type : category) (id : jsstring) :
  segments <> [] ->
  forallb plainSegment segments = true ->
  cacheDir this = directory absolute segments ->
  getCachePath this (getCacheKey (tag type) id)
  = cacheDir this ++ js "/" ++ getCacheKey (tag type) id.
Proof.
  intros Hne Hall Hdir. unfold getCachePath. rewrite Hdir.
  apply (path_join_plain absolute segments _ 110
           (tag type ++ js "_" ++ sanitize id ++ js ".jso"));
    try assumption.
  - apply getCacheKey_plain.
  - unfold getCacheKey. rewrite <- !app_assoc. reflexivity.
  - discriminate.
Qed.

(** X11 (delete): with the cache directory in place, delete never rejects.
    The entry's file is removed; when unlink runs into a fault (or there is
    no such file) the disk is left as it was and the fault is swallowed. *)
Theorem delete_ignores_unlink_outcome (T : Type) (type : category) (id : jsstring)
    (st : State T) :
  dirReady st ->
  exists c' : Cache,
    delete type id st
    = (Ok tt,
       mkState c'
         (withFiles (world st)
            (unlinked (world st)
               (getCachePath (this st) (getCacheKey (tag type) id)))))
    /\ cacheDir c' = cacheDir (this st)
    /\ initialized c' = true.
Proof.
  intros Hready.
  destruct (delete_ready st type id Hready) as (c' & Hdir & _ & Hinit & E).
  now exists c'.
Qed.

Lemma delete_ignores_unlink_outcome_witness :
  exists c' : Cache,
    delete lawText (js "415AC0000000057") sticky
    = (Ok tt,
       mkState c'
         (withFiles (world sticky)
            (unlinked (world sticky)
               (getCachePath (this sticky)
                  (getCacheKey (tag lawText) (js "415AC0000000057"))))))
    /\ cacheDir c' = cacheDir (this sticky)
    /\ initialized c' = true.
Proof.
  refine (delete_ignores_unlink_outcome nat lawText (js "415AC0000000057") sticky _).
  left. vm_compute. reflexivity.
Defined.

Example delete_sticky :
  fst (get lawText (js "415AC0000000057")
         (snd (delete lawText (js "415AC0000000057") sticky)))
  = Ok (Hit 7%nat).
Proof. vm_compute. reflexivity. Qed.

(** X12 (delete, get): after a delete whose unlink met no fault, a get of the
    same category and identifier misses. *)
Theorem delete_then_get_misses (T : Type) (type : category) (id : jsstring)
    (st : State T) :
  dirReady st ->
  unlinkError (world st) (getCachePath (this st) (getCacheKey (tag type) id)) = None ->
  get type id (snd (delete type id st))
  = (Ok Miss, snd (delete type id st)).
Proof.
  intros Hready Hunlink.
  destruct (delete_ready st type id Hready) as (c' & Hdir & _ & Hinit & E).
  rewrite E. cbn [snd].
  rewrite get_initialized by exact Hinit.
  f_equal. f_equal. unfold entryAt, getCachePath, unlinked in *. cbn.
  rewrite Hdir, Hunlink. now rewrite lookup_delete_eq.
Qed.

Lemma delete_then_get_misses_witness :
  get lawText (js "415AC0000000057")
    (snd (delete lawText (js "415AC0000000057") stored))
  = (Ok Miss, snd (delete lawText (js "415AC0000000057") stored)).
Proof.
  refine (delete_then_get_misses nat lawText (js "415AC0000000057") stored _ _).
  - left. vm_compute. reflexivity.
  - reflexivity.
Defined.

(** X13 (getCacheKey, set, get): identifiers that differ only in units
    outside [A-Za-z0-9_-] share one entry.  A value stored under one of them
    is what a get under the other returns (for a time to live that is not
    negative). *)
Theorem set_then_get_of_colliding_id (T : Type) (type : category)
    (id1 id2 : jsstring) (data : T) (st st' : State T) :
  sanitize id1 = sanitize id2 ->
  (0 <= getTtl (this st) type)%Z ->
  set type id1 data st = (Ok tt, st') ->
  get type id2 st' = (Ok (Hit data), st').
Proof.
  intros Hsame Httl Hset.
  destruct (set_completed st st' type id1 data Hset)
    as (Hinit & Hdir & Hcfg & Hnow & Hfile).
  rewrite get_initialized by exact Hinit.
  f_equal. f_equal. unfold entryAt, getCachePath, getCacheKey in *.
  cbv zeta in *. rewrite <- Hsame, Hdir, Hfile, Hnow. cbn.
  destruct (Z.ltb_spec (now (world st) + getTtl (this st) type) (now (world st)));
    [lia|reflexivity].
Qed.

(** Two law numbers of twelve characters each. *)
Lemma set_then_get_of_colliding_id_witness :
  get lawText (js "昭和六十年法律第四十五号")
    (snd (set lawText (js "平成十五年法律第五十七号") 7%nat fresh))
  = (Ok (Hit 7%nat), snd (set lawText (js "平成十五年法律第五十七号") 7%nat fresh)).
Proof.
  refine (set_then_get_of_colliding_id nat lawText (js "平成十五年法律第五十七号")
            (js "昭和六十年法律第四十五号") 7%nat fresh _ _ _ _).
  - vm_compute. reflexivity.
  - vm_compute. discriminate.
  - vm_compute. reflexivity.
Defined.



(** X15 (set): an expiry beyond the largest time a Date can hold makes set
    reject with a RangeError, from toISOString; nothing is written. *)
Theorem set_rejects_expiry_out_of_range (T : Type) (type : category) (id : jsstring)
    (data : T) (st : State T) :
  dirReady st ->
  (maxTime < Z.abs (now (world st) + getTtl (this st) type))%Z ->
  exists c' : Cache,
    set type id data st = (Throw RangeError, mkState c' (world st)).
Proof.
  intros Hready Hlarge.
  destruct (set_ready st type id data Hready) as (c' & _ & _ & _ & E).
  exists c'. rewrite E.
  destruct (Z.leb_spec (Z.abs (now (world st) + getTtl (this st) type)) maxTime);
    [lia|].
  now rewrite andb_false_r.
Qed.

Lemma set_rejects_expiry_out_of_range_witness :
  exists c' : Cache,
    set lawText (js "415AC0000000057") 7%nat forever
    = (Throw RangeError, mkState c' (world forever)).
Proof.
  refine (set_rejects_expiry_out_of_range nat lawText (js "415AC0000000057") 7%nat
            forever _ _).
  - right. left. reflexivity.
  - vm_compute. reflexivity.
Defined.

(** X16 (ensureInitialized): the directory is created once.  After a get that
    resolved, the cache is initialized, and from then on get is a plain read
    of the entry's file: it resolves whatever has become of the disk, a
    directory that can no longer be created included. *)
Theorem get_initializes_once (T : Type) (type : category) (id : jsstring)
    (c : cached T) (st st' : State T) :
  get type id st = (Ok c, st') ->
  initialized (this st') = true
  /\ forall (type' : category) (id' : jsstring) (w : World T),
       get type' id' (mkState (this st') w)
       = (Ok (entryAt w (getCachePath (this st) (getCacheKey (tag type') id'))),
          mkState (this st') w).
Proof.
  intros Hget.
  pose proof (get_Ok_ready st st' type id c Hget) as Hready.
  destruct (get_ready st type id Hready) as (c' & E & Hdir & _ & Hinit).
  rewrite E in Hget. injection Hget as _ <-.
  split; [exact Hinit|].
  intros type' id' w. rewrite get_initialized by exact Hinit.
  unfold getCachePath. cbn [this world]. now rewrite Hdir.
Qed.

Lemma get_initializes_once_witness :
  initialized (this (snd (get lawText (js "415AC0000000057") fresh))) = true
  /\ forall (type' : category) (id' : jsstring) (w : World nat),
       get type' id' (mkState (this (snd (get lawText (js "415AC0000000057") fresh))) w)
       = (Ok (entryAt w (getCachePath (this fresh) (getCacheKey (tag type') id'))),
          mkState (this (snd (get lawText (js "415AC0000000057") fresh))) w).
Proof.
  refine (get_initializes_once nat lawText (js "415AC0000000057") Miss fresh _ _).
  vm_compute. reflexivity.
Defined.

(** *** clear *)

Section ClearFacts.

Context {T : Type}.

Implicit Types (st : State T) (type : category) (id : jsstring).

Lemma forallb_rev {A : Type} (p : A -> bool) (l : list A) :
  forallb p (rev l) = forallb p l.
Proof.
  induction l as [|x l IH]; [reflexivity|].
  cbn [rev forallb]. rewrite forallb_app, IH. cbn [forallb].
  now rewrite andb_true_r, andb_comm.
Qed.

Lemma span_while_prefix (p : N -> bool) (run : jsstring) (stop : N) (rest : jsstring) :
  forallb p run = true -> p stop = false ->
  span_while p (run ++ stop :: rest) = run.
Proof.
  intros Hrun Hstop. induction run as [|c run IH].
  - cbn. now rewrite Hstop.
  - cbn in Hrun |- *. apply andb_true_iff in Hrun as [Hc Hrun].
    now rewrite Hc, IH.
Qed.

Lemma baseName_joined (dir name : jsstring) :
  forallb (fun c => negb (c =? SLASH)) name = true ->
  baseName (dir ++ js "/" ++ name) = name.
Proof.
  intros Hfree. unfold baseName.
  change (js "/") with [SLASH].
  rewrite !rev_app_distr. cbn [rev app]. rewrite <- app_assoc. cbn [app].
  rewrite span_while_prefix; [apply rev_involutive| |reflexivity].
  now rewrite forallb_rev.
Qed.

Lemma entryName_direct (dir name : jsstring) :
  plainSegment name = true ->
  path_join dir name = dir ++ js "/" ++ name ->
  entryName dir (dir ++ js "/" ++ name) = Some name.
Proof.
  intros Hplain Hjoin. unfold entryName. cbv zeta.
  rewrite baseName_joined.
  - rewrite Hplain, Hjoin. unfold str_eqb.
    now rewrite bool_decide_eq_true_2.
  - unfold plainSegment in Hplain. now apply andb_true_iff in Hplain.
Qed.

Lemma swept_absent (err : jsstring -> option string) (paths : list jsstring)
    (fs : gmap jsstring (file T)) (p : jsstring) :
  fs !! p = None -> swept err fs paths !! p = None.
Proof.
  revert fs. induction paths as [|q paths IH]; intros fs Hp; [exact Hp|].
  cbn [swept fold_left]. apply IH.
  destruct (err q); [exact Hp|].
  destruct (decide (q = p)) as [->|Hne];
    [apply lookup_delete_eq|now rewrite lookup_delete_ne].
Qed.

Lemma swept_shrinks (err : jsstring -> option string) (paths : list jsstring)
    (fs : gmap jsstring (file T)) (p : jsstring) :
  swept err fs paths !! p = None \/ swept err fs paths !! p = fs !! p.
Proof.
  revert fs. induction paths as [|q paths IH]; intros fs; [now right|].
  cbn [swept fold_left].
  destruct (err q); [apply IH|].
  destruct (decide (q = p)) as [->|Hne].
  - left. apply swept_absent, lookup_delete_eq.
  - destruct (IH (base.delete q fs)) as [H|H]; [now left|].
    right. unfold swept in *. now rewrite H, lookup_delete_ne.
Qed.

Lemma swept_removed (err : jsstring -> option string) (paths : list jsstring)
    (fs : gmap jsstring (file T)) (p : jsstring) :
  In p paths -> err p = None -> swept err fs paths !! p = None.
Proof.
  revert fs. induction paths as [|q paths IH]; intros fs Hin Herr; [destruct Hin|].
  cbn [swept fold_left]. destruct Hin as [->|Hin].
  - rewrite Herr. apply swept_absent, lookup_delete_eq.
  - now apply IH.
Qed.

Lemma forEach_unlink (c : Cache) (dir : jsstring) (names : list jsstring)
    (w : World T) :
  forEach names
    (fun file =>
       Eff.try_catch (unlink (path_join dir file)) (fun _ => Eff.ret tt))
    (mkState c w)
  = (Ok tt,
     mkState c
       (withFiles w (swept (unlinkError w) (files w) (List.map (path_join dir) names)))).
Proof.
  revert w. induction names as [|name names IH]; intros w.
  - cbn. now destruct w.
  - cbn [forEach List.map swept fold_left]. unfold Eff.bind at 1.
    assert (E : Eff.try_catch (unlink (path_join dir name)) (fun _ => Eff.ret tt)
                  (mkState c w)
                = (Ok tt,
                   mkState c
                     (withFiles w
                        match unlinkError w (path_join dir name) with
                        | Some _ => files w
                        | None => base.delete (path_join dir name) (files w)
                        end))).
    { unfold Eff.try_catch, unlink, Eff.ret. cbn [world this].
      destruct (unlinkError w _) as [code|]; [now destruct w|].
      destruct (files w !! _) eqn:Hf; [reflexivity|].
      rewrite delete_id by exact Hf. now destruct w. }
    rewrite E, IH. reflexivity.
Qed.

(** With the directory in place, [clear] lists the directory and unlinks what
    is listed, ignoring every fault. *)
Lemma clear_ready (readdirError : option string) st :
  dirReady st ->
  exists c',
    cacheDir c' = cacheDir (this st)
    /\ initialized c' = true
    /\ clear readdirError st
       = (Ok tt,
          mkState c'
            (withFiles (world st)
               match readdirError with
               | Some _ => files (world st)
               | None =>
                 swept (unlinkError (world st)) (files (world st))
                   (List.map (path_join (cacheDir (this st)))
                      (omap (entryName (cacheDir (this st)))
                         (List.map fst (map_to_list (files (world st))))))
               end)).
Proof.
  intros Hready.
  destruct (ensureInitialized_ready st Hready) as (c' & E & Hdir & _ & Hinit).
  exists c'. repeat (split; [assumption|]).
  unfold clear, Eff.bind at 1. rewrite E.
  unfold Eff.gets, Eff.bind at 1. cbn [this].
  unfold Eff.try_catch at 1. unfold Eff.bind, readdir.
  destruct readdirError as [code|].
  - unfold Eff.ret. now rewrite withFiles_same.
  - cbn [world]. rewrite forEach_unlink, Hdir. reflexivity.
Qed.

End ClearFacts.

(** X17 (clear): with the cache directory in place, clear never rejects,
    whatever readdir and the unlink calls run into; it adds no file and
    changes none: every path is afterwards absent or holds what it held. *)
Theorem clear_never_rejects (T : Type) (readdirError : option string) (st : State T) :
  dirReady st ->
  exists st' : State T,
    clear readdirError st = (Ok tt, st')
    /\ initialized (this st') = true
    /\ forall path : jsstring,
         files (world st') !! path = None
         \/ files (world st') !! path = files (world st) !! path.
Proof.
  intros Hready.
  destruct (clear_ready readdirError st Hready) as (c' & _ & Hinit & E).
  eexists. split; [exact E|]. split; [exact Hinit|].
  intros path. cbn [world files withFiles].
  destruct readdirError; [now right|apply swept_shrinks].
Qed.

Lemma clear_never_rejects_witness :
  exists st' : State nat,
    clear (Some "ENOTDIR"%string) sticky = (Ok tt, st')
    /\ initialized (this st') = true
    /\ forall path : jsstring,
         files (world st') !! path = None
         \/ files (world st') !! path = files (world sticky) !! path.
Proof.
  refine (clear_never_rejects nat (Some "ENOTDIR"%string) sticky _).
  left. vm_compute. reflexivity.
Defined.

(** X18 (clear, get): clear empties the cache.  In a normalized cache
    directory that can be listed, and with no fault of unlink, every get
    after a clear misses. *)
Theorem clear_then_get_misses (T : Type) (type : category) (id : jsstring)
    (st : State T) (absolute : bool) (segments : list jsstring) :
  dirReady st ->
  segments <> [] ->
  forallb plainSegment segments = true ->
  cacheDir (this st) = directory absolute segments ->
  (forall path, unlinkError (world st) path = None) ->
  get type id (snd (clear None st)) = (Ok Miss, snd (clear None st)).
Proof.
  intros Hready Hne Hall Hdir Hunlink.
  destruct (clear_ready None st Hready) as (c' & Hdir' & Hinit & E).
  rewrite E. cbn [snd].
  rewrite get_initialized by exact Hinit.
  f_equal. f_equal. unfold entryAt. cbn [this world files withFiles now].
  set (path := getCachePath c' (getCacheKey (tag type) id)).
  assert (Hpath : path = cacheDir (this st) ++ js "/" ++ getCacheKey (tag type) id).
  { unfold path. rewrite <- Hdir'.
    apply (getCachePath_direct c' absolute segments); try assumption.
    now rewrite Hdir'. }
  assert (Hgone : swept (unlinkError (world st)) (files (world st))
                    (List.map (path_join (cacheDir (this st)))
                       (omap (entryName (cacheDir (this st)))
                          (List.map fst (map_to_list (files (world st))))))
                  !! path = None).
  { destruct (files (world st) !! path) as [f|] eqn:Hf;
      [|now apply swept_absent].
    apply swept_removed; [|apply Hunlink].
    apply in_map_iff. exists (getCacheKey (tag type) id). split.
    - fold (getCachePath (this st) (getCacheKey (tag type) id)).
      rewrite Hpath.
      now apply (getCachePath_direct (this st) absolute segments).
    - apply list_elem_of_In, list_elem_of_omap. exists path. split.
      + apply list_elem_of_In, in_map_iff. exists (path, f). split; [reflexivity|].
        now apply list_elem_of_In, elem_of_map_to_list.
      + rewrite Hpath. apply entryName_direct; [apply getCacheKey_plain|].
        fold (getCachePath (this st) (getCacheKey (tag type) id)).
        now apply (getCachePath_direct (this st) absolute segments). }
  now rewrite Hgone.
Qed.

Lemma clear_then_get_misses_witness :
  get lawText (js "415AC0000000057") (snd (clear None stored))
  = (Ok Miss, snd (clear None stored)).
Proof.
  refine (clear_then_get_misses nat lawText (js "415AC0000000057") stored true
            [js "home"; js "user"; js ".cache"; js "egov-law-mcp"] _ _ _ _ _).
  - left. vm_compute. reflexivity.
  - discriminate.
  - vm_compute. reflexivity.
  - vm_compute. reflexivity.
  - intros path. reflexivity.
Defined.

(** ** More of the parser *)

Section NormalizerFacts.

Lemma span_while_all (p : N -> bool) (run rest : jsstring) :
  forallb p run = true ->
  match rest with
  | [] => True
  | c :: _ => p c = false
  end ->
  span_while p (run ++ rest) = run.
Proof.
  intros Hrun Hrest. induction run as [|c run IH].
  - destruct rest as [|c rest]; [reflexivity|]. cbn. now rewrite Hrest.
  - cbn in Hrun |- *. apply andb_true_iff in Hrun as [Hc Hrun].
    now rewrite Hc, IH.
Qed.

Lemma span_while_forall (p : N -> bool) (s : jsstring) :
  forallb p (span_while p s) = true.
Proof.
  induction s as [|c s IH]; [reflexivity|].
  cbn. destruct (p c) eqn:E; [|reflexivity]. cbn. now rewrite E.
Qed.

Lemma match_digits_skip (pre s : jsstring) :
  forallb (fun c => negb (is_digit c)) pre = true ->
  match_digits (pre ++ s) = match_digits s.
Proof.
  intros Hpre. induction pre as [|c pre IH]; [reflexivity|].
  cbn in Hpre |- *. apply andb_true_iff in Hpre as [Hc Hpre].
  apply negb_true_iff in Hc. now rewrite Hc, IH.
Qed.

Lemma match_digits_run (run : jsstring) :
  run <> [] ->
  forallb is_digit run = true ->
  match_digits run = Some run.
Proof.
  intros Hne Hrun. destruct run as [|c run]; [contradiction|].
  cbn in Hrun |- *. apply andb_true_iff in Hrun as [Hc Hrun].
  rewrite Hc. f_equal. f_equal.
  rewrite <- (app_nil_r run) at 1. now apply span_while_all.
Qed.

Lemma match_digits_digits (s m : jsstring) :
  match_digits s = Some m -> m <> [] /\ forallb is_digit m = true.
Proof.
  induction s as [|c s IH]; cbn; [discriminate|].
  destruct (is_digit c) eqn:E; [|exact IH].
  intros [= <-]. split; [discriminate|].
  cbn. now rewrite E, span_while_forall.
Qed.

Lemma uint_units_digits (d : Decimal.uint) : forallb is_digit (uint_units d) = true.
Proof. induction d; cbn; [reflexivity|..]; exact IHd. Qed.

(** A string the normalizer has returned for digits is returned as it is. *)
Lemma normalizeArticleNum_digits (run : jsstring) :
  forallb is_digit run = true -> normalizeArticleNum run = run.
Proof.
  intros Hrun. destruct run as [|c run]; [reflexivity|].
  unfold normalizeArticleNum. now rewrite match_digits_run.
Qed.

End NormalizerFacts.

(** X19 (normalizeArticleNum): digits win.  A designator with an ASCII digit
    normalizes to its first run of digits, whatever stands around it: what
    follows the run, a branch number included, is dropped. *)
Theorem normalizeArticleNum_first_digit_run (pre run post : jsstring) :
  forallb (fun c => negb (is_digit c)) pre = true ->
  run <> [] ->
  forallb is_digit run = true ->
  match post with
  | [] => True
  | c :: _ => is_digit c = false
  end ->
  normalizeArticleNum (pre ++ run ++ post) = run.
Proof.
  intros Hpre Hne Hrun Hpost. unfold normalizeArticleNum.
  rewrite match_digits_skip by exact Hpre.
  destruct run as [|c run]; [contradiction|].
  cbn in Hrun |- *. apply andb_true_iff in Hrun as [Hc Hrun].
  rewrite Hc. f_equal. now apply span_while_all.
Qed.

Lemma normalizeArticleNum_first_digit_run_witness :
  normalizeArticleNum (js "第" ++ js "12" ++ js "条の3") = js "12".
Proof.
  refine (normalizeArticleNum_first_digit_run (js "第") (js "12") (js "条の3") _ _ _ _).
  - vm_compute. reflexivity.
  - vm_compute. discriminate.
  - vm_compute. reflexivity.
  - vm_compute. reflexivity.
Defined.

(** X20 (normalizeArticleNum): normalizing is idempotent.  What the
    normalizer returns, it returns unchanged when applied again; so a
    designator and its normal form find the same Article. *)
Theorem normalizeArticleNum_idempotent (articleStr : jsstring) :
  normalizeArticleNum (normalizeArticleNum articleStr)
  = normalizeArticleNum articleStr.
Proof.
  unfold normalizeArticleNum at 2 3.
  destruct (match_digits articleStr) as [numMatch|] eqn:Ed.
  - apply normalizeArticleNum_digits.
    now destruct (match_digits_digits articleStr numMatch Ed).
  - destruct (match_dai_jo articleStr) as [kanjiPart|] eqn:Ek.
    + destruct (fold_left kanjiStep (string_iterator kanjiPart) (0, 0))
        as [result temp].
      apply normalizeArticleNum_digits, uint_units_digits.
    + unfold normalizeArticleNum. now rewrite Ed, Ek.
Qed.

Section ParagraphFacts.

Context {num : JsNumber}.

Lemma fold_left_push_filter {X Y : Type} (skip : X -> bool) (f : X -> Y)
    (l : list X) (acc : list Y) :
  fold_left (fun acc x => if skip x then acc else acc ++ [f x]) l acc
  = acc ++ List.map f (List.filter (fun x => negb (skip x)) l).
Proof.
  revert acc. induction l as [|x l IH]; intros acc; cbn [fold_left List.filter List.map].
  - now rewrite app_nil_r.
  - rewrite IH. destruct (skip x); cbn [negb List.map]; [reflexivity|].
    now rewrite <- app_assoc.
Qed.

Lemma filter_map_commute {X Y : Type} (q : Y -> bool) (f : X -> Y) (l : list X) :
  List.filter q (List.map f l) = List.map f (List.filter (fun x => q (f x)) l).
Proof.
  induction l as [|x l IH]; [reflexivity|].
  cbn [List.map List.filter]. destruct (q (f x)); cbn [List.map]; now rewrite IH.
Qed.

End ParagraphFacts.

(** X23 (extractParagraphs): a paragraph filter selects, it does not
    renumber.  The call with a target paragraph returns exactly those records
    of the call without a target whose num is the target, in their order,
    where num is Number(@_Num), or 1 when that is 0 or NaN. *)
Theorem extractParagraphs_selects (num : JsNumber) (article : value)
    (targetParagraph : number) :
  extractParagraphs article (Some targetParagraph)
  = List.filter (fun para => num_strict_eq (paragraphNum para) targetParagraph)
      (extractParagraphs article None).
Proof.
  unfold extractParagraphs. cbv zeta.
  rewrite (fold_left_push_filter
             (fun para =>
                negb (num_strict_eq
                        (if num_truthy (Number_of (getProp para "@_Num"))
                         then Number_of (getProp para "@_Num")
                         else num_of_string (js "1"))
                        targetParagraph))
             (fun para =>
                mkParagraph
                  (if num_truthy (Number_of (getProp para "@_Num"))
                   then Number_of (getProp para "@_Num")
                   else num_of_string (js "1"))
                  (extractSentenceText (getProp para "ParagraphSentence"))
                  (List.map (fun item =>
                     mkItem (String_of (getProp item "@_Num"))
                            (extractSentenceText (getProp item "ItemSentence")))
                     (ensureArray (getProp para "Item"))))).
  rewrite (fold_left_push_filter (fun _ => false)
             (fun para =>
                mkParagraph
                  (if num_truthy (Number_of (getProp para "@_Num"))
                   then Number_of (getProp para "@_Num")
                   else num_of_string (js "1"))
                  (extractSentenceText (getProp para "ParagraphSentence"))
                  (List.map (fun item =>
                     mkItem (String_of (getProp item "@_Num"))
                            (extractSentenceText (getProp item "ItemSentence")))
                     (ensureArray (getProp para "Item"))))).
  cbn [app]. rewrite filter_map_commute. f_equal.
  cbn [paragraphNum negb].
  induction (ensureArray (getProp article "Paragraph")) as [|para l IH];
    [reflexivity|].
  cbn [List.filter]. rewrite IH.
  now destruct (num_strict_eq _ targetParagraph).
Qed.

Example extractParagraphs_sample :
  List.map paragraphContent (extractParagraphs twoParagraphs (Some (Some 2%Z)))
  = [js "この法律において「個人識別符号」とは"].
Proof. vm_compute. reflexivity. Qed.

(** ** Markdown *)

Import Markdown.

Section JoinFacts.

Lemma join_cons_cons (sep a b : jsstring) (l : list jsstring) :
  join sep (a :: b :: l) = a ++ sep ++ join sep (b :: l).
Proof. reflexivity. Qed.

Lemma join_app (sep : jsstring) (l1 l2 : list jsstring) :
  l1 <> [] -> l2 <> [] ->
  join sep (l1 ++ l2) = join sep l1 ++ sep ++ join sep l2.
Proof.
  intros H1 H2. induction l1 as [|a l1 IH]; [contradiction|].
  destruct l1 as [|b l1].
  - destruct l2 as [|c l2]; [contradiction|]. reflexivity.
  - cbn [app] in *. rewrite !join_cons_cons, IH by discriminate.
    now rewrite <- !app_assoc.
Qed.

(** An element that is itself a joined group reads like the group's
    elements. *)
Lemma join_group (sep : jsstring) (group rest : list jsstring) :
  group <> [] ->
  join sep (join sep group :: rest) = join sep (group ++ rest).
Proof.
  intros Hg. destruct rest as [|r rest].
  - now rewrite app_nil_r.
  - rewrite join_cons_cons, join_app by (assumption || discriminate). reflexivity.
Qed.

End JoinFacts.

(** Induction on a table of contents: an entry holds the property when its
    children do. *)
Lemma TocItem_nested_ind (P : TocItem -> Prop) :
  (forall title ref, P (mkTocItem title ref None)) ->
  (forall title ref entries,
     Forall P entries -> P (mkTocItem title ref (Some entries))) ->
  forall item, P item.
Proof.
  intros Hnone Hsome. fix IH 1. intros [title ref [entries|]].
  - apply Hsome. induction entries as [|entry entries IHentries].
    + constructor.
    + constructor; [apply IH|exact IHentries].
  - apply Hnone.
Qed.

Lemma tocEntryLines_nonempty (level : nat) (item : TocItem) :
  tocEntryLines level item <> [].
Proof. now destruct item. Qed.

Lemma flat_map_nonempty {X Y : Type} (f : X -> list Y) (x : X) (l : list X) :
  f x <> [] -> flat_map f (x :: l) <> [].
Proof. cbn. destruct (f x); [contradiction|discriminate]. Qed.

Section JoinsLike.

Context (sep : jsstring).

Lemma joins_like_refl (l : list jsstring) : joins_like sep l l.
Proof. now intros front rest. Qed.

Lemma joins_like_app (l1 l1' l2 l2' : list jsstring) :
  joins_like sep l1 l1' -> joins_like sep l2 l2' ->
  joins_like sep (l1 ++ l2) (l1' ++ l2').
Proof.
  intros H1 H2 front rest.
  rewrite <- !(app_assoc l1), (H1 front (l2 ++ rest)).
  rewrite !(app_assoc front l1'), (H2 (front ++ l1') rest).
  now rewrite <- !app_assoc.
Qed.

Lemma joins_like_group (group : list jsstring) :
  group <> [] -> joins_like sep [join sep group] group.
Proof.
  intros Hg front rest. cbn [app].
  destruct front as [|f0 front].
  - cbn [app]. now apply join_group.
  - rewrite !(join_app sep (f0 :: front)); try discriminate.
    + now rewrite join_group.
    + destruct group; [contradiction|discriminate].
Qed.

Lemma joins_like_flat_map {X : Type} (f g : X -> list jsstring) (l : list X) :
  Forall (fun x => joins_like sep (f x) (g x)) l ->
  joins_like sep (flat_map f l) (flat_map g l).
Proof.
  induction 1 as [|x l Hx _ IH]; [apply joins_like_refl|].
  cbn [flat_map]. now apply joins_like_app.
Qed.

Lemma joins_like_join (l l' : list jsstring) :
  joins_like sep l l' -> join sep l = join sep l'.
Proof.
  intros H. specialize (H [] []). now rewrite !app_nil_r in H.
Qed.

End JoinsLike.

Lemma tocPushed_lines (item : TocItem) :
  forall level : nat,
    joins_like nl (tocPushed level item) (tocEntryLines level item).
Proof.
  induction item as [title ref|title ref entries IH] using TocItem_nested_ind;
    intros level; [apply joins_like_refl|].
  assert (Hall : joins_like nl (flat_map (tocPushed (S level)) entries)
                   (flat_map (tocEntryLines (S level)) entries)).
  { apply joins_like_flat_map, List.Forall_forall. intros entry Hin.
    rewrite List.Forall_forall in IH. now apply IH. }
  cbn [tocPushed tocEntryLines].
  destruct entries as [|entry entries]; [apply joins_like_refl|].
  apply (joins_like_app nl [_] [_]); [apply joins_like_refl|].
  rewrite (joins_like_join nl _ _ Hall).
  apply joins_like_group, flat_map_nonempty, tocEntryLines_nonempty.
Qed.

(** X21 (tocToMarkdown): the rendering of a table of contents is one line per
    entry, joined by line feeds: each entry before its children, the children
    in their order, a line indented by two spaces for every level of nesting;
    an entry whose list of children is empty is rendered like one without
    children. *)
Theorem tocToMarkdown_one_line_per_entry (toc : list TocItem) (level : nat) :
  tocToMarkdown toc level = join nl (flat_map (tocEntryLines level) toc).
Proof.
  unfold tocToMarkdown. apply joins_like_join, joins_like_flat_map.
  apply List.Forall_forall. intros item _. apply tocPushed_lines.
Qed.

Example tocToMarkdown_sample :
  tocToMarkdown sampleToc 0
  = js "- 第一章 総則 (第1)" ++ nl
    ++ js "  - 第一条 (第1)" ++ nl
    ++ js "  - 第二条 (第2)" ++ nl
    ++ js "- 第二章 雑則 (第2)".
Proof. vm_compute. reflexivity. Qed.

(** X22 (parseArticle, articleToMarkdown): the heading of an article without
    a title.  parseArticle keeps the designator as it was given as
    articleNum, and articleToMarkdown wraps articleNum in 第...条 when the
    article has no title (or an empty one): for a designator written 第三条
    the heading line is ## 第第三条条. *)
Theorem articleToMarkdown_untitled_heading (num : JsNumber) (parser : XMLParser)
    (xml targetArticle : jsstring) (targetParagraph : option number)
    (found : Article) :
  parseArticle parser xml targetArticle targetParagraph = Ok (Some found) ->
  given (articleTitle found) = None ->
  exists rest : jsstring,
    articleToMarkdown found
    = js "## " ++ (js "第" ++ targetArticle ++ js "条") ++ nl ++ rest.
Proof.
  intros Hfound Htitle.
  assert (Hnum : articleNum found = targetArticle).
  { unfold parseArticle in Hfound.
    destruct (parser xml) as [decoded|e]; [|discriminate].
    cbv zeta in Hfound.
    destruct (if_truthy _) as [article|]; [|discriminate].
    now injection Hfound as <-. }
  unfold articleToMarkdown, articleHeadingTitle. cbv zeta. rewrite Hnum.
  unfold given in Htitle.
  eexists. cbn [app]. rewrite join_cons_cons.
  destruct (articleTitle found) as [title|].
  - destruct (str_eqb title []); [|discriminate].
    rewrite <- !app_assoc. reflexivity.
  - rewrite <- !app_assoc. reflexivity.
Qed.

Lemma articleToMarkdown_untitled_heading_witness :
  exists (found : Article (num := IntNumber)),
    parseArticle untitledParser sampleXml (js "第三条") None = Ok (Some found)
    /\ exists rest : jsstring,
         articleToMarkdown found
         = js "## " ++ (js "第" ++ js "第三条" ++ js "条") ++ nl ++ rest.
Proof.
  eexists. split.
  - vm_compute. reflexivity.
  - refine (articleToMarkdown_untitled_heading IntNumber untitledParser sampleXml
              (js "第三条") None _ _ _).
    + vm_compute. reflexivity.
    + reflexivity.
Defined.

Example articleToMarkdown_untitled_sample :
  exists found,
    parseArticle untitledParser sampleXml (js "第三条") None = Ok (Some found)
    /\ articleToMarkdown found
       = js "## 第第三条条" ++ nl ++ nl
         ++ js "**第3条**" ++ nl ++ nl ++ js "報告" ++ nl ++ nl
         ++ js "### 項の詳細" ++ nl ++ nl
         ++ js "**第1項**" ++ nl ++ nl ++ js "報告" ++ nl.
Proof. eexists. split; vm_compute; reflexivity. Qed.

(** ** The tools *)

Section ToolFacts.

Import Tools.

Lemma drop_while_all (p : N -> bool) (s : jsstring) :
  forallb p s = true -> drop_while p s = [].
Proof.
  induction s as [|c s IH]; [reflexivity|].
  cbn. intros H. apply andb_true_iff in H as [Hc Hs]. now rewrite Hc, IH.
Qed.

Lemma trim_blank (s : jsstring) :
  forallb is_white_space s = true -> trim s = [].
Proof. intros H. unfold trim. now rewrite (drop_while_all _ s H). Qed.

(** Two identifiers with the same safe form have the same file. *)
Lemma getCacheKey_sanitized (type : category) (id1 id2 : jsstring) :
  sanitize id1 = sanitize id2 ->
  getCacheKey (tag type) id1 = getCacheKey (tag type) id2.
Proof. intros H. unfold getCacheKey. cbv zeta. now rewrite H. Qed.

Context {T : Type}.

(** On an initialized cache, a [get] right after a completed [set] under a
    colliding identifier is a hit. *)
Lemma set_then_get_hit (type : category) (id1 id2 : jsstring) (data : T)
    (st st' : State T) :
  sanitize id1 = sanitize id2 ->
  (0 <= getTtl (this st) type)%Z ->
  set type id1 data st = (Ok tt, st') ->
  get type id2 st' = (Ok (Hit data), st').
Proof.
  intros Hsame Httl Hset.
  destruct (set_completed st st' type id1 data Hset)
    as (Hinit & Hdir & Hcfg & Hnow & Hfile).
  rewrite get_initialized by exact Hinit.
  rewrite <- (getCacheKey_sanitized type id1 id2 Hsame).
  f_equal. f_equal. unfold entryAt, getCachePath in *.
  rewrite Hdir, Hfile, Hnow. cbn.
  destruct (Z.ltb_spec (now (world st) + getTtl (this st) type) (now (world st)));
    [lia|reflexivity].
Qed.

(** A [get] that resolved can be repeated, under a colliding identifier too:
    it answers the same and changes nothing any more. *)
Lemma get_again (type : category) (id1 id2 : jsstring) (c : cached T)
    (st st' : State T) :
  sanitize id1 = sanitize id2 ->
  get type id1 st = (Ok c, st') ->
  get type id2 st' = (Ok c, st')
  /\ world st' = world st
  /\ cacheDir (this st') = cacheDir (this st)
  /\ config (this st') = config (this st)
  /\ initialized (this st') = true.
Proof.
  intros Hsame Hget.
  pose proof (get_Ok_ready st st' type id1 c Hget) as Hready.
  destruct (get_ready st type id1 Hready) as (c' & E & Hdir & Hcfg & Hinit).
  rewrite E in Hget. injection Hget as <- <-.
  split; [|now repeat split].
  rewrite get_initialized by exact Hinit.
  rewrite <- (getCacheKey_sanitized type id1 id2 Hsame).
  unfold getCachePath. cbn [this world]. now rewrite Hdir.
Qed.

End ToolFacts.

(** X24 (tools/searchLaws): a keyword that is empty or consists of white
    space only is refused with INVALID_PARAMS before the cache or the network
    is touched. *)
Theorem searchLaws_tool_blank_keyword (num : JsNumber) (parser : XMLParser)
    (formEncode : jsstring -> jsstring) (keyword : jsstring)
    (category : option LawCategory) (env : Tools.Env SearchResult) :
  forallb Tools.is_white_space keyword = true ->
  Tools.searchLaws parser formEncode keyword category env
  = (Ok (Tools.failed (js "INVALID_PARAMS") (js "検索キーワードを指定してください")), env).
Proof.
  intros Hblank. unfold Tools.searchLaws.
  rewrite (trim_blank keyword Hblank).
  replace (str_eqb [] []) with true by reflexivity.
  now rewrite orb_true_r.
Qed.

Lemma searchLaws_tool_blank_keyword_witness :
  Tools.searchLaws listParser (fun s => s) (js "　 ") None Tools.sampleEnv
  = (Ok (Tools.failed (js "INVALID_PARAMS") (js "検索キーワードを指定してください")),
     Tools.sampleEnv).
Proof.
  refine (searchLaws_tool_blank_keyword IntNumber listParser (fun s => s) (js "　 ")
            None Tools.sampleEnv _).
  vm_compute. reflexivity.
Defined.

(** X25 (tools/searchLaws): a search that succeeded is answered from the
    cache from then on.  A second search whose cache key has the same safe
    form (the same keyword and category, but also any other keyword that
    differs only in units outside [A-Za-z0-9_-]) returns the result of the
    first one without any request and changes nothing. *)
Theorem searchLaws_tool_repeatable (num : JsNumber) (parser : XMLParser)
    (formEncode : jsstring -> jsstring) (keyword1 keyword2 : jsstring)
    (category1 category2 : option LawCategory) (r : Tools.ToolResult SearchResult)
    (env env1 : Tools.Env SearchResult) :
  Tools.searchLaws parser formEncode keyword1 category1 env = (Ok r, env1) ->
  Tools.success r = true ->
  sanitize (Tools.searchCacheKey keyword1 category1)
  = sanitize (Tools.searchCacheKey keyword2 category2) ->
  Tools.trim keyword2 <> [] ->
  (0 <= lawListTtl (config (this (Tools.cache env))))%Z ->
  Tools.searchLaws parser formEncode keyword2 category2 env1 = (Ok r, env1).
Proof.
  intros H1 Hs Hkey Hk2 Httl.
  assert (B2 : str_eqb keyword2 [] || str_eqb (Tools.trim keyword2) [] = false).
  { apply orb_false_iff. unfold str_eqb. split; apply bool_decide_eq_false_2.
    - intros ->. now apply Hk2.
    - exact Hk2. }
  unfold Tools.searchLaws in *. rewrite B2.
  destruct (str_eqb keyword1 [] || str_eqb (Tools.trim keyword1) []).
  { unfold Eff.ret in H1. injection H1 as <- <-. discriminate Hs. }
  unfold Eff.bind at 1 in H1. unfold Tools.onCache at 1 in H1.
  destruct (get lawList (Tools.searchCacheKey keyword1 category1) (Tools.cache env))
    as [[c|e] st1] eqn:G1; [|discriminate H1].
  destruct (get_again lawList _ _ c _ st1 Hkey G1)
    as (G2 & Hw & Hdir & Hcfg & Hinit).
  assert (Hhit : forall (st0 : State SearchResult) (d : SearchResult),
            get lawList (Tools.searchCacheKey keyword2 category2) st0
            = (Ok (Hit d), st0) ->
            forall net,
              (let* cached := Tools.onCache
                                (get lawList (Tools.searchCacheKey keyword2 category2)) in
               match cached with
               | Hit cached =>
                 Eff.ret (Tools.mkToolResult true (searchResultToMarkdown (laws cached))
                            (Some cached))
               | _ =>
                 let* result :=
                   Tools.onClient
                     (LawList.searchLaws parser formEncode
                        (mkSearchParams (Some keyword2) category2 None None None)) in
                 match result with
                 | Failure code message => Eff.ret (Tools.failed (js code) message)
                 | Success data =>
                   Tools.onCache
                     (set lawList (Tools.searchCacheKey keyword2 category2) data) ;;;
                   Eff.ret (Tools.mkToolResult true (searchResultToMarkdown (laws data))
                              (Some data))
                 end
               end) (Tools.mkEnv st0 net)
              = (Ok (Tools.mkToolResult true (searchResultToMarkdown (laws d)) (Some d)),
                 Tools.mkEnv st0 net)).
  { intros st0 d Hd net. unfold Eff.bind at 1. unfold Tools.onCache at 1.
    cbn [Tools.cache Tools.network]. now rewrite Hd. }
  destruct c as [d| |].
  1: { unfold Eff.ret in H1. injection H1 as <- <-. now apply Hhit. }
  all: unfold Eff.bind at 1 in H1; unfold Tools.onClient at 1 in H1;
    cbn [Tools.cache Tools.network] in H1;
    destruct (LawList.searchLaws parser formEncode _ (Tools.network env))
      as [[[data|code message]|e] net1];
    [ | unfold Eff.ret in H1; injection H1 as <- <-; discriminate Hs
      | discriminate H1 ];
    unfold Eff.bind at 1 in H1; unfold Tools.onCache at 1 in H1;
    cbn [Tools.cache Tools.network] in H1;
    destruct (set lawList (Tools.searchCacheKey keyword1 category1) data st1)
      as [[[]|e] st2] eqn:Hset; [|discriminate H1];
    unfold Eff.ret in H1; injection H1 as <- <-;
    apply Hhit;
    apply (set_then_get_hit lawList (Tools.searchCacheKey keyword1 category1) _
             data st1 st2 Hkey); [|exact Hset];
    unfold getTtl; now rewrite Hcfg.
Qed.

Lemma searchLaws_tool_repeatable_witness :
  exists r : Tools.ToolResult SearchResult,
    fst Tools.firstSearch = Ok r
    /\ Tools.searchLaws listParser (fun s => s) (js "労働基準") None
         (snd Tools.firstSearch)
       = (Ok r, snd Tools.firstSearch).
Proof.
  eexists. split; [vm_compute; reflexivity|].
  refine (searchLaws_tool_repeatable IntNumber listParser (fun s => s)
            (js "個人情報") (js "労働基準") None None _ Tools.sampleEnv _ _ _ _ _ _).
  - vm_compute. reflexivity.
  - reflexivity.
  - vm_compute. reflexivity.
  - vm_compute. discriminate.
  - vm_compute. discriminate.
Defined.

Section LawTextToolFacts.

Context {num : JsNumber}.
Context (parser : XMLParser) (clock : jsstring)
        (encodeURIComponent formEncode : jsstring -> jsstring).

(** However a failure is answered, no data is returned and the cache is not
    touched. *)
Lemma afterFailure_outcome (law_id law_number : option jsstring) (code : string)
    (message : jsstring) (r : Tools.ToolResult LawText) (env env1 : Tools.Env LawText) :
  Tools.afterFailure parser formEncode law_id law_number code message env = (Ok r, env1) ->
  Tools.success r = false
  /\ Tools.data r = None
  /\ Tools.cache env1 = Tools.cache env.
Proof.
  unfold Tools.afterFailure.
  destruct (String.eqb code "NOT_FOUND").
  - unfold Eff.bind, Tools.onClient.
    destruct (findSimilarLaws parser formEncode _ (Tools.network env))
      as [[[found|code' message']|e] net1]; cbn [Tools.cache Tools.network].
    + destruct (laws found); unfold Eff.ret; intros [= <- <-]; now repeat split.
    + unfold Eff.ret. intros [= <- <-]. now repeat split.
    + discriminate.
  - unfold Eff.ret. intros [= <- <-]. now repeat split.
Qed.

(** With the law text in the cache, the tool answers from it. *)
Lemma getLawText_tool_hit (law_id law_number : option jsstring) (d : LawText)
    (env : Tools.Env LawText) (st1 : State LawText) :
  given law_id <> None \/ given law_number <> None ->
  get lawText (Tools.lawCacheKey law_id law_number) (Tools.cache env)
  = (Ok (Hit d), st1) ->
  Tools.getLawText parser clock encodeURIComponent formEncode law_id law_number env
  = (Ok (Tools.mkToolResult true (lawTextToMarkdown d) (Some d)),
     Tools.mkEnv st1 (Tools.network env)).
Proof.
  intros Hgiven Hget. unfold Tools.getLawText.
  destruct (given law_id) as [id|] eqn:Ei, (given law_number) as [number|] eqn:En;
    try (unfold Eff.bind at 1; unfold Tools.onCache at 1; now rewrite Hget).
  now destruct Hgiven.
Qed.

End LawTextToolFacts.

(** X26 (tools/getLawText): a request that fails writes nothing.  Whenever
    the tool resolves without success (invalid parameters, a failure of the
    client, suggestions of similar laws), the files of the cache are what
    they were. *)
Theorem getLawText_tool_failure_writes_nothing (num : JsNumber) (parser : XMLParser)
    (clock : jsstring) (encodeURIComponent formEncode : jsstring -> jsstring)
    (law_id law_number : option jsstring) (r : Tools.ToolResult LawText)
    (env env1 : Tools.Env LawText) :
  Tools.getLawText parser clock encodeURIComponent formEncode law_id law_number env
  = (Ok r, env1) ->
  Tools.success r = false ->
  world (Tools.cache env1) = world (Tools.cache env).
Proof.
  intros H1 Hs. unfold Tools.getLawText in H1.
  assert (Hrun :
    (let* cached := Tools.onCache
                      (get lawText (Tools.lawCacheKey law_id law_number)) in
     match cached with
     | Hit cached =>
       Eff.ret (Tools.mkToolResult true (lawTextToMarkdown cached) (Some cached))
     | _ =>
       let* result :=
         match given law_id with
         | Some id => Tools.onClient (getLawById parser clock encodeURIComponent id)
         | None =>
           Tools.onClient
             (getLawByNumber parser clock encodeURIComponent formEncode
                (Tools.lawCacheKey None law_number))
         end in
       match result with
       | Failure code message =>
         Tools.afterFailure parser formEncode law_id law_number code message
       | Success data =>
         Tools.onCache (set lawText (Tools.lawCacheKey law_id law_number) data) ;;;
         (match given law_number with
          | Some number =>
            if negb (str_eqb (Parser.lawId data) [])
               && negb (str_eqb (Parser.lawId data) number)
            then Tools.onCache (set lawText (Parser.lawId data) data)
            else Eff.ret tt
          | None => Eff.ret tt
          end) ;;;
         Eff.ret (Tools.mkToolResult true (lawTextToMarkdown data) (Some data))
       end
     end) env = (Ok r, env1) ->
    world (Tools.cache env1) = world (Tools.cache env)).
  { clear H1. intros H1.
    unfold Eff.bind at 1 in H1. unfold Tools.onCache at 1 in H1.
    pose proof (get_world (Tools.cache env) lawText
                  (Tools.lawCacheKey law_id law_number)) as Hw.
    destruct (get lawText (Tools.lawCacheKey law_id law_number) (Tools.cache env))
      as [[c|e] st1]; [|discriminate H1].
    cbn [snd] in Hw.
    assert (Hclient : forall (m : Eff.M Net (ApiResponse LawText)),
      (let* result := Tools.onClient m in
       match result with
       | Failure code message =>
         Tools.afterFailure parser formEncode law_id law_number code message
       | Success data =>
         Tools.onCache (set lawText (Tools.lawCacheKey law_id law_number) data) ;;;
         (match given law_number with
          | Some number =>
            if negb (str_eqb (Parser.lawId data) [])
               && negb (str_eqb (Parser.lawId data) number)
            then Tools.onCache (set lawText (Parser.lawId data) data)
            else Eff.ret tt
          | None => Eff.ret tt
          end) ;;;
         Eff.ret (Tools.mkToolResult true (lawTextToMarkdown data) (Some data))
       end) (Tools.mkEnv st1 (Tools.network env)) = (Ok r, env1) ->
      world (Tools.cache env1) = world (Tools.cache env)).
    { intros m H2. unfold Eff.bind at 1 in H2. unfold Tools.onClient at 1 in H2.
      cbn [Tools.cache Tools.network] in H2.
      destruct (m (Tools.network env)) as [[[data|code message]|e] net1];
        [| |discriminate H2].
      - exfalso. unfold Eff.bind at 1 in H2. unfold Tools.onCache at 1 in H2.
        cbn [Tools.cache Tools.network] in H2.
        destruct (set lawText _ data st1) as [[[]|e] st2]; [|discriminate H2].
        unfold Eff.bind at 1 in H2.
        destruct (given law_number) as [number|].
        + destruct (negb (str_eqb (Parser.lawId data) [])
                    && negb (str_eqb (Parser.lawId data) number)).
          * unfold Tools.onCache at 1 in H2. cbn [Tools.cache Tools.network] in H2.
            destruct (set lawText _ data st2) as [[[]|e] st3]; [|discriminate H2].
            unfold Eff.ret in H2. injection H2 as <- <-. discriminate Hs.
          * unfold Eff.ret in H2. injection H2 as <- <-. discriminate Hs.
        + unfold Eff.ret in H2. injection H2 as <- <-. discriminate Hs.
      - apply afterFailure_outcome in H2 as (_ & _ & ->).
        cbn [Tools.cache]. exact Hw. }
    destruct c as [d| |].
    - unfold Eff.ret in H1. injection H1 as <- <-. discriminate Hs.
    - destruct (given law_id); now apply Hclient in H1.
    - destruct (given law_id); now apply Hclient in H1. }
  destruct (given law_id), (given law_number); try (now apply Hrun).
  unfold Eff.ret in H1. now injection H1 as <- <-.
Qed.

Lemma getLawText_tool_failure_writes_nothing_witness :
  world (Tools.cache
           (snd (Tools.getLawText listParser (js "2026-01-01T00:00:00.000Z")
                   (fun s => s) (fun s => s) None
                   (Some (js "平成十五年法律第五十八号")) Tools.sampleEnv)))
  = world (Tools.cache (Tools.sampleEnv (T := LawText))).
Proof.
  refine (getLawText_tool_failure_writes_nothing IntNumber listParser
            (js "2026-01-01T00:00:00.000Z") (fun s => s) (fun s => s) None
            (Some (js "平成十五年法律第五十八号")) _ Tools.sampleEnv _ _ _).
  - vm_compute. reflexivity.
  - reflexivity.
Defined.

(** X27 (tools/getLawText): a law text fetched by its number is stored under
    the number and under its law ID.  After such a request, a request by the
    law ID of the text is answered from the cache, with the same result,
    without any request and without changing anything. *)
Theorem getLawText_tool_by_number_then_by_id (num : JsNumber) (parser : XMLParser)
    (clock : jsstring) (encodeURIComponent formEncode : jsstring -> jsstring)
    (number : jsstring) (r : Tools.ToolResult LawText) (d : LawText)
    (env env1 : Tools.Env LawText) :
  Tools.getLawText parser clock encodeURIComponent formEncode None (Some number) env
  = (Ok r, env1) ->
  Tools.data r = Some d ->
  (forall cached : LawText,
     fst (get lawText number (Tools.cache env)) <> Ok (Hit cached)) ->
  Parser.lawId d <> [] ->
  (0 <= lawTextTtl (config (this (Tools.cache env))))%Z ->
  Tools.getLawText parser clock encodeURIComponent formEncode
    (Some (Parser.lawId d)) None env1
  = (Ok r, env1).
Proof.
  intros H1 Hd Hmiss Hid Httl.
  assert (Hgiven : given (Some (Parser.lawId d)) = Some (Parser.lawId d)).
  { unfold given, str_eqb. now rewrite bool_decide_eq_false_2. }
  unfold Tools.getLawText in H1. cbn [given] in H1.
  destruct (str_eqb number []) eqn:Enum.
  { unfold Eff.ret in H1. injection H1 as <- <-. discriminate Hd. }
  cbn [Tools.lawCacheKey] in H1.
  unfold Eff.bind at 1 in H1. unfold Tools.onCache at 1 in H1.
  destruct (get lawText number (Tools.cache env)) as [[c|e] st1] eqn:G1;
    [|discriminate H1].
  destruct (get_again lawText number number c _ st1 eq_refl G1)
    as (_ & Hw & Hdir & Hcfg & Hinit).
  assert (Hrest :
    (let* result :=
       Tools.onClient
         (getLawByNumber parser clock encodeURIComponent formEncode number) in
     match result with
     | Failure code message =>
       Tools.afterFailure parser formEncode None (Some number) code message
     | Success data =>
       Tools.onCache (set lawText number data) ;;;
       (if negb (str_eqb (Parser.lawId data) [])
           && negb (str_eqb (Parser.lawId data) number)
        then Tools.onCache (set lawText (Parser.lawId data) data)
        else Eff.ret tt) ;;;
       Eff.ret (Tools.mkToolResult true (lawTextToMarkdown data) (Some data))
     end) (Tools.mkEnv st1 (Tools.network env)) = (Ok r, env1) ->
    Tools.getLawText parser clock encodeURIComponent formEncode
      (Some (Parser.lawId d)) None env1
    = (Ok r, env1)).
  { clear H1. intros H1.
    unfold Eff.bind at 1 in H1. unfold Tools.onClient at 1 in H1.
    cbn [Tools.cache Tools.network] in H1.
    destruct (getLawByNumber parser clock encodeURIComponent formEncode number
                (Tools.network env)) as [[[data|code message]|e] net1];
      [| |discriminate H1].
    2: { apply afterFailure_outcome in H1 as (_ & Hnone & _).
         rewrite Hnone in Hd. discriminate Hd. }
    unfold Eff.bind at 1 in H1. unfold Tools.onCache at 1 in H1.
    cbn [Tools.cache Tools.network] in H1.
    destruct (set lawText number data st1) as [[[]|e] st2] eqn:S1; [|discriminate H1].
    destruct (set_completed st1 st2 lawText number data S1)
      as (Hinit2 & Hdir2 & Hcfg2 & _).
    unfold Eff.bind at 1 in H1.
    destruct (negb (str_eqb (Parser.lawId data) [])
              && negb (str_eqb (Parser.lawId data) number)) eqn:Eboth.
    - unfold Tools.onCache at 1 in H1. cbn [Tools.cache Tools.network] in H1.
      destruct (set lawText (Parser.lawId data) data st2) as [[[]|e] st3] eqn:S2;
        [|discriminate H1].
      unfold Eff.ret in H1. injection H1 as <- <-.
      cbn [Tools.data] in Hd. injection Hd as <-.
      apply (getLawText_tool_hit parser clock encodeURIComponent formEncode
               (Some (Parser.lawId data)) None data (Tools.mkEnv st3 net1) st3).
      + left. now rewrite Hgiven.
      + cbn [Tools.lawCacheKey Tools.cache].
        apply (set_then_get_hit lawText (Parser.lawId data) (Parser.lawId data)
                 data st2 st3 eq_refl); [|exact S2].
        unfold getTtl. now rewrite Hcfg2, Hcfg.
    - unfold Eff.ret in H1. injection H1 as <- <-.
      cbn [Tools.data] in Hd. injection Hd as <-.
      assert (Esame : Parser.lawId data = number).
      { apply andb_false_iff in Eboth as [E|E]; apply negb_false_iff in E;
          unfold str_eqb in E; apply bool_decide_eq_true_1 in E; [contradiction|exact E]. }
      apply (getLawText_tool_hit parser clock encodeURIComponent formEncode
               (Some (Parser.lawId data)) None data (Tools.mkEnv st2 net1) st2).
      + left. now rewrite Hgiven.
      + cbn [Tools.lawCacheKey Tools.cache]. rewrite Esame.
        apply (set_then_get_hit lawText number number data st1 st2 eq_refl);
          [|exact S1].
        unfold getTtl. now rewrite Hcfg. }
  destruct c as [cached| |].
  - exfalso. apply (Hmiss cached). reflexivity.
  - exact (Hrest H1).
  - exact (Hrest H1).
Qed.

Lemma getLawText_tool_by_number_then_by_id_witness :
  exists r : Tools.ToolResult LawText,
    fst Tools.firstByNumber = Ok r
    /\ Tools.getLawText Tools.routedParser (js "2026-01-01T00:00:00.000Z")
         (fun s => s) (fun s => s) (Some (js "415AC0000000057")) None
         (snd Tools.firstByNumber)
       = (Ok r, snd Tools.firstByNumber).
Proof.
  eexists. split; [vm_compute; reflexivity|].
  refine (getLawText_tool_by_number_then_by_id IntNumber Tools.routedParser
            (js "2026-01-01T00:00:00.000Z") (fun s => s) (fun s => s)
            (js "平成十五年法律第五十七号") _
            (mkLawText (js "415AC0000000057") (js "平成十五年法律第五十七号")
               (js "個人情報の保護に関する法律")
               (js "## 附則" ++ nl ++ nl ++ js "### 附　則" ++ nl)
               [] (js "2026-01-01T00:00:00.000Z"))
            Tools.routedEnv _ _ _ _ _ _).
  - vm_compute. reflexivity.
  - vm_compute. reflexivity.
  - intros cached. vm_compute. discriminate.
  - vm_compute. discriminate.
  - vm_compute. discriminate.
Defined.

(** X28 (tools/getArticle): the tool reads the cache although it makes no
    use of what it reads.  When the cache directory cannot be created, the
    tool rejects with the error of mkdir before any request is made. *)
Theorem getArticle_tool_needs_cache_directory (num : JsNumber) (parser : XMLParser)
    (clock : jsstring) (encodeURIComponent : jsstring -> jsstring)
    (law_id article : jsstring) (paragraph : option number) (code : string)
    (env : Tools.Env LawText) :
  law_id <> [] ->
  article <> [] ->
  initialized (this (Tools.cache env)) = false ->
  mkdirError (world (Tools.cache env)) = Some code ->
  code <> "EEXIST"%string ->
  Tools.getArticle parser clock encodeURIComponent law_id article paragraph env
  = (Throw (errno code), env).
Proof.
  intros Hid Harticle Hinit Hmk Hcode. unfold Tools.getArticle, str_eqb.
  rewrite !bool_decide_eq_false_2 by assumption.
  unfold Eff.bind at 1. unfold Tools.onCache at 1.
  unfold get, Eff.bind at 1.
  rewrite (ensureInitialized_fault (Tools.cache env) code Hinit Hmk Hcode).
  now destruct env.
Qed.

Lemma getArticle_tool_needs_cache_directory_witness :
  Tools.getArticle sampleParser (js "2026-01-01T00:00:00.000Z") (fun s => s)
    (js "415AC0000000057") (js "第二十条") None Tools.deniedEnv
  = (Throw (errno "EACCES"), Tools.deniedEnv).
Proof.
  refine (getArticle_tool_needs_cache_directory IntNumber sampleParser
            (js "2026-01-01T00:00:00.000Z") (fun s => s)
            (js "415AC0000000057") (js "第二十条") None "EACCES" Tools.deniedEnv
            _ _ _ _ _).
  - vm_compute. discriminate.
  - vm_compute. discriminate.
  - reflexivity.
  - reflexivity.
  - discriminate.
Defined.

(** X29 (tools/getArticle): with the cache directory in place, the tool
    answers from the network alone.  Its result is the rendering of what
    client.getArticle resolves to, whatever the cache holds, a cached text of
    the law included, and the files of the cache are left as they are. *)
Theorem getArticle_tool_mirrors_client (num : JsNumber) (parser : XMLParser)
    (clock : jsstring) (encodeURIComponent : jsstring -> jsstring)
    (law_id article : jsstring) (paragraph : option number)
    (env : Tools.Env LawText) :
  law_id <> [] ->
  article <> [] ->
  dirReady (Tools.cache env) ->
  exists st' : State LawText,
    Tools.getArticle parser clock encodeURIComponent law_id article paragraph env
    = (match fst (Client.getArticle parser clock encodeURIComponent
                    law_id article paragraph (Tools.network env)) with
       | Ok (Success found) =>
         Ok (Tools.mkToolResult true (articleToMarkdown found) (Some found))
       | Ok (Failure code message) => Ok (Tools.failed (js code) message)
       | Throw e => Throw e
       end,
       Tools.mkEnv st'
         (snd (Client.getArticle parser clock encodeURIComponent
                 law_id article paragraph (Tools.network env))))
    /\ world st' = world (Tools.cache env).
Proof.
  intros Hid Harticle Hready.
  destruct (get_ready (Tools.cache env) lawText law_id Hready)
    as (c' & E & _ & _ & _).
  exists (mkState c' (world (Tools.cache env))). split; [|reflexivity].
  unfold Tools.getArticle, str_eqb.
  rewrite !bool_decide_eq_false_2 by assumption.
  unfold Eff.bind at 1. unfold Tools.onCache at 1. rewrite E.
  unfold Eff.bind at 1. unfold Tools.onClient at 1.
  cbn [Tools.cache Tools.network].
  destruct (Client.getArticle parser clock encodeURIComponent law_id article
              paragraph (Tools.network env)) as [[[found|code message]|e] net1];
    reflexivity.
Qed.

Lemma getArticle_tool_mirrors_client_witness :
  exists st' : State LawText,
    Tools.getArticle sampleParser (js "2026-01-01T00:00:00.000Z") (fun s => s)
      (js "415AC0000000057") (js "第二十条") None Tools.sampleEnv
    = (match fst (Client.getArticle sampleParser (js "2026-01-01T00:00:00.000Z")
                    (fun s => s) (js "415AC0000000057") (js "第二十条") None
                    (Tools.network (Tools.sampleEnv (T := LawText)))) with
       | Ok (Success found) =>
         Ok (Tools.mkToolResult true (articleToMarkdown found) (Some found))
       | Ok (Failure code message) => Ok (Tools.failed (js code) message)
       | Throw e => Throw e
       end,
       Tools.mkEnv st'
         (snd (Client.getArticle sampleParser (js "2026-01-01T00:00:00.000Z")
                 (fun s => s) (js "415AC0000000057") (js "第二十条") None
                 (Tools.network (Tools.sampleEnv (T := LawText))))))
    /\ world st' = world (Tools.cache (Tools.sampleEnv (T := LawText))).
Proof.
  refine (getArticle_tool_mirrors_client IntNumber sampleParser
            (js "2026-01-01T00:00:00.000Z") (fun s => s)
            (js "415AC0000000057") (js "第二十条") None Tools.sampleEnv _ _ _).
  - vm_compute. discriminate.
  - vm_compute. discriminate.
  - right. left. reflexivity.
Defined.

(** X30 (tools/getLawText): a law text that is in the cache and has not
    expired is answered from the cache: no request is made and no file is
    written. *)
Theorem getLawText_tool_cached_no_request (num : JsNumber) (parser : XMLParser)
    (clock : jsstring) (encodeURIComponent formEncode : jsstring -> jsstring)
    (law_id law_number : option jsstring) (d : LawText) (env : Tools.Env LawText) :
  given law_id <> None \/ given law_number <> None ->
  dirReady (Tools.cache env) ->
  entryAt (world (Tools.cache env))
    (getCachePath (this (Tools.cache env))
       (getCacheKey (tag lawText) (Tools.lawCacheKey law_id law_number)))
  = Hit d ->
  exists st' : State LawText,
    Tools.getLawText parser clock encodeURIComponent formEncode law_id law_number env
    = (Ok (Tools.mkToolResult true (lawTextToMarkdown d) (Some d)),
       Tools.mkEnv st' (Tools.network env))
    /\ world st' = world (Tools.cache env).
Proof.
  intros Hgiven Hready Hentry.
  destruct (get_ready (Tools.cache env) lawText
              (Tools.lawCacheKey law_id law_number) Hready) as (c' & E & _ & _ & _).
  rewrite Hentry in E.
  exists (mkState c' (world (Tools.cache env))). split; [|reflexivity].
  now apply getLawText_tool_hit.
Qed.

Lemma getLawText_tool_cached_no_request_witness :
  exists st' : State LawText,
    Tools.getLawText Tools.routedParser (js "2026-01-01T00:00:00.000Z")
      (fun s => s) (fun s => s) None (Some (js "平成十五年法律第五十七号"))
      (snd Tools.firstByNumber)
    = (Ok (Tools.mkToolResult true
             (lawTextToMarkdown
                (mkLawText (js "415AC0000000057") (js "平成十五年法律第五十七号")
                   (js "個人情報の保護に関する法律")
                   (js "## 附則" ++ nl ++ nl ++ js "### 附　則" ++ nl)
                   [] (js "2026-01-01T00:00:00.000Z")))
             (Some (mkLawText (js "415AC0000000057") (js "平成十五年法律第五十七号")
                      (js "個人情報の保護に関する法律")
                      (js "## 附則" ++ nl ++ nl ++ js "### 附　則" ++ nl)
                      [] (js "2026-01-01T00:00:00.000Z")))),
       Tools.mkEnv st' (Tools.network (snd Tools.firstByNumber)))
    /\ world st' = world (Tools.cache (snd Tools.firstByNumber)).
Proof.
  refine (getLawText_tool_cached_no_request IntNumber Tools.routedParser
            (js "2026-01-01T00:00:00.000Z") (fun s => s) (fun s => s)
            None (Some (js "平成十五年法律第五十七号")) _ (snd Tools.firstByNumber)
            _ _ _).
  - right. vm_compute. discriminate.
  - left. vm_compute. reflexivity.
  - vm_compute. reflexivity.
Defined.
